(** * cx88_sdr: the RISC DMA program and the ring-buffer read path

    A shallow embedding of the parts of the CX2388x SDR driver that build
    the scatter-gather program ([cx88sdr_make_risc_instructions]), set up
    the cluster descriptor table ([cx88sdr_sram_setup]) and serve [read]
    from the page ring ([cx88sdr_open], [cx88sdr_read]).

    Conventions.  A C [uint32_t] is a [Z] reduced with [u32]; the signed
    64-bit file position and the [size_t] request length are exact [Z]s
    (the VFS hands the driver [0 <= pos], [pos + size < 2^63]).  MMIO
    writes are effects on a device, so they are kept as a trace of
    (byte offset, value) pairs; MMIO reads of the general purpose counter
    come from a stream of raw values, one per read. *)

From Stdlib Require Import ZArith List Bool Lia Permutation.
Import ListNotations.
Local Open Scope Z_scope.

(** ** Integer helpers *)

Definition u32 (x : Z) : Z := x mod 2 ^ 32.

(** ** Constants of cx88_sdr.h *)

(** Modelled from the spec: the kernel macro PAGE_SHIFT is not part of the
    repository; the spec fixes the hardware page size at 4096 bytes, which
    is also what the two 2048-byte transfers per page of the RISC program
    presuppose. *)
Definition PAGE_SHIFT : Z := 12.
Definition PAGE_SIZE : Z := Z.shiftl 1 PAGE_SHIFT.

Definition MO_PCI_INTMSK : Z := 0x200040.
Definition MO_DMA24_PTR2 : Z := 0x3000cc.
Definition MO_DMA24_CNT1 : Z := 0x30010c.
Definition MO_DMA24_CNT2 : Z := 0x30014c.
Definition MO_VBI_GPCNT : Z := 0x31c02c.

Definition CX_SRAM_BASE : Z := 0x180000.
Definition CHN24_CMDS_BASE : Z := 0x180100.
Definition RISC_INST_QUEUE : Z := CX_SRAM_BASE + 0x0800.
Definition CDT_BASE : Z := CX_SRAM_BASE + 0x1000.
Definition CLUSTER_BUFFER_BASE : Z := CX_SRAM_BASE + 0x4000.

Definition RISC_WRITE : Z := 0x10000000.
Definition RISC_JUMP : Z := 0x70000000.
Definition RISC_SYNC : Z := 0x80000000.

Definition CLUSTER_BUF_NUM : Z := 8.
Definition CLUSTER_BUF_SIZE : Z := 2048.

Definition VBI_DMA_SIZE : Z := 64 * 1024 * 1024.
Definition VBI_DMA_PAGES : Z := Z.shiftr VBI_DMA_SIZE PAGE_SHIFT.
Definition VBI_DMA_BUF_NUM : Z := VBI_DMA_SIZE / CLUSTER_BUF_SIZE.

Definition EFAULT : Z := 14.
Definition ENOMEM : Z := 12.

(** ** struct cx88sdr_dev

    Only the fields the modelled functions touch.  [pgvec_virt p o] is the
    byte stored at [dev->pgvec_virt[p] + o]: the ring is 64 MiB, so page
    contents are a function rather than a list.  [risc_inst_virt] holds
    the dwords of the instruction buffer from its start. *)

Record cx88sdr_dev : Type := mk_dev {
  risc_inst_phy : Z;
  pgvec_phy : list Z;
  risc_inst_buff_size : Z;
  risc_inst_virt : list Z;
  initial_page : Z;
  pgvec_virt : Z -> Z -> Z;
  mmio_log : list (Z * Z)
}.

(** [mmio_iowrite32]: [dev->mmio] is a [uint32_t *], so the dword index
    [reg >> 2] addresses byte offset [4 * (reg >> 2)]. *)
Definition mmio_iowrite32 (dev : cx88sdr_dev) (reg val : Z) : cx88sdr_dev :=
  mk_dev (risc_inst_phy dev) (pgvec_phy dev) (risc_inst_buff_size dev)
         (risc_inst_virt dev) (initial_page dev) (pgvec_virt dev)
         (mmio_log dev ++ [(4 * Z.shiftr (u32 reg) 2, u32 val)]).

(** ** cx88sdr_alloc_risc_inst_buffer

    [alloc] is what dma_alloc_coherent hands back: [None] for a failed
    allocation, otherwise the bus address of a buffer of the requested
    size.  The buffer is cleared by the memset. *)
Definition cx88sdr_alloc_risc_inst_buffer (dev : cx88sdr_dev)
    (alloc : Z -> option Z) : Z * cx88sdr_dev :=
  let size := u32 (VBI_DMA_BUF_NUM * CLUSTER_BUF_NUM + PAGE_SIZE) in
  match alloc size with
  | None =>
      (- ENOMEM,
       mk_dev (risc_inst_phy dev) (pgvec_phy dev) size []
              (initial_page dev) (pgvec_virt dev) (mmio_log dev))
  | Some phy =>
      (0,
       mk_dev phy (pgvec_phy dev) size (repeat 0 (Z.to_nat (size / 4)))
              (initial_page dev) (pgvec_virt dev) (mmio_log dev))
  end.

(** ** cx88sdr_make_risc_instructions *)

(** First dword of the first transfer of a page. *)
Definition risc_write_lo : Z :=
  Z.lor (Z.lor RISC_WRITE CLUSTER_BUF_SIZE) (Z.shiftl 3 26).

(** First dword of the second transfer of page [i], with the running
    counter already at [irqt]. *)
Definition risc_write_hi (irqt i : Z) : Z :=
  Z.lor (Z.lor (Z.lor (Z.lor RISC_WRITE CLUSTER_BUF_SIZE) (Z.shiftl 3 26))
               (Z.shiftl (if irqt =? 0 then 1 else 0) 24))
        (Z.shiftl (if i <? VBI_DMA_PAGES - 1 then 1 else 3) 16).

(** The body of the [for] loop, [n] iterations from index [i]; the result
    is the list of dwords stored through [pp], in order. *)
Fixpoint risc_pages (dev : cx88sdr_dev) (n : nat) (i irqt : Z) : list Z :=
  match n with
  | O => []
  | S n' =>
      let irqt := irqt + 1 in
      let irqt := Z.land irqt 0x1ff in
      let dma_addr := u32 (nth (Z.to_nat i) (pgvec_phy dev) 0) in
      risc_write_lo
        :: dma_addr
        :: risc_write_hi irqt i
        :: u32 (dma_addr + CLUSTER_BUF_SIZE)
        :: risc_pages dev n' (i + 1) irqt
  end.

(** The dwords the function stores from the start of [risc_inst_virt]. *)
Definition cx88sdr_make_risc_instructions (dev : cx88sdr_dev) : list Z :=
  let loop_addr := u32 (risc_inst_phy dev + 4) in
  [u32 (Z.lor RISC_SYNC (Z.shiftl 3 16))]
    ++ risc_pages dev (Z.to_nat VBI_DMA_PAGES) 0 0
    ++ [RISC_JUMP; loop_addr].

(** ** Reading the dword stream as instructions

    The opcode is the top nibble of the first dword.  SYNC is one dword;
    WRITE and JUMP are followed by one address dword. *)

Inductive risc_instr : Type :=
| Sync (ctl : Z)
| Write (ctl addr : Z)
| Jump (addr : Z).

Definition risc_opcode (w : Z) : Z := Z.shiftr w 28.

Fixpoint risc_decode (ws : list Z) : option (list risc_instr) :=
  match ws with
  | [] => Some []
  | w :: rest =>
      if risc_opcode w =? 8 then option_map (cons (Sync w)) (risc_decode rest)
      else
        match rest with
        | [] => None
        | a :: rest' =>
            if risc_opcode w =? 1
            then option_map (cons (Write w a)) (risc_decode rest')
            else if risc_opcode w =? 7
            then option_map (cons (Jump a)) (risc_decode rest')
            else None
        end
  end.

(** Fields of a WRITE control dword. *)
Definition write_len (ctl : Z) : Z := Z.land ctl 0xfff.
Definition write_irq (ctl : Z) : bool := Z.testbit ctl 24.
Definition write_cnt (ctl : Z) : Z := Z.land (Z.shiftr ctl 16) 3.

Definition instr_irq (ins : risc_instr) : bool :=
  match ins with
  | Write ctl _ => write_irq ctl
  | _ => false
  end.

Definition is_write (ins : risc_instr) : bool :=
  match ins with
  | Write _ _ => true
  | _ => false
  end.

(** The two transfers of page [i] as the loop emits them, with the counter
    in closed form. *)
Definition page_addr (dev : cx88sdr_dev) (i : Z) : Z :=
  u32 (nth (Z.to_nat i) (pgvec_phy dev) 0).

Definition page_instrs (dev : cx88sdr_dev) (i : Z) : list risc_instr :=
  [ Write risc_write_lo (page_addr dev i);
    Write (risc_write_hi ((i + 1) mod 512) i)
          (u32 (page_addr dev i + CLUSTER_BUF_SIZE)) ].

Fixpoint pages_instrs (dev : cx88sdr_dev) (n : nat) (i : Z) : list risc_instr :=
  match n with
  | O => []
  | S n' => page_instrs dev i ++ pages_instrs dev n' (i + 1)
  end.

(** The instruction stream the dwords are expected to spell. *)
Definition risc_program (dev : cx88sdr_dev) : list risc_instr :=
  Sync (u32 (Z.lor RISC_SYNC (Z.shiftl 3 16)))
    :: pages_instrs dev (Z.to_nat VBI_DMA_PAGES) 0
    ++ [Jump (u32 (risc_inst_phy dev + 4))].

(** ** cx88sdr_sram_setup *)

(** The CDT loop: [n] iterations from index [i], [buff] advancing by
    [buffsize] in 32-bit arithmetic. *)
Fixpoint sram_cdt (dev : cx88sdr_dev) (n : nat) (i buff buffsize cdt : Z)
    : cx88sdr_dev :=
  match n with
  | O => dev
  | S n' =>
      sram_cdt (mmio_iowrite32 dev (cdt + 16 * i) buff) n' (i + 1)
               (u32 (buff + buffsize)) buffsize cdt
  end.

Definition cx88sdr_sram_setup (dev : cx88sdr_dev)
    (numbuf buffsize buffptr cdtptr : Z) : cx88sdr_dev :=
  let buff := buffptr in
  let cdt := cdtptr in
  (* Write CDT *)
  let dev := sram_cdt dev (Z.to_nat numbuf) 0 buff buffsize cdt in
  (* Write CMDS *)
  let dev := mmio_iowrite32 dev (CHN24_CMDS_BASE + 0) (risc_inst_phy dev) in
  let dev := mmio_iowrite32 dev (CHN24_CMDS_BASE + 4) cdt in
  let dev := mmio_iowrite32 dev (CHN24_CMDS_BASE + 8) (numbuf * 2) in
  let dev := mmio_iowrite32 dev (CHN24_CMDS_BASE + 12) RISC_INST_QUEUE in
  let dev := mmio_iowrite32 dev (CHN24_CMDS_BASE + 16) 0x40 in
  (* Fill registers *)
  let dev := mmio_iowrite32 dev MO_DMA24_PTR2 cdt in
  let dev := mmio_iowrite32 dev MO_DMA24_CNT1 (Z.shiftr buffsize 3 - 1) in
  mmio_iowrite32 dev MO_DMA24_CNT2 (numbuf * 2).

(** The CDT entries the loop is expected to write, as (offset, value). *)
Fixpoint cdt_entries (n : nat) (i buff buffsize cdt : Z) : list (Z * Z) :=
  match n with
  | O => []
  | S n' =>
      (cdt + 16 * i, buff) :: cdt_entries n' (i + 1) (buff + buffsize) buffsize cdt
  end.

(** The register writes that follow the table. *)
Definition sram_regs (dev : cx88sdr_dev) (numbuf buffsize cdt : Z) : list (Z * Z) :=
  [ (CHN24_CMDS_BASE + 0, risc_inst_phy dev);
    (CHN24_CMDS_BASE + 4, cdt);
    (CHN24_CMDS_BASE + 8, numbuf * 2);
    (CHN24_CMDS_BASE + 12, RISC_INST_QUEUE);
    (CHN24_CMDS_BASE + 16, 0x40);
    (MO_DMA24_PTR2, cdt);
    (MO_DMA24_CNT1, Z.shiftr buffsize 3 - 1);
    (MO_DMA24_CNT2, numbuf * 2) ].

(** The call made by cx88sdr_probe. *)
Definition probe_sram_setup (dev : cx88sdr_dev) : cx88sdr_dev :=
  cx88sdr_sram_setup dev CLUSTER_BUF_NUM CLUSTER_BUF_SIZE
                     CLUSTER_BUFFER_BASE CDT_BASE.

(** ** The file interface *)

(** [struct file]: the open flags and the file position. *)
Record file : Type := mk_file {
  f_flags : Z;
  f_pos : Z
}.

(** The counter register is read-only and driven by the device: the
    [n]-th read of MO_VBI_GPCNT returns the [n]-th value of the stream. *)
Definition mmio_ioread32 (gpcnt : nat -> Z) (n : nat) : Z := u32 (gpcnt n).

(** The user buffer: [u_limit] bytes from the pointer passed to [read]
    are writable, [u_mem] is what they hold. *)
Record user_buf : Type := mk_user {
  u_limit : Z;
  u_mem : Z -> Z
}.

Definition load_bytes (m : Z -> Z) (off len : Z) : list Z :=
  map (fun k => m (off + Z.of_nat k)) (seq 0 (Z.to_nat len)).

Definition store_bytes (m : Z -> Z) (off : Z) (data : list Z) : Z -> Z :=
  fun a =>
    if (off <=? a) && (a <? off + Z.of_nat (length data))
    then nth (Z.to_nat (a - off)) data 0
    else m a.

Definition memset (m : Z -> Z) (off c len : Z) : Z -> Z :=
  fun a => if (off <=? a) && (a <? off + len) then c else m a.

(** copy_to_user returns the number of bytes it could not copy; the bytes
    in front of the first unwritable one are stored. *)
Definition copy_to_user (u : user_buf) (dst : Z) (data : list Z)
    : Z * user_buf :=
  let len := Z.of_nat (length data) in
  let done := Z.max 0 (Z.min len (u_limit u - dst)) in
  (len - done,
   mk_user (u_limit u)
           (store_bytes (u_mem u) dst (firstn (Z.to_nat done) data))).

(** ** cx88sdr_open *)

Definition set_initial_page (dev : cx88sdr_dev) (p : Z) : cx88sdr_dev :=
  mk_dev (risc_inst_phy dev) (pgvec_phy dev) (risc_inst_buff_size dev)
         (risc_inst_virt dev) p (pgvec_virt dev) (mmio_log dev).

(** What a call leaves behind: the status, the device, the file as the
    driver leaves it and the number of counter reads consumed so far. *)
Record open_out : Type := mk_open {
  open_ret : Z;
  open_dev : cx88sdr_dev;
  open_file : file;
  open_polls : nat
}.

Definition cx88sdr_open (gpcnt : nat -> Z) (polls : nat)
    (dev : cx88sdr_dev) (f : file) : open_out :=
  let dev := set_initial_page dev (u32 (mmio_ioread32 gpcnt polls - 1)) in
  let dev := mmio_iowrite32 dev MO_PCI_INTMSK 1 in
  mk_open 0 dev f (S polls).

(** ** cx88sdr_read *)

Definition set_pgvec_virt (dev : cx88sdr_dev) (pv : Z -> Z -> Z) : cx88sdr_dev :=
  mk_dev (risc_inst_phy dev) (pgvec_phy dev) (risc_inst_buff_size dev)
         (risc_inst_virt dev) (initial_page dev) pv (mmio_log dev).

(** [gp_cnt = (!gp_cnt) ? (VBI_DMA_PAGES - 1) : (gp_cnt - 1)] *)
Definition gp_cnt_last (gp_cnt : Z) : Z :=
  if gp_cnt =? 0 then u32 (VBI_DMA_PAGES - 1) else u32 (gp_cnt - 1).

(** [(dev->initial_page + (( *pos % VBI_DMA_SIZE) >> PAGE_SHIFT)) % VBI_DMA_PAGES]:
    the sum is formed in 64-bit signed arithmetic and stored in a
    [uint32_t]. *)
Definition page_of_pos (dev : cx88sdr_dev) (pos : Z) : Z :=
  u32 (Z.rem (initial_page dev + Z.shiftr (Z.rem pos VBI_DMA_SIZE) PAGE_SHIFT)
             VBI_DMA_PAGES).

(** The length of one copy: up to the end of the page, at most [size].
    PAGE_SIZE is an [unsigned long], so [*pos % PAGE_SIZE] is an unsigned
    remainder, a value in [[0, PAGE_SIZE)]. *)
Definition chunk_len (pos size : Z) : Z :=
  let len :=
    if negb (pos mod PAGE_SIZE =? 0)
    then PAGE_SIZE - pos mod PAGE_SIZE
    else PAGE_SIZE in
  if size <? len then size else len.

(** The locals of the function while it loops, with the memory it works
    on. *)
Record rd_state : Type := mk_rd {
  rd_result : Z;
  rd_buf : Z;
  rd_pos : Z;
  rd_size : Z;
  rd_pnum : Z;
  rd_gp_cnt : Z;
  rd_dev : cx88sdr_dev;
  rd_user : user_buf;
  rd_polls : nat
}.

Definition rd_set_user (st : rd_state) (u : user_buf) : rd_state :=
  mk_rd (rd_result st) (rd_buf st) (rd_pos st) (rd_size st) (rd_pnum st)
        (rd_gp_cnt st) (rd_dev st) u (rd_polls st).

Inductive chunk_out : Type :=
| ChunkFault (st : rd_state)
| ChunkDone (st : rd_state).

(** Does copy_to_user fail for the next chunk of [st]? *)
Definition chunk_faults (st : rd_state) : bool :=
  let off := rd_pos st mod PAGE_SIZE in
  let len := chunk_len (rd_pos st) (rd_size st) in
  negb (fst (copy_to_user (rd_user st) (rd_buf st)
               (load_bytes (pgvec_virt (rd_dev st) (rd_pnum st)) off len)) =? 0).

(** The body of the inner [while]. *)
Definition copy_chunk (st : rd_state) : chunk_out :=
  let off := rd_pos st mod PAGE_SIZE in
  let len := chunk_len (rd_pos st) (rd_size st) in
  let page := pgvec_virt (rd_dev st) (rd_pnum st) in
  let r := copy_to_user (rd_user st) (rd_buf st) (load_bytes page off len) in
  if negb (fst r =? 0) then ChunkFault (rd_set_user st (snd r))
  else
    let pv := fun p =>
      if p =? rd_pnum st then memset (pgvec_virt (rd_dev st) p) off 0 len
      else pgvec_virt (rd_dev st) p in
    let dev := set_pgvec_virt (rd_dev st) pv in
    let pos := rd_pos st + len in
    ChunkDone (mk_rd (rd_result st + len) (rd_buf st + len) pos
                     (rd_size st - len) (page_of_pos dev pos)
                     (rd_gp_cnt st) dev (snd r) (rd_polls st)).

Definition chunk_ready (st : rd_state) : bool :=
  (0 <? rd_size st) && negb (rd_pnum st =? rd_gp_cnt st).

Inductive inner_out : Type :=
| InnerFault (st : rd_state)
| InnerExit (st : rd_state).

(** The inner [while ((size > 0) && (pnum != gp_cnt))], at most [n]
    iterations. *)
Fixpoint read_pages (n : nat) (st : rd_state) : option inner_out :=
  if chunk_ready st then
    match n with
    | O => None
    | S n' =>
        match copy_chunk st with
        | ChunkFault st' => Some (InnerFault st')
        | ChunkDone st' => read_pages n' st'
        end
    end
  else Some (InnerExit st).

Section ReadPath.

(** The flag bit comes from the kernel headers. *)
Variable O_NONBLOCK : Z.

(** The stream of raw counter values. *)
Variable gpcnt : nat -> Z.

Definition nonblocking (f : file) : bool :=
  negb (Z.land (f_flags f) O_NONBLOCK =? 0).

(** Reading the counter again at the end of an outer iteration. *)
Definition poll_gp_cnt (st : rd_state) : rd_state :=
  mk_rd (rd_result st) (rd_buf st) (rd_pos st) (rd_size st) (rd_pnum st)
        (gp_cnt_last (mmio_ioread32 gpcnt (rd_polls st)))
        (rd_dev st) (rd_user st) (S (rd_polls st)).

(** The outer [while (size)]; [fuel] bounds its iterations, [None] is a
    reader still spinning on the counter.  The inner loop gets
    [rd_size st] iterations, one per byte, which it cannot use up. *)
Fixpoint read_wait (f : file) (fuel : nat) (st : rd_state)
    : option (Z * rd_state) :=
  if rd_size st =? 0 then Some (rd_result st, st)
  else
    match fuel with
    | O => None
    | S fuel' =>
        match read_pages (Z.to_nat (rd_size st)) st with
        | None => None
        | Some (InnerFault st') => Some (- EFAULT, st')
        | Some (InnerExit st') =>
            if negb (rd_size st' =? 0) then
              if nonblocking f then Some (rd_result st', st')
              else read_wait f fuel' (poll_gp_cnt st')
            else read_wait f fuel' st'
        end
    end.

(** The state right after the first counter read. *)
Definition read_init (polls : nat) (dev : cx88sdr_dev) (user : user_buf)
    (size pos : Z) : rd_state :=
  let result := 0 in
  let pnum := page_of_pos dev pos in
  let gp_cnt := mmio_ioread32 gpcnt polls in
  let gp_cnt := gp_cnt_last gp_cnt in
  mk_rd result 0 pos size pnum gp_cnt dev user (S polls).

(** [cx88sdr_read]: the return value and the final state, in which
    [rd_pos] is the updated [*pos]. *)
Definition cx88sdr_read (fuel : nat) (polls : nat) (dev : cx88sdr_dev)
    (f : file) (user : user_buf) (size pos : Z) : option (Z * rd_state) :=
  let st := read_init polls dev user size pos in
  if (rd_pnum st =? rd_gp_cnt st) && nonblocking f
  then Some (rd_result st, st)
  else read_wait f fuel st.

(** One iteration the call can go through without returning: a copy that
    succeeds, or (blocking mode only) a fresh read of the counter. *)
Inductive rd_step (f : file) : rd_state -> rd_state -> Prop :=
| rd_step_copy st st' :
    chunk_ready st = true ->
    copy_chunk st = ChunkDone st' ->
    rd_step f st st'
| rd_step_poll st :
    rd_size st <> 0 ->
    chunk_ready st = false ->
    nonblocking f = false ->
    rd_step f st (poll_gp_cnt st).

Inductive rd_reaches (f : file) : rd_state -> rd_state -> Prop :=
| rd_reaches_refl st : rd_reaches f st st
| rd_reaches_step st1 st2 st3 :
    rd_step f st1 st2 -> rd_reaches f st2 st3 -> rd_reaches f st1 st3.

End ReadPath.

(** ** Statements about the program

    [prog] is the instruction stream; position 0 holds the SYNC, positions
    [1 + 2i] and [2 + 2i] the two transfers of page [i], the last position
    the JUMP. *)

Definition two_writes_per_page (dev : cx88sdr_dev) (prog : list risc_instr) : Prop :=
  Z.of_nat (length prog) = 1 + 2 * VBI_DMA_PAGES + 1 /\
  nth 0 prog (Jump 0) = Sync (Z.lor RISC_SYNC (Z.shiftl 3 16)) /\
  (forall i, 0 <= i < VBI_DMA_PAGES ->
     exists c1 c2,
       nth (Z.to_nat (1 + 2 * i)) prog (Jump 0) =
         Write c1 (nth (Z.to_nat i) (pgvec_phy dev) 0) /\
       nth (Z.to_nat (2 + 2 * i)) prog (Jump 0) =
         Write c2 (nth (Z.to_nat i) (pgvec_phy dev) 0 + CLUSTER_BUF_SIZE) /\
       write_len c1 = CLUSTER_BUF_SIZE /\
       write_len c2 = CLUSTER_BUF_SIZE) /\
  2 * CLUSTER_BUF_SIZE = PAGE_SIZE /\
  nth (Z.to_nat (1 + 2 * VBI_DMA_PAGES)) prog (Sync 0) =
    Jump (u32 (risc_inst_phy dev + 4)).

(** The interrupt bit as the loop sets it: never on the first transfer of
    a page, on the second transfer of every 512th page. *)
Definition irq_every_512_pages (prog : list risc_instr) : Prop :=
  forall i, 0 <= i < VBI_DMA_PAGES ->
    instr_irq (nth (Z.to_nat (1 + 2 * i)) prog (Sync 0)) = false /\
    instr_irq (nth (Z.to_nat (2 + 2 * i)) prog (Sync 0)) = ((i + 1) mod 512 =? 0).

(** The same cadence counted in WRITE instructions: the [k + 1]-th WRITE
    carries the bit when [k + 1] is a multiple of [period]. *)
Definition irq_every_n_writes (period : Z) (prog : list risc_instr) : Prop :=
  forall k, 0 <= k < 2 * VBI_DMA_PAGES ->
    instr_irq (nth (Z.to_nat (1 + k)) prog (Sync 0)) = ((k + 1) mod period =? 0).

(** A device with its 16384 pages (and the spare slot) laid out from
    256 MiB, the instruction buffer at 512 MiB. *)
Definition example_page (k : nat) : Z := 0x10000000 + 4096 * Z.of_nat k.

Definition example_dev : cx88sdr_dev :=
  mk_dev 0x20000000
         (map example_page (seq 0 (Z.to_nat (VBI_DMA_PAGES + 1))))
         0 [] 0 (fun p o => (p + o) mod 256) [].

(** ** Statements about the read path *)

(** [st'] is [st] after [n] more bytes went to the user: the count, the
    user pointer and the position moved up by [n], the request shrank by
    [n], and the sampled counter is the same. *)
Definition rd_advanced (n : Z) (st st' : rd_state) : Prop :=
  rd_result st' = rd_result st + n /\
  rd_buf st' = rd_buf st + n /\
  rd_pos st' = rd_pos st + n /\
  rd_size st' = rd_size st - n /\
  rd_gp_cnt st' = rd_gp_cnt st /\
  rd_polls st' = rd_polls st.

(** A small device for running the read path: the session starts at
    page 4, byte [o] of page [p] holds [(p + o) mod 256]. *)
Definition read_dev : cx88sdr_dev :=
  mk_dev 0 [] 0 [] 4 (fun p o => (p + o) mod 256) [].

(** What a successful copy from [st] does: the user gets the bytes of the
    page region, the region (and nothing else) is cleared, and a second
    copy of the same region, from any state [st2] that looks at it before
    the device has written to it, delivers zeros. *)
Definition copy_tombstones (st : rd_state) : Prop :=
  let off := rd_pos st mod PAGE_SIZE in
  let len := chunk_len (rd_pos st) (rd_size st) in
  exists st',
    copy_chunk st = ChunkDone st' /\
    (forall n, read_pages (S n) st = read_pages n st') /\
    load_bytes (u_mem (rd_user st')) (rd_buf st) len =
      load_bytes (pgvec_virt (rd_dev st) (rd_pnum st)) off len /\
    (forall o, off <= o < off + len ->
       pgvec_virt (rd_dev st') (rd_pnum st) o = 0) /\
    (forall p o, ~ (p = rd_pnum st /\ off <= o < off + len) ->
       pgvec_virt (rd_dev st') p o = pgvec_virt (rd_dev st) p o) /\
    (forall st2,
       rd_pos st2 = rd_pos st -> rd_size st2 = rd_size st ->
       rd_pnum st2 = rd_pnum st ->
       pgvec_virt (rd_dev st2) = pgvec_virt (rd_dev st') ->
       chunk_faults st2 = false ->
       exists st3,
         copy_chunk st2 = ChunkDone st3 /\
         load_bytes (u_mem (rd_user st3)) (rd_buf st2) len =
           repeat 0 (Z.to_nat len)).

(** The state a copy from [st] leaves. *)
Definition after_chunk (st : rd_state) : rd_state :=
  match copy_chunk st with
  | ChunkFault s => s
  | ChunkDone s => s
  end.

(** ** Statements about whole calls of cx88sdr_read *)

(** The byte of the ring that logical offset [q] of the session names. *)
Definition ring_byte (dev : cx88sdr_dev) (q : Z) : Z :=
  pgvec_virt dev (page_of_pos dev q) (q mod PAGE_SIZE).

(** The bookkeeping of a call that started at [pos0] for [size0] bytes on
    device [dev0] with user buffer [user0]: the count so far ties the
    position, the user pointer and the remaining length together, and
    [rd_pnum] is the page of the current position. *)
Definition rd_tracks (dev0 : cx88sdr_dev) (user0 : user_buf) (size0 pos0 : Z)
    (st : rd_state) : Prop :=
  initial_page (rd_dev st) = initial_page dev0 /\
  rd_pnum st = page_of_pos dev0 (rd_pos st) /\
  rd_pos st = pos0 + rd_result st /\
  rd_buf st = rd_result st /\
  rd_size st = size0 - rd_result st /\
  0 <= rd_result st <= size0 /\
  u_limit (rd_user st) = u_limit user0.

(** The copy [st] is about to make stays inside one page of the ring. *)
Definition chunk_in_bounds (st : rd_state) : Prop :=
  0 <= rd_pnum st < VBI_DMA_PAGES /\
  0 <= rd_pos st mod PAGE_SIZE /\
  rd_pos st mod PAGE_SIZE + chunk_len (rd_pos st) (rd_size st) <= PAGE_SIZE.

(** How a call can end at [st]: with the count it has built up (the
    request is served, or the call is non-blocking and nothing is ready),
    or with -EFAULT because the copy that was due at [st] failed. *)
Inductive rd_ends (nonblock : bool) (st : rd_state) : Z -> rd_state -> Prop :=
| rd_ends_count :
    (rd_size st = 0 \/ (nonblock = true /\ chunk_ready st = false)) ->
    rd_ends nonblock st (rd_result st) st
| rd_ends_fault :
    chunk_ready st = true -> chunk_faults st = true ->
    rd_ends nonblock st (- EFAULT) (after_chunk st).


(** What the call has done to the ring by the time it is at [st]: the
    bytes of the offsets it has passed are zero, every other byte is as it
    was. *)
Definition rd_cleared (dev0 : cx88sdr_dev) (pos0 : Z) (st : rd_state) : Prop :=
  (forall q, pos0 <= q < rd_pos st -> ring_byte (rd_dev st) q = 0) /\
  (forall p o,
     (forall q, pos0 <= q < rd_pos st ->
        ~ (p = page_of_pos dev0 q /\ o = q mod PAGE_SIZE)) ->
     pgvec_virt (rd_dev st) p o = pgvec_virt dev0 p o).


(** ** The format and control interface (cx88_sdr_v4l2.c) *)

Definition EINVAL : Z := 22.

Definition MO_VID_DMACNTRL : Z := 0x31c040.
Definition MO_DEV_CNTRL2 : Z := 0x200034.
Definition MO_VID_INTMSK : Z := 0x200050.
Definition MO_VID_INTSTAT : Z := 0x200054.
Definition MO_INPUT_FORMAT : Z := 0x310104.
Definition MO_CONTR_BRIGHT : Z := 0x310110.
Definition MO_OUTPUT_FORMAT : Z := 0x310164.
Definition MO_PLL_REG : Z := 0x310168.
Definition MO_SCONV_REG : Z := 0x310170.
Definition MO_CAPTURE_CTRL : Z := 0x310180.
Definition MO_COLOR_CTRL : Z := 0x310184.
Definition MO_VBI_PACKET : Z := 0x310188.
Definition MO_AGC_BACK_VBI : Z := 0x310200.
Definition MO_AGC_SYNC_SLICER : Z := 0x310204.
Definition MO_AGC_SYNC_TIP2 : Z := 0x31020c.
Definition MO_AGC_SYNC_TIP3 : Z := 0x310210.
Definition MO_AGC_GAIN_ADJ2 : Z := 0x310218.
Definition MO_AGC_GAIN_ADJ3 : Z := 0x31021c.
Definition MO_AGC_GAIN_ADJ4 : Z := 0x310220.
Definition MO_AFECFG_IO : Z := 0x35c04c.

Definition RATE_4FSC_8BIT : Z := 0.
Definition RATE_8FSC_8BIT : Z := 1.
Definition RATE_10FSC_8BIT : Z := 2.
Definition RATE_2FSC_16BIT : Z := 3.
Definition RATE_4FSC_16BIT : Z := 4.
Definition RATE_5FSC_16BIT : Z := 5.

(** The V4L2 fields of [struct cx88sdr_dev]. *)
Record sdr_ctl : Type := mk_ctl {
  gain : Z;
  input : Z;
  rate : Z;
  pixelformat : Z;
  buffersize : Z
}.

(** [struct v4l2_format], the [fmt.sdr] member. *)
Record v4l2_sdr_format : Type := mk_sdr_format {
  sdr_pixelformat : Z;
  sdr_buffersize : Z;
  sdr_reserved : list Z
}.

(** [struct v4l2_fmtdesc], the fields the driver looks at. *)
Record v4l2_fmtdesc : Type := mk_fmtdesc {
  fd_index : Z;
  fd_pixelformat : Z
}.

(** [memset(f->fmt.sdr.reserved, 0, sizeof(f->fmt.sdr.reserved))] *)
Definition clear_reserved (r : list Z) : list Z := repeat 0 (length r).

Section Formats.

(** The two fourcc codes come from videodev2.h. *)
Variable V4L2_SDR_FMT_CU8 : Z.
Variable V4L2_SDR_FMT_CU16LE : Z.

Definition cx88sdr_enum_fmt_sdr (fd : v4l2_fmtdesc) : Z * v4l2_fmtdesc :=
  if 1 <? fd_index fd then (- EINVAL, fd)
  else if fd_index fd =? 0
  then (0, mk_fmtdesc (fd_index fd) V4L2_SDR_FMT_CU8)
  else if fd_index fd =? 1
  then (0, mk_fmtdesc (fd_index fd) V4L2_SDR_FMT_CU16LE)
  else (0, fd).

Definition cx88sdr_try_fmt_sdr (fmt : v4l2_sdr_format) : Z * v4l2_sdr_format :=
  let reserved := clear_reserved (sdr_reserved fmt) in
  if sdr_pixelformat fmt =? V4L2_SDR_FMT_CU8
  then (0, mk_sdr_format (sdr_pixelformat fmt) 1 reserved)
  else if sdr_pixelformat fmt =? V4L2_SDR_FMT_CU16LE
  then (0, mk_sdr_format (sdr_pixelformat fmt) 2 reserved)
  else (0, mk_sdr_format V4L2_SDR_FMT_CU8 1 reserved).

Definition cx88sdr_g_fmt_sdr (ctl : sdr_ctl) (fmt : v4l2_sdr_format)
    : Z * v4l2_sdr_format :=
  (0, mk_sdr_format (pixelformat ctl) (buffersize ctl)
                    (clear_reserved (sdr_reserved fmt))).

Definition set_format (ctl : sdr_ctl) (pf bs : Z) : sdr_ctl :=
  mk_ctl (gain ctl) (input ctl) (rate ctl) pf bs.

Definition cx88sdr_s_fmt_sdr (ctl : sdr_ctl) (fmt : v4l2_sdr_format)
    : Z * sdr_ctl * v4l2_sdr_format :=
  let reserved := clear_reserved (sdr_reserved fmt) in
  if sdr_pixelformat fmt =? V4L2_SDR_FMT_CU8
  then (0, set_format ctl V4L2_SDR_FMT_CU8 1,
        mk_sdr_format (sdr_pixelformat fmt) 1 reserved)
  else if sdr_pixelformat fmt =? V4L2_SDR_FMT_CU16LE
  then (0, set_format ctl V4L2_SDR_FMT_CU16LE 2,
        mk_sdr_format (sdr_pixelformat fmt) 2 reserved)
  else (0, set_format ctl V4L2_SDR_FMT_CU8 1,
        mk_sdr_format V4L2_SDR_FMT_CU8 1 reserved).

(** The format pairs the driver works with: one byte per sample for
    CU8, two for CU16LE. *)
Definition supported_format (pf bs : Z) : Prop :=
  (pf = V4L2_SDR_FMT_CU8 /\ bs = 1) \/ (pf = V4L2_SDR_FMT_CU16LE /\ bs = 2).

End Formats.

(** ** Gain, input and rate (cx88_sdr_v4l2.c) *)

Definition cx88sdr_gain_set (dev : cx88sdr_dev) (ctl : sdr_ctl) : cx88sdr_dev :=
  mmio_iowrite32 dev MO_AGC_GAIN_ADJ4
    (Z.lor (Z.lor (Z.shiftl 1 23) (u32 (Z.shiftl (gain ctl) 16)))
           (Z.shiftl 0xff 8)).

Definition cx88sdr_agc_setup (dev : cx88sdr_dev) (ctl : sdr_ctl) : cx88sdr_dev :=
  let dev := mmio_iowrite32 dev MO_AGC_BACK_VBI
               (Z.lor (Z.lor (Z.shiftl 1 25) (Z.shiftl 0x100 16)) 0xfff) in
  let dev := mmio_iowrite32 dev MO_AGC_SYNC_SLICER 0x0 in
  let dev := mmio_iowrite32 dev MO_AGC_SYNC_TIP2 (Z.lor (Z.shiftl 0x20 17) 0xf) in
  let dev := mmio_iowrite32 dev MO_AGC_SYNC_TIP3
               (Z.lor (Z.lor (Z.shiftl 0x1e48 16) (Z.shiftl 0xff 8)) 0x8) in
  let dev := mmio_iowrite32 dev MO_AGC_GAIN_ADJ2 (Z.lor (Z.shiftl 0x20 17) 0xf) in
  let dev := mmio_iowrite32 dev MO_AGC_GAIN_ADJ3
               (Z.lor (Z.lor (Z.shiftl 0x28 16) (Z.shiftl 0x28 8)) 0x50) in
  cx88sdr_gain_set dev ctl.

Definition cx88sdr_input_set (dev : cx88sdr_dev) (ctl : sdr_ctl) : cx88sdr_dev :=
  mmio_iowrite32 dev MO_INPUT_FORMAT
    (Z.lor (Z.lor (Z.lor (Z.lor (Z.shiftl 1 16) (u32 (Z.shiftl (input ctl) 14)))
                         (Z.shiftl 1 13))
                  (Z.shiftl 1 4))
           0x1).

(** The three register writes of one [case] of cx88sdr_rate_set. *)
Definition rate_regs (dev : cx88sdr_dev) (capture sconv pll : Z) : cx88sdr_dev :=
  let dev := mmio_iowrite32 dev MO_CAPTURE_CTRL capture in
  let dev := mmio_iowrite32 dev MO_SCONV_REG sconv in
  mmio_iowrite32 dev MO_PLL_REG pll.

Definition cx88sdr_rate_set (dev : cx88sdr_dev) (ctl : sdr_ctl) : cx88sdr_dev :=
  let cap8 := Z.lor (Z.shiftl 1 6) (Z.shiftl 3 1) in
  let cap16 := Z.lor (Z.lor (Z.shiftl 1 6) (Z.shiftl 1 5)) (Z.shiftl 3 1) in
  if rate ctl =? RATE_4FSC_8BIT then
    rate_regs dev cap8 (Z.shiftl 1 17 * 2) (Z.lor (Z.shiftl 1 26) (Z.shiftl 0x14 20))
  else if rate ctl =? RATE_8FSC_8BIT then
    rate_regs dev cap8 (Z.shiftl 1 17) (Z.shiftl 0x10 20)
  else if rate ctl =? RATE_10FSC_8BIT then
    rate_regs dev cap8 (Z.quot (Z.shiftl 1 17 * 4) 5) (Z.shiftl 0x14 20)
  else if rate ctl =? RATE_2FSC_16BIT then
    rate_regs dev cap16 (Z.shiftl 1 17 * 2) (Z.lor (Z.shiftl 1 26) (Z.shiftl 0x14 20))
  else if rate ctl =? RATE_4FSC_16BIT then
    rate_regs dev cap16 (Z.shiftl 1 17) (Z.shiftl 0x10 20)
  else if rate ctl =? RATE_5FSC_16BIT then
    rate_regs dev cap16 (Z.quot (Z.shiftl 1 17 * 4) 5) (Z.shiftl 0x14 20)
  else dev.

Definition set_gain (ctl : sdr_ctl) (v : Z) : sdr_ctl :=
  mk_ctl v (input ctl) (rate ctl) (pixelformat ctl) (buffersize ctl).

Definition set_input (ctl : sdr_ctl) (v : Z) : sdr_ctl :=
  mk_ctl (gain ctl) v (rate ctl) (pixelformat ctl) (buffersize ctl).

Definition set_rate (ctl : sdr_ctl) (v : Z) : sdr_ctl :=
  mk_ctl (gain ctl) (input ctl) v (pixelformat ctl) (buffersize ctl).

Section Controls.

(** The control ids come from v4l2-controls.h. *)
Variable V4L2_CID_GAIN : Z.
Variable V4L2_CID_USER_BASE : Z.

Definition V4L2_CID_USER_CX88SDR_BASE : Z := V4L2_CID_USER_BASE + 0x1f10.
Definition V4L2_CID_CX88SDR_INPUT : Z := V4L2_CID_USER_CX88SDR_BASE + 0.
Definition V4L2_CID_CX88SDR_RATE : Z := V4L2_CID_CX88SDR_INPUT + 1.

(** [id] and [val] are [ctrl->id] and [ctrl->val]; the value is stored
    in a [u32] field. *)
Definition cx88sdr_s_ctrl (dev : cx88sdr_dev) (ctl : sdr_ctl) (id val : Z)
    : Z * sdr_ctl * cx88sdr_dev :=
  if id =? V4L2_CID_GAIN then
    let ctl := set_gain ctl (u32 val) in
    (0, ctl, cx88sdr_gain_set dev ctl)
  else if id =? V4L2_CID_CX88SDR_INPUT then
    let ctl := set_input ctl (u32 val) in
    (0, ctl, cx88sdr_input_set dev ctl)
  else if id =? V4L2_CID_CX88SDR_RATE then
    let ctl := set_rate ctl (u32 val) in
    (0, ctl, cx88sdr_rate_set dev ctl)
  else (- EINVAL, ctl, dev).

End Controls.

(** A control block as probe sets it up: gain 0, input 1, 28.6 MHz 8-bit. *)
Definition example_ctl : sdr_ctl := mk_ctl 0 1 RATE_8FSC_8BIT 0x38305543 1.

(** ** The interrupt handler (cx88_sdr_core.c) *)

(** The loop of cx88sdr_irq, [n] iterations left: [status i] and [mask i]
    are what the reads of MO_VID_INTSTAT and MO_VID_INTMSK return in
    iteration [i]. *)
Fixpoint irq_loop (status mask : nat -> Z) (n i : nat) (dev : cx88sdr_dev)
    (handled : Z) : Z * cx88sdr_dev :=
  match n with
  | O => (handled, dev)
  | S n' =>
      let st := u32 (status i) in
      let mk := u32 (mask i) in
      if Z.land st mk =? 0 then (handled, dev)
      else irq_loop status mask n' (S i) (mmio_iowrite32 dev MO_VID_INTSTAT st) 1
  end.

(** Returns IRQ_RETVAL(handled): 1 for IRQ_HANDLED, 0 for IRQ_NONE. *)
Definition cx88sdr_irq (status mask : nat -> Z) (dev : cx88sdr_dev)
    : Z * cx88sdr_dev :=
  irq_loop status mask 10 0 dev 0.

(** ** The page ring (cx88_sdr_core.c) *)

(** Storing into an array slot; the loops below stay inside the array. *)
Fixpoint list_set (l : list Z) (i : nat) (v : Z) : list Z :=
  match l, i with
  | [], _ => []
  | _ :: t, O => v :: t
  | h :: t, S i' => h :: list_set t i' v
  end.

(** The pointer side of the ring: [pg_virt] is the array
    [dev->pgvec_virt] of kernel addresses (0 for NULL), [pg_phy] the
    array [dev->pgvec_phy]. *)
Record dma_pages : Type := mk_pages {
  pg_virt : list Z;
  pg_phy : list Z
}.

(** The first loop of cx88sdr_alloc_dma_buffer: [n] slots from [i]. *)
Fixpoint clear_pages (n i : nat) (pg : dma_pages) : dma_pages :=
  match n with
  | O => pg
  | S n' =>
      clear_pages n' (S i)
        (mk_pages (list_set (pg_virt pg) i 0) (list_set (pg_phy pg) i 0))
  end.

(** The second loop: [alloc i] is what the call of dma_alloc_coherent in
    iteration [i] returns, the kernel address (0 when it fails) and the
    bus address. *)
Fixpoint alloc_pages (alloc : nat -> Z * Z) (n i : nat) (pg : dma_pages)
    (dma_size : Z) : Z * dma_pages * Z :=
  match n with
  | O => (0, pg, dma_size)
  | S n' =>
      let virt := fst (alloc i) in
      let dma_handle := snd (alloc i) in
      let pg := mk_pages (list_set (pg_virt pg) i virt) (pg_phy pg) in
      if virt =? 0 then (- ENOMEM, pg, dma_size)
      else
        alloc_pages alloc n' (S i)
          (mk_pages (pg_virt pg) (list_set (pg_phy pg) i dma_handle))
          (u32 (dma_size + PAGE_SIZE))
  end.

(** Returns the status, the arrays and the size it would log. *)
Definition cx88sdr_alloc_dma_buffer (alloc : nat -> Z * Z) (pg : dma_pages)
    : Z * dma_pages * Z :=
  let dma_size := 0 in
  let pg := clear_pages (Z.to_nat (VBI_DMA_PAGES + 1)) 0 pg in
  alloc_pages alloc (Z.to_nat VBI_DMA_PAGES) 0 pg dma_size.

(** The loop of cx88sdr_free_dma_buffer; the result lists the calls of
    dma_free_coherent as (kernel address, bus address). *)
Fixpoint free_pages (n i : nat) (pg : dma_pages) : list (Z * Z) :=
  match n with
  | O => []
  | S n' =>
      (if negb (nth i (pg_virt pg) 0 =? 0)
       then [(nth i (pg_virt pg) 0, nth i (pg_phy pg) 0)]
       else [])
      ++ free_pages n' (S i) pg
  end.

Definition cx88sdr_free_dma_buffer (pg : dma_pages) : list (Z * Z) :=
  free_pages (Z.to_nat VBI_DMA_PAGES) 0 pg.

Definition set_pgvec_phy (dev : cx88sdr_dev) (phy : list Z) : cx88sdr_dev :=
  mk_dev (risc_inst_phy dev) phy (risc_inst_buff_size dev)
         (risc_inst_virt dev) (initial_page dev) (pgvec_virt dev) (mmio_log dev).

(** An allocator whose first three pages succeed. *)
Definition example_alloc (i : nat) : Z * Z :=
  if (i <? 3)%nat
  then (0x7000 + 0x1000 * Z.of_nat i, 0x10000000 + 0x1000 * Z.of_nat i)
  else (0, 0).

(** Arrays of the right length with stale contents. *)
Definition example_pages : dma_pages :=
  mk_pages (repeat 7 (Z.to_nat (VBI_DMA_PAGES + 1)))
           (repeat 9 (Z.to_nat (VBI_DMA_PAGES + 1))).

(** ** Bring-up and tear-down (cx88_sdr_core.c) *)

Definition CX88SDR_MAX_CARDS : Z := 32.
Definition ENODEV : Z := 19.
Definition INTERRUPT_MASK : Z := 0x018888.
Definition VMUX_01 : Z := 1.

Definition cx88sdr_shutdown (dev : cx88sdr_dev) : cx88sdr_dev :=
  (* Disable RISC Controller and IRQs *)
  let dev := mmio_iowrite32 dev MO_DEV_CNTRL2 0 in
  (* Stop DMA transfers *)
  let dev := mmio_iowrite32 dev MO_VID_DMACNTRL 0 in
  (* Stop interrupts *)
  let dev := mmio_iowrite32 dev MO_PCI_INTMSK 0 in
  let dev := mmio_iowrite32 dev MO_VID_INTMSK 0 in
  (* Stop capturing *)
  let dev := mmio_iowrite32 dev MO_CAPTURE_CTRL 0 in
  mmio_iowrite32 dev MO_VID_INTSTAT (Z.lnot 0).

(** [intstat] is what the read of MO_VID_INTSTAT returns. *)
Definition cx88sdr_adc_setup (dev : cx88sdr_dev) (intstat : Z) : cx88sdr_dev :=
  let dev := mmio_iowrite32 dev MO_VID_INTSTAT (u32 intstat) in
  let dev := mmio_iowrite32 dev MO_OUTPUT_FORMAT 0xf in
  let dev := mmio_iowrite32 dev MO_CONTR_BRIGHT 0xff00 in
  let dev := mmio_iowrite32 dev MO_COLOR_CTRL (Z.lor (Z.shiftl 0xe 4) 0xe) in
  let dev := mmio_iowrite32 dev MO_VBI_PACKET
               (Z.lor (Z.shiftl CLUSTER_BUF_SIZE 17) (Z.shiftl 2 11)) in
  (* Power down audio and chroma DAC+ADC *)
  let dev := mmio_iowrite32 dev MO_AFECFG_IO 0x12 in
  (* Start DMA *)
  let dev := mmio_iowrite32 dev MO_DEV_CNTRL2 (Z.shiftl 1 5) in
  mmio_iowrite32 dev MO_VID_DMACNTRL (Z.lor (Z.shiftl 1 7) (Z.shiftl 1 3)).

(** cx88sdr_release, as far as the device goes. *)
Definition cx88sdr_release (dev : cx88sdr_dev) : Z * cx88sdr_dev :=
  (0, mmio_iowrite32 dev MO_PCI_INTMSK 0).

(** The value a register holds after the writes of a trace: the last one
    written to it, if any. *)
Fixpoint mmio_last (log : list (Z * Z)) (reg : Z) : option Z :=
  match log with
  | [] => None
  | (r, v) :: rest =>
      match mmio_last rest reg with
      | Some v' => Some v'
      | None => if r =? reg then Some v else None
      end
  end.

(** ** cx88sdr_probe and cx88sdr_remove

    What the two functions do to the kernel is kept as a trace: one entry
    per call that took effect (a call that failed acquired nothing and
    leaves no entry) and one entry per register write, in program
    order. *)

Inductive kcall : Type :=
| K_pci_enable_device
| K_pci_set_master
| K_devm_kzalloc
| K_pci_lat_set
| K_pci_request_regions
| K_dma_alloc_risc
| K_dma_alloc_page (virt phy : Z)
| K_pci_ioremap_bar
| K_mmio_write (reg val : Z)
| K_request_irq
| K_synchronize_irq
| K_list_add_tail
| K_v4l2_device_register
| K_v4l2_ctrl_handler_init
| K_video_register_device
| K_video_unregister_device
| K_v4l2_ctrl_handler_free
| K_v4l2_device_unregister
| K_list_del
| K_free_irq
| K_iounmap
| K_dma_free_page (virt phy : Z)
| K_dma_free_risc
| K_pci_release_regions
| K_pci_disable_device.

(** What the kernel answers during one probe. *)
Record probe_env : Type := mk_env {
  env_enable : Z;              (* pci_enable_device *)
  env_dma_mask : Z;            (* pci_set_dma_mask *)
  env_kzalloc : bool;          (* devm_kzalloc returned memory *)
  env_regions : Z;             (* pci_request_regions *)
  env_risc : Z -> option Z;    (* dma_alloc_coherent, instruction buffer *)
  env_page : nat -> Z * Z;     (* dma_alloc_coherent, page i *)
  env_ioremap : bool;          (* pci_ioremap_bar returned a mapping *)
  env_intstat : Z;             (* MO_VID_INTSTAT as cx88sdr_adc_setup reads it *)
  env_irq : Z;                 (* request_irq *)
  env_v4l2 : Z;                (* v4l2_device_register *)
  env_hdl_error : Z;           (* hdl->error once the controls are added *)
  env_video : Z                (* video_register_device *)
}.

(** The register writes a helper added to the trace of [dev]. *)
Definition mmio_calls (dev dev' : cx88sdr_dev) : list kcall :=
  map (fun w => K_mmio_write (fst w) (snd w))
      (skipn (length (mmio_log dev)) (mmio_log dev')).

(** cx88sdr_free_risc_inst_buffer: the buffer is there when
    [risc_inst_virt] is not empty. *)
Definition cx88sdr_free_risc_inst_buffer (dev : cx88sdr_dev) : list kcall :=
  match risc_inst_virt dev with
  | [] => []
  | _ :: _ => [K_dma_free_risc]
  end.

Definition free_dma_calls (pg : dma_pages) : list kcall :=
  map (fun p => K_dma_free_page (fst p) (snd p)) (cx88sdr_free_dma_buffer pg).

(** The calls of dma_alloc_coherent in the second loop of
    cx88sdr_alloc_dma_buffer that returned a page, as trace entries:
    [alloc i] is what the call of iteration [i] returns, and the loop
    leaves at the first call that returns NULL. *)
Fixpoint alloc_calls (alloc : nat -> Z * Z) (n i : nat) : list kcall :=
  match n with
  | O => []
  | S n' =>
      let virt := fst (alloc i) in
      let dma_handle := snd (alloc i) in
      if virt =? 0 then []
      else K_dma_alloc_page virt dma_handle :: alloc_calls alloc n' (S i)
  end.

Definition alloc_dma_calls (alloc : nat -> Z * Z) : list kcall :=
  alloc_calls alloc (Z.to_nat VBI_DMA_PAGES) 0.

(** The labels at the end of cx88sdr_probe, each falling through to the
    next. *)
Definition unwind_disable_device : list kcall := [K_pci_disable_device].

Definition unwind_free_pci_regions : list kcall :=
  [K_pci_release_regions] ++ unwind_disable_device.

Definition unwind_free_risc_inst_buffer (dev : cx88sdr_dev) : list kcall :=
  cx88sdr_free_risc_inst_buffer dev ++ unwind_free_pci_regions.

Definition unwind_free_dma_buffer (dev : cx88sdr_dev) (pg : dma_pages) : list kcall :=
  free_dma_calls pg ++ unwind_free_risc_inst_buffer dev.

Definition unwind_free_mmio (dev : cx88sdr_dev) (pg : dma_pages) : list kcall :=
  [K_iounmap] ++ unwind_free_dma_buffer dev pg.

Definition unwind_free_irq (dev : cx88sdr_dev) (pg : dma_pages) : list kcall :=
  [K_free_irq] ++ unwind_free_mmio dev pg.

Definition unwind_free_v4l2 (dev : cx88sdr_dev) (pg : dma_pages) : list kcall :=
  [K_v4l2_ctrl_handler_free; K_v4l2_device_unregister] ++ unwind_free_irq dev pg.

Record probe_out : Type := mk_probe {
  po_ret : Z;
  po_devcount : Z;
  po_trace : list kcall;
  po_dev : cx88sdr_dev;
  po_ctl : sdr_ctl;
  po_pages : dma_pages
}.

Definition set_risc_inst_virt (dev : cx88sdr_dev) (ws : list Z) : cx88sdr_dev :=
  mk_dev (risc_inst_phy dev) (pgvec_phy dev) (risc_inst_buff_size dev)
         ws (initial_page dev) (pgvec_virt dev) (mmio_log dev).

(** [devcount] is cx88sdr_devcount; [dev0], [pg0] and [ctl0] are the
    zeroed device structure; [CU8] is V4L2_SDR_FMT_CU8. *)
Definition cx88sdr_probe (CU8 : Z) (env : probe_env) (devcount : Z)
    (dev0 : cx88sdr_dev) (pg0 : dma_pages) (ctl0 : sdr_ctl) : probe_out :=
  let fail ret t dev pg := mk_probe ret devcount t dev ctl0 pg in
  if devcount =? CX88SDR_MAX_CARDS then fail (- ENODEV) [] dev0 pg0
  else if negb (env_enable env =? 0) then fail (env_enable env) [] dev0 pg0
  else
  let t := [K_pci_enable_device; K_pci_set_master] in
  if negb (env_dma_mask env =? 0)
  then fail (- EFAULT) (t ++ unwind_disable_device) dev0 pg0
  else if negb (env_kzalloc env)
  then fail (- ENOMEM) (t ++ unwind_disable_device) dev0 pg0
  else
  let t := t ++ [K_devm_kzalloc; K_pci_lat_set] in
  if negb (env_regions env =? 0)
  then fail (env_regions env) (t ++ unwind_disable_device) dev0 pg0
  else
  let t := t ++ [K_pci_request_regions] in
  let r := cx88sdr_alloc_risc_inst_buffer dev0 (env_risc env) in
  let dev := snd r in
  if negb (fst r =? 0)
  then fail (fst r) (t ++ unwind_free_pci_regions) dev pg0
  else
  let t := t ++ [K_dma_alloc_risc] in
  let a := cx88sdr_alloc_dma_buffer (env_page env) pg0 in
  let pg := snd (fst a) in
  let dev := set_pgvec_phy dev (pg_phy pg) in
  let t := t ++ alloc_dma_calls (env_page env) in
  if negb (fst (fst a) =? 0)
  then fail (fst (fst a)) (t ++ unwind_free_risc_inst_buffer dev) dev pg
  else
  let ws := cx88sdr_make_risc_instructions dev in
  let dev := set_risc_inst_virt dev (ws ++ skipn (length ws) (risc_inst_virt dev)) in
  if negb (env_ioremap env)
  then fail (- ENODEV) (t ++ unwind_free_dma_buffer dev pg) dev pg
  else
  let t := t ++ [K_pci_ioremap_bar] in
  let dev1 := cx88sdr_shutdown dev in
  let dev2 := probe_sram_setup dev1 in
  let t := t ++ mmio_calls dev dev2 in
  let dev := dev2 in
  if negb (env_irq env =? 0)
  then fail (env_irq env) (t ++ unwind_free_mmio dev pg) dev pg
  else
  let t := t ++ [K_request_irq; K_synchronize_irq] in
  (* Set initial values *)
  let ctl := mk_ctl 0 VMUX_01 RATE_8FSC_8BIT CU8 1 in
  let dev1 := cx88sdr_adc_setup dev (env_intstat env) in
  let dev2 := cx88sdr_rate_set dev1 ctl in
  let dev3 := cx88sdr_agc_setup dev2 ctl in
  let dev4 := cx88sdr_input_set dev3 ctl in
  let t := t ++ mmio_calls dev dev4 ++ [K_list_add_tail] in
  let dev := dev4 in
  let fail ret t := mk_probe ret devcount t dev ctl pg in
  if negb (env_v4l2 env =? 0)
  then fail (env_v4l2 env) (t ++ unwind_free_irq dev pg)
  else
  let t := t ++ [K_v4l2_device_register; K_v4l2_ctrl_handler_init] in
  if negb (env_hdl_error env =? 0)
  then fail (env_hdl_error env) (t ++ unwind_free_v4l2 dev pg)
  else if negb (env_video env =? 0)
  then fail (env_video env) (t ++ unwind_free_v4l2 dev pg)
  else
  let t := t ++ [K_video_register_device] in
  let dev' := mmio_iowrite32 dev MO_VID_INTMSK INTERRUPT_MASK in
  mk_probe 0 (devcount + 1) (t ++ mmio_calls dev dev') dev' ctl pg.

(** cx88sdr_remove: the trace, the device and the new device count. *)
Definition cx88sdr_remove (devcount : Z) (dev : cx88sdr_dev) (pg : dma_pages)
    : Z * cx88sdr_dev * list kcall :=
  let dev' := cx88sdr_shutdown dev in
  (devcount - 1, dev',
   mmio_calls dev dev'
     ++ [K_list_del; K_video_unregister_device; K_v4l2_ctrl_handler_free;
         K_v4l2_device_unregister; K_free_irq; K_iounmap]
     ++ free_dma_calls pg
     ++ cx88sdr_free_risc_inst_buffer dev
     ++ [K_pci_release_regions; K_pci_disable_device]).

(** Which acquisition a release gives back. *)
Definition release_of (c : kcall) : option kcall :=
  match c with
  | K_pci_disable_device => Some K_pci_enable_device
  | K_pci_release_regions => Some K_pci_request_regions
  | K_dma_free_risc => Some K_dma_alloc_risc
  | K_dma_free_page v p => Some (K_dma_alloc_page v p)
  | K_iounmap => Some K_pci_ioremap_bar
  | K_free_irq => Some K_request_irq
  | K_list_del => Some K_list_add_tail
  | K_v4l2_device_unregister => Some K_v4l2_device_register
  | K_v4l2_ctrl_handler_free => Some K_v4l2_ctrl_handler_init
  | K_video_unregister_device => Some K_video_register_device
  | _ => None
  end.

Definition is_acquire (c : kcall) : bool :=
  match c with
  | K_pci_enable_device | K_pci_request_regions | K_dma_alloc_risc
  | K_dma_alloc_page _ _ | K_pci_ioremap_bar | K_request_irq
  | K_list_add_tail | K_v4l2_device_register | K_v4l2_ctrl_handler_init
  | K_video_register_device => true
  | _ => false
  end.

(** What a trace acquired and what it gave back, the latter named by the
    acquisition. *)
Definition acquired (t : list kcall) : list kcall := filter is_acquire t.

Definition release_entry (c : kcall) : list kcall :=
  match release_of c with
  | Some a => [a]
  | None => []
  end.

Definition released (t : list kcall) : list kcall := flat_map release_entry t.

(** The kernel answers with which a probe gets as far as starting the
    card: everything up to and including request_irq succeeds. *)
Definition env_started (env : probe_env) : Prop :=
  env_enable env = 0 /\ env_dma_mask env = 0 /\ env_kzalloc env = true /\
  env_regions env = 0 /\
  env_risc env (VBI_DMA_BUF_NUM * CLUSTER_BUF_NUM + PAGE_SIZE) <> None /\
  (forall j, (j < Z.to_nat VBI_DMA_PAGES)%nat -> fst (env_page env j) <> 0) /\
  env_ioremap env = true /\ env_irq env = 0.

(** The kernel answers with which a probe goes through. *)
Definition env_ok (env : probe_env) : Prop :=
  env_started env /\
  env_v4l2 env = 0 /\ env_hdl_error env = 0 /\ env_video env = 0.

(** A kernel that grants everything. *)
Definition example_env : probe_env :=
  mk_env 0 0 true 0 (fun _ => Some 0x20000000)
         (fun j => (0x7000 + Z.of_nat j, example_page j))
         true 0 0 0 0 0.

(** A kernel that refuses the video device at the very end. *)
Definition example_env_late : probe_env :=
  mk_env 0 0 true 0 (fun _ => Some 0x20000000)
         (fun j => (0x7000 + Z.of_nat j, example_page j))
         true 0 0 0 0 (- 16).

(** A kernel that runs out of memory at the fourth page. *)
Definition example_env_pages : probe_env :=
  mk_env 0 0 true 0 (fun _ => Some 0x20000000) example_alloc
         true 0 0 0 0 0.

(** The zeroed device structure. *)
Definition zero_dev : cx88sdr_dev :=
  mk_dev 0 (repeat 0 (Z.to_nat (VBI_DMA_PAGES + 1))) 0 [] 0 (fun _ _ => 0) [].

Definition zero_pages : dma_pages :=
  mk_pages (repeat 0 (Z.to_nat (VBI_DMA_PAGES + 1)))
           (repeat 0 (Z.to_nat (VBI_DMA_PAGES + 1))).

Definition zero_ctl : sdr_ctl := mk_ctl 0 0 0 0 0.

(** * Properties *)

(** ** Arithmetic facts *)

Ltac divlia := Z.to_euclidean_division_equations; lia.

Lemma u32_small x : 0 <= x < 2 ^ 32 -> u32 x = x.
Proof. intros H. unfold u32. now apply Z.mod_small. Qed.

Lemma u32_range x : 0 <= u32 x < 2 ^ 32.
Proof. unfold u32. apply Z.mod_pos_bound. lia. Qed.

Lemma PAGE_SIZE_eq : PAGE_SIZE = 4096.
Proof. reflexivity. Qed.

Lemma VBI_DMA_SIZE_eq : VBI_DMA_SIZE = 67108864.
Proof. reflexivity. Qed.

Lemma VBI_DMA_PAGES_eq : VBI_DMA_PAGES = 16384.
Proof. reflexivity. Qed.

Lemma VBI_DMA_BUF_NUM_eq : VBI_DMA_BUF_NUM = 32768.
Proof. reflexivity. Qed.

Lemma irqt_wraps i : Z.land (i mod 512 + 1) 0x1ff = (i + 1) mod 512.
Proof.
  change 0x1ff with (Z.ones 9).
  rewrite Z.land_ones by lia.
  change (2 ^ 9) with 512.
  now rewrite Z.add_mod_idemp_l by lia.
Qed.

(** ** The RISC program *)

Section RiscProgram.

Variable dev : cx88sdr_dev.

Lemma risc_write_lo_opcode : risc_opcode risc_write_lo = 1.
Proof. reflexivity. Qed.

Lemma risc_write_hi_opcode irqt i : risc_opcode (risc_write_hi irqt i) = 1.
Proof.
  unfold risc_write_hi.
  destruct (irqt =? 0), (i <? VBI_DMA_PAGES - 1); reflexivity.
Qed.

Lemma risc_write_hi_len irqt i : write_len (risc_write_hi irqt i) = CLUSTER_BUF_SIZE.
Proof.
  unfold risc_write_hi.
  destruct (irqt =? 0), (i <? VBI_DMA_PAGES - 1); reflexivity.
Qed.

Lemma risc_write_hi_irq irqt i :
  write_irq (risc_write_hi irqt i) = (irqt =? 0).
Proof.
  unfold risc_write_hi.
  destruct (irqt =? 0), (i <? VBI_DMA_PAGES - 1); reflexivity.
Qed.

Lemma risc_decode_write w a rest :
  risc_opcode w = 1 ->
  risc_decode (w :: a :: rest) = option_map (cons (Write w a)) (risc_decode rest).
Proof.
  intros H. cbn [risc_decode]. rewrite H. reflexivity.
Qed.

Lemma risc_pages_length n i irqt :
  length (risc_pages dev n i irqt) = (4 * n)%nat.
Proof.
  revert i irqt. induction n as [|n IH]; intros i irqt; cbn [risc_pages length].
  - reflexivity.
  - rewrite IH. lia.
Qed.

Lemma pages_instrs_length n i :
  length (pages_instrs dev n i) = (2 * n)%nat.
Proof.
  revert i. induction n as [|n IH]; intros i; cbn [pages_instrs].
  - reflexivity.
  - rewrite length_app, IH. cbn [page_instrs length]. lia.
Qed.

(** The loop body decodes to two WRITE instructions per page, the counter
    being [(i + 1) mod 512] at the second one. *)
Lemma risc_pages_decode n : forall i irqt rest,
  irqt = i mod 512 ->
  risc_decode (risc_pages dev n i irqt ++ rest) =
  option_map (app (pages_instrs dev n i)) (risc_decode rest).
Proof.
  induction n as [|n IH]; intros i irqt rest Hirq; cbn [risc_pages pages_instrs].
  - cbn [app]. destruct (risc_decode rest); reflexivity.
  - subst irqt. rewrite irqt_wraps.
    cbn [app].
    rewrite risc_decode_write by apply risc_write_lo_opcode.
    rewrite risc_decode_write by apply risc_write_hi_opcode.
    rewrite (IH (i + 1) ((i + 1) mod 512) rest eq_refl).
    destruct (risc_decode rest); reflexivity.
Qed.

Lemma risc_decode_sync w rest :
  risc_opcode w = 8 ->
  risc_decode (w :: rest) = option_map (cons (Sync w)) (risc_decode rest).
Proof.
  intros H. destruct rest; cbn [risc_decode]; rewrite H; reflexivity.
Qed.

Lemma risc_decode_jump w a :
  risc_opcode w = 7 ->
  risc_decode [w; a] = Some [Jump a].
Proof.
  intros H. cbn [risc_decode]. rewrite H. reflexivity.
Qed.

Lemma make_risc_instructions_decode :
  risc_decode (cx88sdr_make_risc_instructions dev) = Some (risc_program dev).
Proof.
  unfold cx88sdr_make_risc_instructions, risc_program.
  generalize (Z.to_nat VBI_DMA_PAGES) as n. intros n.
  change ([?w] ++ ?l) with (w :: l).
  rewrite risc_decode_sync by reflexivity.
  rewrite (risc_pages_decode n 0 0) by reflexivity.
  rewrite risc_decode_jump by reflexivity.
  reflexivity.
Qed.

Lemma make_risc_instructions_length :
  Z.of_nat (length (cx88sdr_make_risc_instructions dev)) = 1 + 4 * VBI_DMA_PAGES + 2.
Proof.
  unfold cx88sdr_make_risc_instructions.
  rewrite !length_app, risc_pages_length.
  cbn [length].
  pose proof VBI_DMA_PAGES_eq. lia.
Qed.

Lemma program_length_gen n (a b : risc_instr) :
  Z.of_nat (length (a :: pages_instrs dev n 0 ++ [b])) = 1 + 2 * Z.of_nat n + 1.
Proof.
  cbn [length]. rewrite length_app, pages_instrs_length. cbn [length]. lia.
Qed.

Lemma VBI_DMA_PAGES_to_nat : Z.of_nat (Z.to_nat VBI_DMA_PAGES) = VBI_DMA_PAGES.
Proof. apply Z2Nat.id. pose proof VBI_DMA_PAGES_eq. lia. Qed.

Lemma risc_program_length :
  Z.of_nat (length (risc_program dev)) = 1 + 2 * VBI_DMA_PAGES + 1.
Proof.
  unfold risc_program. rewrite program_length_gen.
  now rewrite VBI_DMA_PAGES_to_nat.
Qed.

(** Page [i0 + k] sits at positions [2k] and [2k + 1] of the loop's output. *)
Lemma pages_instrs_nth n : forall i0 k d,
  (k < n)%nat ->
  nth (2 * k) (pages_instrs dev n i0) d =
    Write risc_write_lo (page_addr dev (i0 + Z.of_nat k)) /\
  nth (2 * k + 1) (pages_instrs dev n i0) d =
    Write (risc_write_hi ((i0 + Z.of_nat k + 1) mod 512) (i0 + Z.of_nat k))
          (u32 (page_addr dev (i0 + Z.of_nat k) + CLUSTER_BUF_SIZE)).
Proof.
  induction n as [|n IH]; intros i0 k d Hk; [lia|].
  cbn [pages_instrs page_instrs app].
  destruct k as [|k].
  - cbn [Nat.mul Nat.add nth]. rewrite Z.add_0_r. split; reflexivity.
  - replace (2 * S k)%nat with (S (S (2 * k))) by lia.
    replace (S (S (2 * k)) + 1)%nat with (S (S (2 * k + 1))) by lia.
    cbn [nth].
    destruct (IH (i0 + 1) k d ltac:(lia)) as [H1 H2].
    rewrite H1, H2.
    replace (i0 + 1 + Z.of_nat k) with (i0 + Z.of_nat (S k)) by lia.
    split; reflexivity.
Qed.

Lemma program_nth_gen n (a b : risc_instr) k d :
  (k < n)%nat ->
  nth (S (2 * k)) (a :: pages_instrs dev n 0 ++ [b]) d =
    Write risc_write_lo (page_addr dev (Z.of_nat k)) /\
  nth (S (2 * k + 1)) (a :: pages_instrs dev n 0 ++ [b]) d =
    Write (risc_write_hi ((Z.of_nat k + 1) mod 512) (Z.of_nat k))
          (u32 (page_addr dev (Z.of_nat k) + CLUSTER_BUF_SIZE)) /\
  nth (S (2 * n)) (a :: pages_instrs dev n 0 ++ [b]) d = b.
Proof.
  intros Hk. cbn [nth].
  rewrite !app_nth1 by (rewrite pages_instrs_length; lia).
  destruct (pages_instrs_nth n 0 k d Hk) as [H1 H2].
  rewrite H1, H2, !Z.add_0_l. repeat split.
  replace (2 * n)%nat with (length (pages_instrs dev n 0))
    by apply pages_instrs_length.
  apply nth_middle.
Qed.

Lemma risc_program_nth_lo i d :
  0 <= i < VBI_DMA_PAGES ->
  nth (Z.to_nat (1 + 2 * i)) (risc_program dev) d =
    Write risc_write_lo (page_addr dev i).
Proof.
  intros Hi. unfold risc_program.
  replace (Z.to_nat (1 + 2 * i)) with (S (2 * Z.to_nat i)) by lia.
  pose proof VBI_DMA_PAGES_to_nat as HN.
  destruct (program_nth_gen (Z.to_nat VBI_DMA_PAGES)
              (Sync (u32 (Z.lor RISC_SYNC (Z.shiftl 3 16))))
              (Jump (u32 (risc_inst_phy dev + 4))) (Z.to_nat i) d ltac:(lia))
    as (H & _ & _).
  rewrite H. now rewrite Z2Nat.id by lia.
Qed.

Lemma risc_program_nth_hi i d :
  0 <= i < VBI_DMA_PAGES ->
  nth (Z.to_nat (2 + 2 * i)) (risc_program dev) d =
    Write (risc_write_hi ((i + 1) mod 512) i)
          (u32 (page_addr dev i + CLUSTER_BUF_SIZE)).
Proof.
  intros Hi. unfold risc_program.
  replace (Z.to_nat (2 + 2 * i)) with (S (2 * Z.to_nat i + 1)) by lia.
  pose proof VBI_DMA_PAGES_to_nat as HN.
  destruct (program_nth_gen (Z.to_nat VBI_DMA_PAGES)
              (Sync (u32 (Z.lor RISC_SYNC (Z.shiftl 3 16))))
              (Jump (u32 (risc_inst_phy dev + 4))) (Z.to_nat i) d ltac:(lia))
    as (_ & H & _).
  rewrite H. now rewrite Z2Nat.id by lia.
Qed.

Lemma risc_program_nth_jump d :
  nth (Z.to_nat (1 + 2 * VBI_DMA_PAGES)) (risc_program dev) d =
    Jump (u32 (risc_inst_phy dev + 4)).
Proof.
  unfold risc_program.
  pose proof VBI_DMA_PAGES_to_nat as HN. pose proof VBI_DMA_PAGES_eq as HE.
  replace (Z.to_nat (1 + 2 * VBI_DMA_PAGES))
    with (S (2 * Z.to_nat VBI_DMA_PAGES)) by lia.
  destruct (program_nth_gen (Z.to_nat VBI_DMA_PAGES)
              (Sync (u32 (Z.lor RISC_SYNC (Z.shiftl 3 16))))
              (Jump (u32 (risc_inst_phy dev + 4))) 0%nat d ltac:(lia))
    as (_ & _ & H).
  exact H.
Qed.

End RiscProgram.

(** ** Claims about the program *)

Lemma example_dev_pages i :
  0 <= i < VBI_DMA_PAGES ->
  nth (Z.to_nat i) (pgvec_phy example_dev) 0 = 0x10000000 + 4096 * i.
Proof.
  intros Hi. pose proof VBI_DMA_PAGES_eq as HN.
  cbn [example_dev pgvec_phy].
  rewrite (nth_indep _ 0 (example_page 0))
    by (rewrite length_map, length_seq; lia).
  rewrite map_nth, seq_nth by lia.
  unfold example_page. rewrite Nat.add_0_l, Z2Nat.id by lia. reflexivity.
Qed.

(** C3: for the configured page count the dwords spell exactly
    [1 + 2N + 1] instructions: the SYNC first, then for each page, in ring
    order, two WRITEs of [CLUSTER_BUF_SIZE] bytes (half a page) at the
    page's bus address and at that address plus [CLUSTER_BUF_SIZE], and
    the JUMP to the dword after the SYNC last.  The page addresses are
    32-bit bus addresses of whole pages. *)
Theorem make_risc_two_writes_per_page (dev : cx88sdr_dev) :
  (forall i, 0 <= i < VBI_DMA_PAGES ->
     0 <= nth (Z.to_nat i) (pgvec_phy dev) 0 <= 2 ^ 32 - PAGE_SIZE) ->
  exists prog,
    risc_decode (cx88sdr_make_risc_instructions dev) = Some prog /\
    two_writes_per_page dev prog.
Proof.
  intros Hpg. exists (risc_program dev). split.
  - apply make_risc_instructions_decode.
  - unfold two_writes_per_page.
    split; [apply risc_program_length|].
    split; [reflexivity|].
    split; [|split; [reflexivity|apply risc_program_nth_jump]].
    intros i Hi. specialize (Hpg i Hi). rewrite PAGE_SIZE_eq in Hpg.
    exists risc_write_lo, (risc_write_hi ((i + 1) mod 512) i).
    rewrite risc_program_nth_lo, risc_program_nth_hi by assumption.
    unfold page_addr. rewrite (u32_small (nth _ _ _)) by lia.
    rewrite u32_small by (unfold CLUSTER_BUF_SIZE; lia).
    split; [reflexivity|]. split; [reflexivity|].
    split; [reflexivity|apply risc_write_hi_len].
Qed.

Lemma make_risc_two_writes_per_page_witness :
  exists prog,
    risc_decode (cx88sdr_make_risc_instructions example_dev) = Some prog /\
    two_writes_per_page example_dev prog.
Proof.
  apply (make_risc_two_writes_per_page example_dev).
  intros i Hi. rewrite (example_dev_pages i Hi).
  pose proof VBI_DMA_PAGES_eq. rewrite PAGE_SIZE_eq. lia.
Defined.

(** C4 (as the code has it): the running counter advances once per page,
    that is once per pair of WRITEs, and wraps at 512; the interrupt bit
    is never set on the first WRITE of a page and is set on the second
    WRITE of exactly the pages [i] with [(i + 1) mod 512 = 0].  Counted in
    WRITE instructions the bit comes once every 1024 transfers. *)
Theorem make_risc_irq_every_512_pages (dev : cx88sdr_dev) :
  exists prog,
    risc_decode (cx88sdr_make_risc_instructions dev) = Some prog /\
    irq_every_512_pages prog /\
    irq_every_n_writes 1024 prog.
Proof.
  exists (risc_program dev). split; [apply make_risc_instructions_decode|].
  assert (Hp : irq_every_512_pages (risc_program dev)).
  { intros i Hi.
    rewrite risc_program_nth_lo, risc_program_nth_hi by assumption.
    cbn [instr_irq]. split; [reflexivity|apply risc_write_hi_irq]. }
  split; [exact Hp|].
  intros k Hk.
  destruct (Z.eq_dec (k mod 2) 0) as [He|Ho].
  - destruct (Hp (k / 2) ltac:(divlia)) as [H _].
    replace (1 + k) with (1 + 2 * (k / 2)) by divlia.
    rewrite H. symmetry. apply Z.eqb_neq. divlia.
  - destruct (Hp (k / 2) ltac:(divlia)) as [_ H].
    replace (1 + k) with (2 + 2 * (k / 2)) by divlia.
    rewrite H.
    destruct (Z.eqb_spec ((k / 2 + 1) mod 512) 0);
      symmetry; [apply Z.eqb_eq|apply Z.eqb_neq]; divlia.
Qed.

(** C4 as stated fails: with a counter that ticked on every half-page
    WRITE the 512th WRITE would carry the interrupt bit; in the program
    built for [example_dev] it does not. *)
Lemma irq_every_512_writes_fails :
  ~ (forall prog,
       risc_decode (cx88sdr_make_risc_instructions example_dev) = Some prog ->
       irq_every_n_writes 512 prog).
Proof.
  intros H.
  specialize (H _ (make_risc_instructions_decode example_dev) 511).
  pose proof VBI_DMA_PAGES_eq as HN.
  specialize (H ltac:(lia)).
  change (1 + 511) with (2 + 2 * 255) in H.
  rewrite risc_program_nth_hi in H by lia.
  cbn [instr_irq] in H. rewrite risc_write_hi_irq in H.
  discriminate H.
Qed.

(** C10: the generator stores 4 bytes for the SYNC, 16 bytes per page and
    8 bytes for the JUMP, and that total fits the buffer of
    [VBI_DMA_BUF_NUM * CLUSTER_BUF_NUM + PAGE_SIZE] bytes set up by
    cx88sdr_alloc_risc_inst_buffer. *)
Theorem make_risc_fits_buffer (dev : cx88sdr_dev) (alloc : Z -> option Z) :
  let dev' := snd (cx88sdr_alloc_risc_inst_buffer dev alloc) in
  4 * Z.of_nat (length (cx88sdr_make_risc_instructions dev')) =
    4 + 16 * VBI_DMA_PAGES + 8 /\
  risc_inst_buff_size dev' = VBI_DMA_BUF_NUM * CLUSTER_BUF_NUM + PAGE_SIZE /\
  4 * Z.of_nat (length (cx88sdr_make_risc_instructions dev')) <=
    risc_inst_buff_size dev'.
Proof.
  intros dev'.
  assert (Hsz : risc_inst_buff_size dev' =
                VBI_DMA_BUF_NUM * CLUSTER_BUF_NUM + PAGE_SIZE).
  { subst dev'. unfold cx88sdr_alloc_risc_inst_buffer.
    destruct (alloc _); cbn [snd risc_inst_buff_size]; reflexivity. }
  rewrite make_risc_instructions_length, Hsz.
  rewrite VBI_DMA_BUF_NUM_eq, PAGE_SIZE_eq.
  pose proof VBI_DMA_PAGES_eq. unfold CLUSTER_BUF_NUM. lia.
Qed.

(** ** The cluster descriptor table *)

Lemma mmio_iowrite32_log dev reg val :
  0 <= reg < 2 ^ 32 -> reg mod 4 = 0 -> 0 <= val < 2 ^ 32 ->
  mmio_log (mmio_iowrite32 dev reg val) = mmio_log dev ++ [(reg, val)].
Proof.
  intros Hr Ha Hv. unfold mmio_iowrite32. cbn [mmio_log].
  rewrite !u32_small by assumption.
  rewrite Z.shiftr_div_pow2 by lia. change (2 ^ 2) with 4.
  replace (4 * (reg / 4)) with reg by divlia. reflexivity.
Qed.

Lemma mmio_iowrite32_phy dev reg val :
  risc_inst_phy (mmio_iowrite32 dev reg val) = risc_inst_phy dev.
Proof. reflexivity. Qed.

Lemma sram_cdt_phy n : forall dev i buff buffsize cdt,
  risc_inst_phy (sram_cdt dev n i buff buffsize cdt) = risc_inst_phy dev.
Proof.
  induction n as [|n IH]; intros; cbn [sram_cdt]; [reflexivity|].
  now rewrite IH.
Qed.

Ltac mmio_range :=
  rewrite ?mmio_iowrite32_phy, ?sram_cdt_phy;
  unfold CHN24_CMDS_BASE, RISC_INST_QUEUE, CX_SRAM_BASE, MO_DMA24_PTR2,
    MO_DMA24_CNT1, MO_DMA24_CNT2, MO_PCI_INTMSK;
  lia.

Lemma sram_cdt_log n : forall dev i buff buffsize cdt,
  0 <= i -> 0 <= cdt -> cdt mod 4 = 0 -> cdt + 16 * (i + Z.of_nat n) <= 2 ^ 32 ->
  0 <= buff -> 0 <= buffsize -> buff + Z.of_nat n * buffsize <= 2 ^ 32 ->
  (n = 0%nat \/ buff < 2 ^ 32) ->
  mmio_log (sram_cdt dev n i buff buffsize cdt) =
  mmio_log dev ++ cdt_entries n i buff buffsize cdt.
Proof.
  induction n as [|n IH]; intros dev i buff buffsize cdt Hi Hc Ha Hce Hb Hs Hbe Hlt;
    cbn [sram_cdt cdt_entries].
  - now rewrite app_nil_r.
  - destruct Hlt as [Hlt|Hlt]; [discriminate|].
    destruct n as [|n'] eqn:En.
    + cbn [sram_cdt cdt_entries].
      apply mmio_iowrite32_log; [lia|divlia|lia].
    + rewrite <- En in *.
      assert (Hn : 1 <= Z.of_nat n) by lia.
      rewrite u32_small by nia.
      rewrite IH; [|lia || nia ..].
      rewrite mmio_iowrite32_log by (try lia; divlia).
      now rewrite <- app_assoc.
Qed.

Lemma cdt_entries_length n : forall i buff buffsize cdt,
  length (cdt_entries n i buff buffsize cdt) = n.
Proof.
  induction n as [|n IH]; intros; cbn [cdt_entries length]; [reflexivity|].
  now rewrite IH.
Qed.

Lemma cdt_entries_nth n : forall i buff buffsize cdt k,
  (k < n)%nat ->
  nth k (cdt_entries n i buff buffsize cdt) (0, 0) =
  (cdt + 16 * (i + Z.of_nat k), buff + Z.of_nat k * buffsize).
Proof.
  induction n as [|n IH]; intros i buff buffsize cdt k Hk; [lia|].
  cbn [cdt_entries]. destruct k as [|k]; cbn [nth].
  - f_equal; lia.
  - rewrite IH by lia. f_equal; lia.
Qed.

(** C9: for 32-bit arguments that do not wrap and a dword-aligned table,
    cx88sdr_sram_setup writes, for each slot [i] below [numbuf], the slot
    address [buffptr + i * buffsize] at byte offset [16 * i] from the
    table base, and then hands the device the program's bus address, the
    table base, the doubled slot count [numbuf * 2], and the slot size in
    8-byte quanta minus one, [(buffsize >> 3) - 1]. *)
Theorem sram_setup_writes_cdt (dev : cx88sdr_dev) (numbuf buffsize buffptr cdtptr : Z) :
  0 <= numbuf ->
  0 <= cdtptr < 2 ^ 32 -> cdtptr mod 4 = 0 -> cdtptr + 16 * numbuf <= 2 ^ 32 ->
  0 <= buffptr < 2 ^ 32 -> 8 <= buffsize < 2 ^ 32 ->
  buffptr + numbuf * buffsize <= 2 ^ 32 ->
  0 <= risc_inst_phy dev < 2 ^ 32 ->
  exists table,
    mmio_log (cx88sdr_sram_setup dev numbuf buffsize buffptr cdtptr) =
      mmio_log dev ++ table ++ sram_regs dev numbuf buffsize cdtptr /\
    Z.of_nat (length table) = numbuf /\
    forall i, 0 <= i < numbuf ->
      nth (Z.to_nat i) table (0, 0) = (cdtptr + 16 * i, buffptr + i * buffsize).
Proof.
  intros Hn Hc Ha Hce Hb Hs Hbe Hphy.
  exists (cdt_entries (Z.to_nat numbuf) 0 buffptr buffsize cdtptr).
  split; [|split].
  - unfold cx88sdr_sram_setup, sram_regs.
    assert (Hq : 0 <= Z.shiftr buffsize 3 - 1 < 2 ^ 32).
    { rewrite Z.shiftr_div_pow2 by lia. change (2 ^ 3) with 8. divlia. }
    repeat (rewrite mmio_iowrite32_log;
            [|first [reflexivity | mmio_range] ..]).
    rewrite ?mmio_iowrite32_phy, ?sram_cdt_phy.
    rewrite sram_cdt_log by (rewrite ?Z2Nat.id; lia).
    repeat rewrite <- app_assoc. reflexivity.
  - rewrite cdt_entries_length. lia.
  - intros i Hi. rewrite cdt_entries_nth by lia.
    rewrite Z2Nat.id by lia. f_equal.
Qed.

Lemma sram_setup_writes_cdt_witness :
  exists table,
    mmio_log (probe_sram_setup example_dev) =
      mmio_log example_dev ++ table ++
      sram_regs example_dev CLUSTER_BUF_NUM CLUSTER_BUF_SIZE CDT_BASE /\
    Z.of_nat (length table) = CLUSTER_BUF_NUM /\
    forall i, 0 <= i < CLUSTER_BUF_NUM ->
      nth (Z.to_nat i) table (0, 0) =
        (CDT_BASE + 16 * i, CLUSTER_BUFFER_BASE + i * CLUSTER_BUF_SIZE).
Proof.
  apply (sram_setup_writes_cdt example_dev CLUSTER_BUF_NUM CLUSTER_BUF_SIZE
           CLUSTER_BUFFER_BASE CDT_BASE);
    cbn [example_dev risc_inst_phy];
    unfold CLUSTER_BUF_NUM, CLUSTER_BUF_SIZE, CLUSTER_BUFFER_BASE, CDT_BASE,
      CX_SRAM_BASE; try lia; reflexivity.
Defined.

(** ** The producer position *)

Lemma gp_cnt_last_spec k :
  0 <= k < VBI_DMA_PAGES ->
  gp_cnt_last k = (if k =? 0 then VBI_DMA_PAGES - 1 else k - 1).
Proof.
  intros Hk. pose proof VBI_DMA_PAGES_eq as HN. unfold gp_cnt_last.
  destruct (Z.eqb_spec k 0); apply u32_small; lia.
Qed.

Lemma gp_cnt_last_range k :
  0 <= k < VBI_DMA_PAGES -> 0 <= gp_cnt_last k < VBI_DMA_PAGES.
Proof.
  intros Hk. rewrite gp_cnt_last_spec by assumption.
  destruct (Z.eqb_spec k 0); lia.
Qed.

Lemma mmio_ioread32_small gpcnt n :
  0 <= gpcnt n < VBI_DMA_PAGES -> mmio_ioread32 gpcnt n = gpcnt n.
Proof.
  intros H. pose proof VBI_DMA_PAGES_eq. unfold mmio_ioread32.
  apply u32_small. lia.
Qed.

(** C1: for a raw counter value [k] in [[0, N)] both places where
    cx88sdr_read samples the counter turn it into [N - 1] when [k] is 0
    and into [k - 1] otherwise, an index in [[0, N)]. *)
Theorem read_gp_cnt_is_last_written (k : Z) :
  0 <= k < VBI_DMA_PAGES ->
  gp_cnt_last k = (if k =? 0 then VBI_DMA_PAGES - 1 else k - 1) /\
  0 <= gp_cnt_last k < VBI_DMA_PAGES /\
  (forall gpcnt polls dev user size pos,
     gpcnt polls = k ->
     rd_gp_cnt (read_init gpcnt polls dev user size pos) = gp_cnt_last k) /\
  (forall gpcnt st,
     gpcnt (rd_polls st) = k ->
     rd_gp_cnt (poll_gp_cnt gpcnt st) = gp_cnt_last k).
Proof.
  intros Hk.
  split; [now apply gp_cnt_last_spec|].
  split; [now apply gp_cnt_last_range|].
  split.
  - intros gpcnt polls dev user size pos E.
    cbn [read_init rd_gp_cnt]. rewrite mmio_ioread32_small; rewrite E; trivial.
  - intros gpcnt st E.
    cbn [poll_gp_cnt rd_gp_cnt]. rewrite mmio_ioread32_small; rewrite E; trivial.
Qed.

Lemma read_gp_cnt_is_last_written_witness :
  gp_cnt_last 0 = VBI_DMA_PAGES - 1 /\ gp_cnt_last 7 = 6.
Proof.
  pose proof VBI_DMA_PAGES_eq as HN.
  split.
  - apply (read_gp_cnt_is_last_written 0). lia.
  - apply (read_gp_cnt_is_last_written 7). lia.
Defined.

(** ** cx88sdr_open *)

Lemma page_of_pos_0 dev :
  page_of_pos dev 0 = u32 (Z.rem (initial_page dev) VBI_DMA_PAGES).
Proof.
  unfold page_of_pos.
  change (Z.shiftr (Z.rem 0 VBI_DMA_SIZE) PAGE_SHIFT) with 0.
  now rewrite Z.add_0_r.
Qed.

(** C2 as stated fails: with the counter at 5 the last written page is 4
    and the claim puts the start page at 3, but open records 4. *)
Lemma open_start_page_not_behind_last_written :
  let out := cx88sdr_open (fun _ => 5) 0 example_dev (mk_file 0 0) in
  gp_cnt_last 5 = 4 /\
  initial_page (open_dev out) = 4 /\
  page_of_pos (open_dev out) 0 = 4 /\
  initial_page (open_dev out) mod VBI_DMA_PAGES <>
    (gp_cnt_last 5 - 1) mod VBI_DMA_PAGES.
Proof.
  cbn [cx88sdr_open open_dev mmio_iowrite32 set_initial_page initial_page].
  repeat split; try reflexivity.
  vm_compute. discriminate.
Qed.

(** C2 (as the code has it): open stores the raw counter minus one, in
    32-bit arithmetic, as the start page; for a counter in [[0, N)] the
    page this selects for offset 0 is the last fully written page itself,
    one (not two) behind the page the device is about to write.  Open
    leaves the file, and with it the file position a fresh session starts
    from, as it found it. *)
Theorem open_starts_at_last_written (gpcnt : nat -> Z) (polls : nat)
    (dev : cx88sdr_dev) (f : file) :
  0 <= gpcnt polls < VBI_DMA_PAGES ->
  let out := cx88sdr_open gpcnt polls dev f in
  initial_page (open_dev out) = u32 (gpcnt polls - 1) /\
  page_of_pos (open_dev out) 0 = gp_cnt_last (gpcnt polls) /\
  open_file out = f /\
  f_pos (open_file out) = f_pos f.
Proof.
  intros Hk out. pose proof VBI_DMA_PAGES_eq as HN.
  assert (Hi : initial_page (open_dev out) = u32 (gpcnt polls - 1)).
  { subst out. cbn [cx88sdr_open open_dev mmio_iowrite32 set_initial_page initial_page].
    now rewrite mmio_ioread32_small. }
  split; [exact Hi|]. split; [|split; reflexivity].
  rewrite page_of_pos_0, Hi, gp_cnt_last_spec by assumption.
  destruct (Z.eqb_spec (gpcnt polls) 0) as [E|E].
  - rewrite E, HN. reflexivity.
  - rewrite (u32_small (gpcnt polls - 1)) by lia.
    rewrite Z.rem_small by lia. apply u32_small. lia.
Qed.

Lemma open_starts_at_last_written_witness :
  let out := cx88sdr_open (fun _ => 5) 0 example_dev (mk_file 0 0) in
  initial_page (open_dev out) = u32 (5 - 1) /\
  page_of_pos (open_dev out) 0 = gp_cnt_last 5 /\
  open_file out = mk_file 0 0 /\
  f_pos (open_file out) = f_pos (mk_file 0 0).
Proof.
  apply (open_starts_at_last_written (fun _ => 5) 0 example_dev (mk_file 0 0)).
  pose proof VBI_DMA_PAGES_eq. lia.
Defined.

(** ** One copy of cx88sdr_read *)

Lemma chunk_len_bounds pos size :
  0 < size ->
  0 < chunk_len pos size <= size /\
  chunk_len pos size <= PAGE_SIZE - pos mod PAGE_SIZE.
Proof.
  intros Hs. unfold chunk_len. rewrite PAGE_SIZE_eq.
  pose proof (Z.mod_pos_bound pos 4096 ltac:(lia)) as Hm.
  destruct (Z.eqb_spec (pos mod 4096) 0) as [E|E]; cbn [negb];
    destruct (Z.ltb_spec size (4096 - pos mod 4096));
    destruct (Z.ltb_spec size 4096); lia.
Qed.

Lemma load_bytes_length m off len :
  length (load_bytes m off len) = Z.to_nat len.
Proof. unfold load_bytes. now rewrite length_map, length_seq. Qed.

Lemma load_bytes_nth m off len k d :
  (k < Z.to_nat len)%nat ->
  nth k (load_bytes m off len) d = m (off + Z.of_nat k).
Proof.
  intros Hk. unfold load_bytes.
  rewrite (nth_indep _ d ((fun j => m (off + Z.of_nat j)) 0%nat))
    by (rewrite length_map, length_seq; lia).
  rewrite (map_nth (fun j => m (off + Z.of_nat j))).
  now rewrite seq_nth by lia.
Qed.

Lemma load_bytes_ext m1 m2 off len :
  (forall a, off <= a < off + len -> m1 a = m2 a) ->
  load_bytes m1 off len = load_bytes m2 off len.
Proof.
  intros H. unfold load_bytes. apply map_ext_in.
  intros k Hk. apply in_seq in Hk. apply H. lia.
Qed.

Lemma load_bytes_zero m off len :
  (forall a, off <= a < off + len -> m a = 0) ->
  load_bytes m off len = repeat 0 (Z.to_nat len).
Proof.
  intros H. apply (nth_ext _ _ 0 0).
  - now rewrite load_bytes_length, repeat_length.
  - intros k Hk. rewrite load_bytes_length in Hk.
    rewrite load_bytes_nth by exact Hk.
    rewrite H by lia. symmetry. apply nth_repeat.
Qed.

Lemma load_store_bytes m off data len :
  len = Z.of_nat (length data) ->
  load_bytes (store_bytes m off data) off len = data.
Proof.
  intros ->. apply (nth_ext _ _ 0 0).
  - now rewrite load_bytes_length, Nat2Z.id.
  - intros k Hk. rewrite load_bytes_length, Nat2Z.id in Hk.
    rewrite load_bytes_nth by (rewrite Nat2Z.id; exact Hk).
    unfold store_bytes.
    destruct (Z.leb_spec off (off + Z.of_nat k)); [|lia].
    destruct (Z.ltb_spec (off + Z.of_nat k) (off + Z.of_nat (length data))); [|lia].
    cbn [andb]. f_equal. lia.
Qed.

Lemma memset_in m off c len a :
  off <= a < off + len -> memset m off c len a = c.
Proof.
  intros H. unfold memset.
  destruct (Z.leb_spec off a); [|lia].
  destruct (Z.ltb_spec a (off + len)); [reflexivity|lia].
Qed.

Lemma memset_out m off c len a :
  ~ (off <= a < off + len) -> memset m off c len a = m a.
Proof.
  intros H. unfold memset.
  destruct (Z.leb_spec off a); [|reflexivity].
  destruct (Z.ltb_spec a (off + len)); [lia|reflexivity].
Qed.

(** copy_to_user succeeds exactly when the whole chunk lies inside the
    writable part of the buffer (an empty chunk always does). *)
Lemma copy_to_user_ok u dst data :
  fst (copy_to_user u dst data) = 0 <->
  (data = [] \/ dst + Z.of_nat (length data) <= u_limit u).
Proof.
  unfold copy_to_user. cbn [fst].
  destruct data as [|b data]; cbn [length].
  - split; [now left|intros _; lia].
  - split.
    + intros H. right. lia.
    + intros [H|H]; [discriminate|lia].
Qed.

Lemma copy_to_user_stores u dst data :
  fst (copy_to_user u dst data) = 0 ->
  snd (copy_to_user u dst data) =
    mk_user (u_limit u) (store_bytes (u_mem u) dst data).
Proof.
  unfold copy_to_user. cbn [fst snd]. intros H.
  f_equal. f_equal. apply firstn_all2. lia.
Qed.

Lemma copy_chunk_cases st :
  copy_chunk st =
  if chunk_faults st
  then ChunkFault
         (rd_set_user st
            (snd (copy_to_user (rd_user st) (rd_buf st)
                    (load_bytes (pgvec_virt (rd_dev st) (rd_pnum st))
                                (rd_pos st mod PAGE_SIZE)
                                (chunk_len (rd_pos st) (rd_size st))))))
  else
    let off := rd_pos st mod PAGE_SIZE in
    let len := chunk_len (rd_pos st) (rd_size st) in
    let dev :=
      set_pgvec_virt (rd_dev st)
        (fun p => if p =? rd_pnum st
                  then memset (pgvec_virt (rd_dev st) p) off 0 len
                  else pgvec_virt (rd_dev st) p) in
    ChunkDone
      (mk_rd (rd_result st + len) (rd_buf st + len) (rd_pos st + len)
             (rd_size st - len) (page_of_pos dev (rd_pos st + len))
             (rd_gp_cnt st) dev
             (mk_user (u_limit (rd_user st))
                (store_bytes (u_mem (rd_user st)) (rd_buf st)
                   (load_bytes (pgvec_virt (rd_dev st) (rd_pnum st)) off len)))
             (rd_polls st)).
Proof.
  unfold copy_chunk, chunk_faults.
  destruct (fst (copy_to_user _ _ _) =? 0) eqn:E; cbn [negb]; [|reflexivity].
  apply Z.eqb_eq in E. now rewrite (copy_to_user_stores _ _ _ E).
Qed.

Lemma copy_chunk_done st st' :
  copy_chunk st = ChunkDone st' ->
  chunk_faults st = false /\
  rd_advanced (chunk_len (rd_pos st) (rd_size st)) st st'.
Proof.
  rewrite copy_chunk_cases. destruct (chunk_faults st); [discriminate|].
  intros H. injection H as <-. split; [reflexivity|].
  unfold rd_advanced. cbn. repeat split.
Qed.

Lemma copy_chunk_fault st st' :
  copy_chunk st = ChunkFault st' ->
  chunk_faults st = true /\
  rd_pos st' = rd_pos st /\ rd_dev st' = rd_dev st /\
  rd_result st' = rd_result st /\ rd_size st' = rd_size st /\
  rd_polls st' = rd_polls st.
Proof.
  rewrite copy_chunk_cases. destruct (chunk_faults st); [|discriminate].
  intros H. injection H as <-. repeat split.
Qed.

Lemma chunk_ready_size st : chunk_ready st = true -> 0 < rd_size st.
Proof.
  unfold chunk_ready. intros H. apply andb_prop in H as [H _].
  now apply Z.ltb_lt.
Qed.

(** ** The inner loop *)

Lemma read_pages_idle n st :
  chunk_ready st = false -> read_pages n st = Some (InnerExit st).
Proof. intros H. destruct n; cbn [read_pages]; now rewrite H. Qed.

Lemma read_pages_step n st :
  chunk_ready st = true ->
  read_pages (S n) st =
  match copy_chunk st with
  | ChunkFault st' => Some (InnerFault st')
  | ChunkDone st' => read_pages n st'
  end.
Proof. intros H. cbn [read_pages]. now rewrite H. Qed.

(** The loop ends within [rd_size st] iterations: every copy moves at
    least one byte. *)
Lemma read_pages_total n : forall st,
  rd_size st <= Z.of_nat n -> exists out, read_pages n st = Some out.
Proof.
  induction n as [|n IH]; intros st Hsz.
  - exists (InnerExit st). apply read_pages_idle.
    destruct (chunk_ready st) eqn:E; [|reflexivity].
    apply chunk_ready_size in E. lia.
  - destruct (chunk_ready st) eqn:E.
    + rewrite read_pages_step by assumption.
      destruct (copy_chunk st) as [st'|st'] eqn:C; [eauto|].
      apply IH. apply copy_chunk_done in C as (_ & _ & _ & _ & Hs & _).
      pose proof (chunk_len_bounds (rd_pos st) (rd_size st)
                    (chunk_ready_size st E)).
      lia.
    + exists (InnerExit st). now apply read_pages_idle.
Qed.

Lemma read_pages_mono n : forall st out m,
  read_pages n st = Some out -> (n <= m)%nat -> read_pages m st = Some out.
Proof.
  induction n as [|n IH]; intros st out m H Hm.
  - destruct (chunk_ready st) eqn:E.
    + cbn [read_pages] in H. rewrite E in H. discriminate.
    + rewrite read_pages_idle in * by assumption. exact H.
  - destruct (chunk_ready st) eqn:E.
    + destruct m as [|m]; [lia|].
      rewrite read_pages_step in * by assumption.
      destruct (copy_chunk st); [exact H|].
      apply (IH _ _ _ H). lia.
    + rewrite read_pages_idle in * by assumption. exact H.
Qed.



(** ** The outer loop *)

Section ReadLoop.

Variable O_NONBLOCK : Z.
Variable gpcnt : nat -> Z.
Variable f : file.

Lemma read_wait_done fuel st :
  rd_size st = 0 -> read_wait O_NONBLOCK gpcnt f fuel st = Some (rd_result st, st).
Proof.
  intros H. destruct fuel; cbn [read_wait]; now rewrite H.
Qed.

Lemma read_wait_unfold fuel st :
  rd_size st <> 0 ->
  read_wait O_NONBLOCK gpcnt f (S fuel) st =
  match read_pages (Z.to_nat (rd_size st)) st with
  | None => None
  | Some (InnerFault st') => Some (- EFAULT, st')
  | Some (InnerExit st') =>
      if negb (rd_size st' =? 0) then
        if nonblocking O_NONBLOCK f then Some (rd_result st', st')
        else read_wait O_NONBLOCK gpcnt f fuel (poll_gp_cnt gpcnt st')
      else read_wait O_NONBLOCK gpcnt f fuel st'
  end.
Proof.
  intros H. cbn [read_wait].
  destruct (Z.eqb_spec (rd_size st) 0); [contradiction|reflexivity].
Qed.


End ReadLoop.

(** ** Claims about cx88sdr_read *)

(** C8: a request of length 0 returns 0 at once, whatever the position,
    the counter, the mode and the fuel; the position, the device (its
    pages included) and the user buffer are as before. *)
Theorem read_zero_length (O_NONBLOCK : Z) (gpcnt : nat -> Z) (fuel polls : nat)
    (dev : cx88sdr_dev) (f : file) (user : user_buf) (pos : Z) :
  exists st,
    cx88sdr_read O_NONBLOCK gpcnt fuel polls dev f user 0 pos = Some (0, st) /\
    rd_pos st = pos /\
    rd_dev st = dev /\
    pgvec_virt (rd_dev st) = pgvec_virt dev /\
    rd_user st = user.
Proof.
  exists (read_init gpcnt polls dev user 0 pos).
  split; [|repeat split].
  unfold cx88sdr_read.
  destruct (_ && _); [reflexivity|].
  now rewrite read_wait_done.
Qed.

(** The same call run: pages 4 and 5 are ready, page 6 is the last
    written one, so 8192 of the 10000 bytes come back. *)
Example read_nonblocking_short_count :
  option_map fst
    (cx88sdr_read 2048 (fun _ => 7) 1 0 read_dev (mk_file 2048 0)
                  (mk_user 100000 (fun _ => 0)) 10000 0) = Some 8192.
Proof. vm_compute. reflexivity. Qed.

(** With the counter at 5 the reader's page 4 is the last written one. *)
Example read_nonblocking_would_block :
  option_map fst
    (cx88sdr_read 2048 (fun _ => 5) 0 0 read_dev (mk_file 2048 0)
                  (mk_user 100000 (fun _ => 0)) 10000 0) = Some 0.
Proof. vm_compute. reflexivity. Qed.

(** Six bytes across the boundary of pages 4 and 5: the user gets the two
    last bytes of page 4 and the four first of page 5, the position moves
    to 4100, and both regions are cleared behind the reader. *)
Example read_across_page_boundary :
  option_map
    (fun r => (fst r, rd_pos (snd r),
               load_bytes (u_mem (rd_user (snd r))) 0 6,
               load_bytes (pgvec_virt (rd_dev (snd r)) 4) 4092 4,
               load_bytes (pgvec_virt (rd_dev (snd r)) 5) 0 6))
    (cx88sdr_read 2048 (fun _ => 7) 1 0 read_dev (mk_file 0 0)
                  (mk_user 100000 (fun _ => 0)) 6 4094)
  = Some (6, 4100, [2; 3; 5; 6; 7; 8], [0; 1; 0; 0], [0; 0; 0; 0; 9; 10]).
Proof. vm_compute. reflexivity. Qed.

(** A blocking reader waits while the counter stays at 5 and gets its
    bytes once the fourth read returns 6. *)
Example read_blocking_wakes_up :
  option_map (fun r => (fst r, rd_polls (snd r)))
    (cx88sdr_read 2048 (fun n => if (n <? 3)%nat then 5 else 6) 4 0 read_dev
                  (mk_file 0 0) (mk_user 100000 (fun _ => 0)) 4 0)
  = Some (4, 4%nat).
Proof. vm_compute. reflexivity. Qed.

(** A blocking reader that finds the counter stuck at 5 is still
    spinning after 50 polls. *)
Example read_blocking_spins :
  cx88sdr_read 2048 (fun _ => 5) 50 0 read_dev (mk_file 0 0)
               (mk_user 100000 (fun _ => 0)) 10 0 = None.
Proof. vm_compute. reflexivity. Qed.

(** C6: a copy that succeeds hands the user the bytes of the page region
    starting at [pos mod PAGE_SIZE], then clears exactly that region and
    nothing else; copying the same region again, before the device has
    written to it, hands the user zeros. *)
Theorem copy_chunk_zeroes_region (st : rd_state) :
  chunk_ready st = true ->
  chunk_faults st = false ->
  copy_tombstones st.
Proof.
  intros Hr Hf. unfold copy_tombstones.
  set (off := rd_pos st mod PAGE_SIZE).
  set (len := chunk_len (rd_pos st) (rd_size st)).
  pose proof (chunk_len_bounds (rd_pos st) (rd_size st) (chunk_ready_size st Hr))
    as [Hlen _]. fold len in Hlen.
  pose proof (copy_chunk_cases st) as C. rewrite Hf in C. cbv zeta in C.
  fold off len in C.
  eexists. split; [exact C|].
  split; [intros n; now rewrite read_pages_step, C by assumption|].
  cbn [rd_user rd_dev u_mem set_pgvec_virt pgvec_virt].
  assert (Hzero : forall o, off <= o < off + len ->
            (if rd_pnum st =? rd_pnum st
             then memset (pgvec_virt (rd_dev st) (rd_pnum st)) off 0 len
             else pgvec_virt (rd_dev st) (rd_pnum st)) o = 0).
  { intros o Ho. rewrite Z.eqb_refl. now apply memset_in. }
  split; [|split; [exact Hzero|split]].
  - apply load_store_bytes. rewrite load_bytes_length. lia.
  - intros p o Hout. destruct (Z.eqb_spec p (rd_pnum st)) as [E|E]; [|reflexivity].
    apply memset_out. intros Ho. apply Hout. now split.
  - intros st2 E1 E2 E3 E4 Hf2.
    pose proof (copy_chunk_cases st2) as C2. rewrite Hf2 in C2. cbv zeta in C2.
    rewrite E1, E2, E3, E4 in C2. fold off len in C2.
    eexists. split; [exact C2|].
    cbn [rd_user u_mem set_pgvec_virt pgvec_virt].
    rewrite (load_bytes_zero _ off len Hzero).
    apply load_store_bytes. rewrite repeat_length. lia.
Qed.

Lemma copy_chunk_zeroes_region_witness :
  copy_tombstones (mk_rd 0 0 100 10 4 6 read_dev (mk_user 100 (fun _ => 0)) 1).
Proof.
  apply (copy_chunk_zeroes_region
           (mk_rd 0 0 100 10 4 6 read_dev (mk_user 100 (fun _ => 0)) 1));
    vm_compute; reflexivity.
Defined.

(** ** Faults *)

Section ReadFault.

Variable O_NONBLOCK : Z.
Variable gpcnt : nat -> Z.
Variable f : file.

(** A successful copy does not change what the call will return. *)
Lemma read_wait_copy_step fuel st st' :
  chunk_ready st = true ->
  copy_chunk st = ChunkDone st' ->
  read_wait O_NONBLOCK gpcnt f (S fuel) st =
  read_wait O_NONBLOCK gpcnt f (S fuel) st'.
Proof.
  intros Hr C.
  pose proof (chunk_ready_size st Hr) as Hs.
  pose proof (chunk_len_bounds (rd_pos st) (rd_size st) Hs) as [Hl _].
  pose proof (copy_chunk_done _ _ C) as (_ & _ & _ & _ & Hs' & _).
  rewrite read_wait_unfold by lia.
  destruct (Z.to_nat (rd_size st)) as [|n] eqn:En; [lia|].
  rewrite read_pages_step, C by assumption.
  destruct (read_pages_total (Z.to_nat (rd_size st')) st' ltac:(lia)) as [out Hout].
  rewrite (read_pages_mono _ _ _ n Hout) by lia.
  destruct (Z.eq_dec (rd_size st') 0) as [Z0|NZ].
  - assert (Hi : chunk_ready st' = false).
    { destruct (chunk_ready st') eqn:E; [|reflexivity].
      apply chunk_ready_size in E. lia. }
    rewrite read_pages_idle in Hout by assumption. injection Hout as <-.
    rewrite Z0. cbn [Z.eqb negb]. now rewrite !read_wait_done.
  - rewrite (read_wait_unfold _ _ _ fuel st') by assumption.
    now rewrite Hout.
Qed.

(** A blocking reader with nothing to copy reads the counter again. *)
Lemma read_wait_poll_step fuel st :
  rd_size st <> 0 ->
  chunk_ready st = false ->
  nonblocking O_NONBLOCK f = false ->
  read_wait O_NONBLOCK gpcnt f (S fuel) st =
  read_wait O_NONBLOCK gpcnt f fuel (poll_gp_cnt gpcnt st).
Proof.
  intros Hs Hr Hb. rewrite read_wait_unfold by assumption.
  rewrite read_pages_idle by assumption. rewrite Hb.
  destruct (Z.eqb_spec (rd_size st) 0); [contradiction|reflexivity].
Qed.

(** A failing copy ends the call with -EFAULT, from the state it found. *)
Lemma read_wait_fault fuel st :
  chunk_ready st = true ->
  chunk_faults st = true ->
  read_wait O_NONBLOCK gpcnt f (S fuel) st = Some (- EFAULT, after_chunk st) /\
  rd_pos (after_chunk st) = rd_pos st /\
  rd_dev (after_chunk st) = rd_dev st /\
  rd_result (after_chunk st) = rd_result st.
Proof.
  intros Hr Hf.
  pose proof (chunk_ready_size st Hr) as Hs.
  pose proof (copy_chunk_cases st) as C. rewrite Hf in C.
  unfold after_chunk. rewrite C. split; [|repeat split].
  rewrite read_wait_unfold by lia.
  destruct (Z.to_nat (rd_size st)) as [|n] eqn:En; [lia|].
  now rewrite read_pages_step, C by assumption.
Qed.

Lemma rd_reaches_fault st0 st :
  rd_reaches O_NONBLOCK gpcnt f st0 st ->
  chunk_ready st = true ->
  chunk_faults st = true ->
  exists k,
    forall fuel,
      read_wait O_NONBLOCK gpcnt f (k + S fuel) st0 =
        Some (- EFAULT, after_chunk st).
Proof.
  induction 1 as [st|st1 st2 st3 Hstep Hreach IH]; intros Hr Hf.
  - exists 0%nat. intros fuel. now apply read_wait_fault.
  - destruct (IH Hr Hf) as [k Hk].
    destruct Hstep as [st st' R C|st Hsz R B].
    + exists k. intros fuel.
      replace (k + S fuel)%nat with (S (k + fuel)) by lia.
      rewrite (read_wait_copy_step _ _ _ R C).
      replace (S (k + fuel)) with (k + S fuel)%nat by lia. apply Hk.
    + exists (S k). intros fuel. cbn [Nat.add].
      rewrite read_wait_poll_step by assumption. apply Hk.
Qed.

End ReadFault.

(** C7: whenever a call gets to a copy that copy_to_user refuses, it
    returns -EFAULT (given the fuel to get there).  The position and the
    device it leaves are those of the moment before the failing copy, so
    that copy neither advanced the offset nor cleared the region; and the
    return value is the negative error code whatever count the earlier
    copies had built up. *)
Theorem read_fault_aborts (O_NONBLOCK : Z) (gpcnt : nat -> Z) (polls : nat)
    (dev : cx88sdr_dev) (f : file) (user : user_buf) (size pos : Z)
    (st : rd_state) :
  rd_reaches O_NONBLOCK gpcnt f (read_init gpcnt polls dev user size pos) st ->
  chunk_ready st = true ->
  chunk_faults st = true ->
  exists fuel0 st',
    (forall fuel, (fuel0 <= fuel)%nat ->
       cx88sdr_read O_NONBLOCK gpcnt fuel polls dev f user size pos
         = Some (- EFAULT, st')) /\
    rd_pos st' = rd_pos st /\
    rd_dev st' = rd_dev st /\
    pgvec_virt (rd_dev st') = pgvec_virt (rd_dev st) /\
    - EFAULT < 0 /\
    - EFAULT <> rd_result st.
Proof.
  intros Hreach Hr Hf.
  set (st0 := read_init gpcnt polls dev user size pos) in *.
  assert (Hgo : (rd_pnum st0 =? rd_gp_cnt st0) && nonblocking O_NONBLOCK f = false).
  { destruct ((rd_pnum st0 =? rd_gp_cnt st0) && nonblocking O_NONBLOCK f) eqn:E;
      [|reflexivity].
    apply andb_prop in E as [E1 E2].
    assert (Hidle : chunk_ready st0 = false).
    { unfold chunk_ready. rewrite E1. cbn [negb]. apply andb_false_r. }
    inversion Hreach as [s|s1 s2 s3 Hstep _]; subst.
    - congruence.
    - inversion Hstep; subst; congruence. }
  destruct (rd_reaches_fault _ _ _ _ _ Hreach Hr Hf) as [k Hk].
  destruct (read_wait_fault O_NONBLOCK gpcnt f 0 st Hr Hf) as (_ & Hpos & Hdev & Hres).
  exists (S k), (after_chunk st).
  split; [|split; [exact Hpos|split; [exact Hdev|split; [now rewrite Hdev|]]]].
  - intros fuel Hfuel. unfold cx88sdr_read. fold st0. rewrite Hgo.
    replace fuel with (k + S (fuel - S k))%nat by lia. apply Hk.
  - split; [reflexivity|].
    (* the count so far is not negative along the way *)
    assert (Hnn : forall a b, rd_reaches O_NONBLOCK gpcnt f a b ->
                    0 <= rd_result a -> 0 <= rd_result b).
    { induction 1 as [|a b c Hs _ IH]; [trivial|].
      intros Ha. apply IH. destruct Hs as [s s' R C|s Hsz R B].
      - apply copy_chunk_done in C as (_ & Hres' & _).
        pose proof (chunk_len_bounds (rd_pos s) (rd_size s)
                      (chunk_ready_size s R)). lia.
      - exact Ha. }
    specialize (Hnn _ _ Hreach ltac:(cbn; lia)). unfold EFAULT. lia.
Qed.

Lemma read_fault_aborts_witness :
  let user := mk_user 5000 (fun _ => 0) in
  let st := after_chunk (read_init (fun _ => 7) 0 read_dev user 8192 0) in
  exists fuel0 st',
    (forall fuel, (fuel0 <= fuel)%nat ->
       cx88sdr_read 2048 (fun _ => 7) fuel 0 read_dev (mk_file 0 0) user 8192 0
         = Some (- EFAULT, st')) /\
    rd_pos st' = rd_pos st /\
    rd_dev st' = rd_dev st /\
    pgvec_virt (rd_dev st') = pgvec_virt (rd_dev st) /\
    - EFAULT < 0 /\
    - EFAULT <> rd_result st.
Proof.
  intros user st.
  apply (read_fault_aborts 2048 (fun _ => 7) 0 read_dev (mk_file 0 0) user 8192 0 st).
  - eapply rd_reaches_step; [|apply rd_reaches_refl].
    apply rd_step_copy; [vm_compute; reflexivity|].
    subst st. unfold after_chunk.
    destruct (copy_chunk (read_init (fun _ => 7) 0 read_dev user 8192 0)) eqn:E;
      [|reflexivity].
    apply copy_chunk_fault in E. destruct E as [E _].
    vm_compute in E. discriminate E.
  - vm_compute. reflexivity.
  - vm_compute. reflexivity.
Defined.

(** The same call run: the first page is delivered, the second copy does
    not fit the 5000 writable bytes, and the call returns -EFAULT with the
    position left at 4096. *)
Example read_fault_after_one_page :
  option_map (fun r => (fst r, rd_pos (snd r), rd_result (snd r)))
    (cx88sdr_read 2048 (fun _ => 7) 1 0 read_dev (mk_file 0 0)
                  (mk_user 5000 (fun _ => 0)) 8192 0)
  = Some (-14, 4096, 4096).
Proof. vm_compute. reflexivity. Qed.

(** * Further properties of the read path *)

(** ** Position arithmetic *)

Lemma page_of_pos_nonneg dev pos :
  0 <= initial_page dev -> 0 <= pos ->
  page_of_pos dev pos =
    (initial_page dev + (pos mod VBI_DMA_SIZE) / PAGE_SIZE) mod VBI_DMA_PAGES.
Proof.
  intros Hi Hp. unfold page_of_pos.
  rewrite VBI_DMA_SIZE_eq, PAGE_SIZE_eq, VBI_DMA_PAGES_eq.
  change PAGE_SHIFT with 12.
  rewrite (Z.rem_mod_nonneg pos) by lia.
  rewrite Z.shiftr_div_pow2 by lia. change (2 ^ 12) with 4096.
  assert (0 <= pos mod 67108864 / 4096) by divlia.
  rewrite Z.rem_mod_nonneg by lia.
  apply u32_small. divlia.
Qed.

Lemma page_of_pos_range dev pos :
  0 <= initial_page dev -> 0 <= pos ->
  0 <= page_of_pos dev pos < VBI_DMA_PAGES.
Proof.
  intros Hi Hp. rewrite page_of_pos_nonneg by assumption.
  apply Z.mod_pos_bound. now rewrite VBI_DMA_PAGES_eq.
Qed.

Lemma page_of_pos_dev dev dev' pos :
  initial_page dev' = initial_page dev ->
  page_of_pos dev' pos = page_of_pos dev pos.
Proof. intros H. unfold page_of_pos. now rewrite H. Qed.

(** Offsets up to the end of the page lie in the page of [pos]. *)
Lemma page_of_pos_same_page dev pos j :
  0 <= initial_page dev -> 0 <= pos ->
  0 <= j < PAGE_SIZE - pos mod PAGE_SIZE ->
  page_of_pos dev (pos + j) = page_of_pos dev pos /\
  (pos + j) mod PAGE_SIZE = pos mod PAGE_SIZE + j.
Proof.
  intros Hi Hp Hj. rewrite !page_of_pos_nonneg by lia.
  rewrite VBI_DMA_SIZE_eq, PAGE_SIZE_eq in *.
  assert (E : (pos + j) mod 67108864 / 4096 = pos mod 67108864 / 4096) by divlia.
  rewrite E. split; [reflexivity|divlia].
Qed.

(** Within one lap of the ring two offsets name the same byte only if
    they are equal. *)
Lemma ring_offsets_apart dev q1 q2 :
  0 <= initial_page dev -> 0 <= q1 -> 0 <= q2 ->
  Z.abs (q1 - q2) < VBI_DMA_SIZE ->
  page_of_pos dev q1 = page_of_pos dev q2 ->
  q1 mod PAGE_SIZE = q2 mod PAGE_SIZE ->
  q1 = q2.
Proof.
  intros Hi H1 H2 Hd Hp Ho. rewrite !page_of_pos_nonneg in Hp by lia.
  rewrite VBI_DMA_SIZE_eq, PAGE_SIZE_eq, VBI_DMA_PAGES_eq in *.
  assert (Ha : 0 <= q1 mod 67108864 / 4096 < 16384) by divlia.
  assert (Hb : 0 <= q2 mod 67108864 / 4096 < 16384) by divlia.
  assert (E : q1 mod 67108864 / 4096 = q2 mod 67108864 / 4096).
  { revert Hp Ha Hb.
    generalize (q1 mod 67108864 / 4096), (q2 mod 67108864 / 4096),
      (initial_page dev). intros a b ip. divlia. }
  divlia.
Qed.

(** ** Every return of the call is reached through its iterations *)

Section ReadSound.

Variable O_NONBLOCK : Z.
Variable gpcnt : nat -> Z.
Variable f : file.

Lemma rd_reaches_trans st1 st2 st3 :
  rd_reaches O_NONBLOCK gpcnt f st1 st2 ->
  rd_reaches O_NONBLOCK gpcnt f st2 st3 ->
  rd_reaches O_NONBLOCK gpcnt f st1 st3.
Proof.
  induction 1 as [|a b c Hs _ IH]; intros H; [exact H|].
  eapply rd_reaches_step; [exact Hs|now apply IH].
Qed.

Lemma read_pages_sound n : forall st out,
  read_pages n st = Some out ->
  match out with
  | InnerExit st' =>
      rd_reaches O_NONBLOCK gpcnt f st st' /\ chunk_ready st' = false
  | InnerFault st' =>
      exists st_r, rd_reaches O_NONBLOCK gpcnt f st st_r /\
                   chunk_ready st_r = true /\ chunk_faults st_r = true /\
                   st' = after_chunk st_r
  end.
Proof.
  induction n as [|n IH]; intros st out H.
  - destruct (chunk_ready st) eqn:E.
    + cbn [read_pages] in H. rewrite E in H. discriminate.
    + rewrite read_pages_idle in H by assumption. injection H as <-.
      split; [constructor|assumption].
  - destruct (chunk_ready st) eqn:E.
    + rewrite read_pages_step in H by assumption.
      destruct (copy_chunk st) as [s|s] eqn:C.
      * injection H as <-. exists st. split; [constructor|].
        split; [assumption|]. split; [now apply copy_chunk_fault in C|].
        unfold after_chunk. now rewrite C.
      * specialize (IH _ _ H).
        assert (Hs : rd_step O_NONBLOCK gpcnt f st s) by now constructor.
        destruct out as [st'|st'].
        -- destruct IH as (st_r & Hr & IH). exists st_r.
           split; [eapply rd_reaches_step; eassumption|exact IH].
        -- destruct IH as [Hr IH].
           split; [eapply rd_reaches_step; eassumption|exact IH].
    + rewrite read_pages_idle in H by assumption. injection H as <-.
      split; [constructor|assumption].
Qed.

Lemma read_wait_sound fuel : forall st ret st',
  read_wait O_NONBLOCK gpcnt f fuel st = Some (ret, st') ->
  exists st_r, rd_reaches O_NONBLOCK gpcnt f st st_r /\ rd_ends (nonblocking O_NONBLOCK f) st_r ret st'.
Proof.
  induction fuel as [|fuel IH]; intros st ret st' H.
  - cbn [read_wait] in H.
    destruct (Z.eqb_spec (rd_size st) 0) as [E|E]; [|discriminate].
    injection H as <- <-. exists st. split; constructor. now left.
  - destruct (Z.eq_dec (rd_size st) 0) as [E|E].
    + rewrite read_wait_done in H by assumption. injection H as <- <-.
      exists st. split; constructor. now left.
    + rewrite read_wait_unfold in H by assumption.
      destruct (read_pages (Z.to_nat (rd_size st)) st) as [out|] eqn:P;
        [|discriminate].
      pose proof (read_pages_sound _ _ _ P) as S.
      destruct out as [s|s].
      * injection H as <- <-. destruct S as (st_r & Hr & R & F & ->).
        exists st_r. split; [exact Hr|now constructor].
      * destruct S as [Hr Hidle].
        destruct (Z.eqb_spec (rd_size s) 0) as [Z0|NZ]; cbn [negb] in H.
        -- rewrite read_wait_done in H by assumption. injection H as <- <-.
           exists s. split; [exact Hr|constructor; now left].
        -- destruct (nonblocking O_NONBLOCK f) eqn:B.
           ++ injection H as <- <-. exists s.
              split; [exact Hr|constructor; now right].
           ++ destruct (IH _ _ _ H) as (st_r & Hr' & He).
              exists st_r. split; [|exact He].
              eapply rd_reaches_trans; [exact Hr|].
              eapply rd_reaches_step; [|exact Hr'].
              now constructor.
Qed.

(** The same for the whole call: the early return is the count 0 of the
    initial state. *)
Lemma cx88sdr_read_sound fuel polls dev user size pos ret st' :
  cx88sdr_read O_NONBLOCK gpcnt fuel polls dev f user size pos = Some (ret, st') ->
  exists st_r,
    rd_reaches O_NONBLOCK gpcnt f (read_init gpcnt polls dev user size pos) st_r /\
    rd_ends (nonblocking O_NONBLOCK f) st_r ret st'.
Proof.
  unfold cx88sdr_read. set (st0 := read_init gpcnt polls dev user size pos).
  destruct ((rd_pnum st0 =? rd_gp_cnt st0) && nonblocking O_NONBLOCK f) eqn:E.
  - intros H. injection H as <- <-. exists st0. split; constructor.
    apply andb_prop in E as [E1 E2]. right. split; [exact E2|].
    unfold chunk_ready. rewrite E1. cbn [negb]. apply andb_false_r.
  - apply read_wait_sound.
Qed.

(** ** The bookkeeping is kept along the call *)

Variable dev0 : cx88sdr_dev.
Variable user0 : user_buf.
Variables size0 pos0 : Z.

Lemma rd_tracks_init polls :
  0 <= size0 ->
  rd_tracks dev0 user0 size0 pos0 (read_init gpcnt polls dev0 user0 size0 pos0).
Proof.
  intros Hs. unfold rd_tracks. cbn. repeat split; lia.
Qed.

Lemma rd_tracks_step st st' :
  rd_tracks dev0 user0 size0 pos0 st ->
  rd_step O_NONBLOCK gpcnt f st st' ->
  rd_tracks dev0 user0 size0 pos0 st'.
Proof.
  intros T Hstep. destruct Hstep as [s s' R C|s Hsz R B];
    destruct T as (Ti & Tp & Tpos & Tb & Ts & Tr & Tu).
  - pose proof (chunk_len_bounds (rd_pos s) (rd_size s) (chunk_ready_size s R))
      as [Hl _].
    rewrite copy_chunk_cases in C.
    destruct (chunk_faults s); [discriminate|]. injection C as <-.
    unfold rd_tracks. cbn.
    split; [exact Ti|]. split; [now apply page_of_pos_dev|].
    repeat split; first [lia | assumption].
  - unfold rd_tracks. cbn. repeat split; first [lia | assumption].
Qed.

Lemma rd_tracks_reaches st st' :
  rd_tracks dev0 user0 size0 pos0 st ->
  rd_reaches O_NONBLOCK gpcnt f st st' ->
  rd_tracks dev0 user0 size0 pos0 st'.
Proof.
  intros T H. induction H as [|a b c Hs _ IH]; [exact T|].
  apply IH. eapply rd_tracks_step; eassumption.
Qed.

End ReadSound.



(** ** What a returning call reports *)

(** X1: a call that returns reports either -EFAULT or the number of bytes
    it copied, between 0 and the request; the position has moved forward
    by what was copied (also when the call faults, by what the copies
    before the fault delivered) and never past the request.  A blocking
    call that returns a count returns the whole request. *)
Theorem read_returns_count_or_fault (O_NONBLOCK : Z) (gpcnt : nat -> Z)
    (fuel polls : nat) (dev : cx88sdr_dev) (f : file) (user : user_buf)
    (size pos ret : Z) (st' : rd_state) :
  0 <= size ->
  cx88sdr_read O_NONBLOCK gpcnt fuel polls dev f user size pos = Some (ret, st') ->
  pos <= rd_pos st' <= pos + size /\
  rd_pos st' = pos + rd_result st' /\
  (ret = - EFAULT \/
   (ret = rd_result st' /\ 0 <= ret <= size /\
    (nonblocking O_NONBLOCK f = false -> ret = size))).
Proof.
  intros Hs H.
  destruct (cx88sdr_read_sound _ _ _ _ _ _ _ _ _ _ _ H) as (st_r & Hr & He).
  pose proof (rd_tracks_reaches O_NONBLOCK gpcnt f dev user size pos _ _
                (rd_tracks_init gpcnt dev user size pos polls Hs) Hr)
    as (_ & _ & Tpos & _ & Ts & Tr & _).
  destruct He as [Hend|R F].
  - split; [lia|]. split; [exact Tpos|]. right.
    split; [reflexivity|]. split; [lia|].
    intros B. destruct Hend as [Z0|[B' _]]; [lia|congruence].
  - destruct (read_wait_fault O_NONBLOCK gpcnt f 0 st_r R F) as (_ & Ep & _ & Er).
    rewrite Ep, Er. split; [lia|]. split; [exact Tpos|]. now left.
Qed.

Lemma read_example_returns :
  cx88sdr_read 2048 (fun _ => 7) 1 0 read_dev (mk_file 0 0)
               (mk_user 100000 (fun _ => 0)) 6000 100 <> None.
Proof. vm_compute. discriminate. Qed.

Lemma read_returns_count_or_fault_witness :
  exists ret st',
    cx88sdr_read 2048 (fun _ => 7) 1 0 read_dev (mk_file 0 0)
                 (mk_user 100000 (fun _ => 0)) 6000 100 = Some (ret, st') /\
    100 <= rd_pos st' <= 100 + 6000 /\
    rd_pos st' = 100 + rd_result st' /\
    (ret = - EFAULT \/
     (ret = rd_result st' /\ 0 <= ret <= 6000 /\
      (nonblocking 2048 (mk_file 0 0) = false -> ret = 6000))).
Proof.
  destruct (cx88sdr_read 2048 (fun _ => 7) 1 0 read_dev (mk_file 0 0)
              (mk_user 100000 (fun _ => 0)) 6000 100) as [[ret st']|] eqn:E.
  - exists ret, st'. split; [reflexivity|].
    apply (read_returns_count_or_fault 2048 (fun _ => 7) 1 0 read_dev
             (mk_file 0 0) (mk_user 100000 (fun _ => 0)) 6000 100 ret st');
      [lia|exact E].
  - exfalso. exact (read_example_returns E).
Defined.

(** X2: when the user buffer is writable for the whole request, no copy
    fails: a call that returns never returns -EFAULT, and in blocking
    mode it returns exactly the requested length. *)
Theorem read_valid_buffer_never_faults (O_NONBLOCK : Z) (gpcnt : nat -> Z)
    (fuel polls : nat) (dev : cx88sdr_dev) (f : file) (user : user_buf)
    (size pos ret : Z) (st' : rd_state) :
  0 <= size ->
  size <= u_limit user ->
  cx88sdr_read O_NONBLOCK gpcnt fuel polls dev f user size pos = Some (ret, st') ->
  0 <= ret <= size /\
  ret = rd_pos st' - pos /\
  (nonblocking O_NONBLOCK f = false -> ret = size).
Proof.
  intros Hs Hu H.
  destruct (cx88sdr_read_sound _ _ _ _ _ _ _ _ _ _ _ H) as (st_r & Hr & He).
  pose proof (rd_tracks_reaches O_NONBLOCK gpcnt f dev user size pos _ _
                (rd_tracks_init gpcnt dev user size pos polls Hs) Hr)
    as (_ & _ & Tpos & Tb & Ts & Tr & Tu).
  destruct He as [Hend|R F].
  - split; [lia|]. split; [lia|].
    intros B. destruct Hend as [Z0|[B' _]]; [lia|congruence].
  - exfalso.
    pose proof (chunk_len_bounds (rd_pos st_r) (rd_size st_r)
                  (chunk_ready_size st_r R)) as [Hl _].
    unfold chunk_faults in F. apply negb_true_iff, Z.eqb_neq in F.
    apply F, copy_to_user_ok. right.
    rewrite load_bytes_length, Z2Nat.id by lia. lia.
Qed.

Lemma read_example_exact_returns :
  cx88sdr_read 2048 (fun _ => 7) 1 0 read_dev (mk_file 0 0)
               (mk_user 6000 (fun _ => 0)) 6000 100 <> None.
Proof. vm_compute. discriminate. Qed.

Lemma read_valid_buffer_never_faults_witness :
  exists ret st',
    cx88sdr_read 2048 (fun _ => 7) 1 0 read_dev (mk_file 0 0)
                 (mk_user 6000 (fun _ => 0)) 6000 100 = Some (ret, st') /\
    0 <= ret <= 6000 /\
    ret = rd_pos st' - 100 /\
    (nonblocking 2048 (mk_file 0 0) = false -> ret = 6000).
Proof.
  destruct (cx88sdr_read 2048 (fun _ => 7) 1 0 read_dev (mk_file 0 0)
              (mk_user 6000 (fun _ => 0)) 6000 100) as [[ret st']|] eqn:E.
  - exists ret, st'. split; [reflexivity|].
    apply (read_valid_buffer_never_faults 2048 (fun _ => 7) 1 0 read_dev
             (mk_file 0 0) (mk_user 6000 (fun _ => 0)) 6000 100 ret st');
      [lia|cbn; lia|exact E].
  - exfalso. exact (read_example_exact_returns E).
Defined.

(** X3: every copy the call makes is inside the ring: the page index is
    below [VBI_DMA_PAGES] and the copied region ends at or before the end
    of the page.  The start page is a 32-bit value, as open leaves it, and
    the position is not negative. *)
Theorem read_copies_stay_in_ring (O_NONBLOCK : Z) (gpcnt : nat -> Z)
    (polls : nat) (dev : cx88sdr_dev) (f : file) (user : user_buf)
    (size pos : Z) (st : rd_state) :
  0 <= initial_page dev -> 0 <= pos -> 0 <= size ->
  rd_reaches O_NONBLOCK gpcnt f (read_init gpcnt polls dev user size pos) st ->
  chunk_ready st = true ->
  chunk_in_bounds st.
Proof.
  intros Hi Hp Hs Hr R.
  pose proof (rd_tracks_reaches O_NONBLOCK gpcnt f dev user size pos _ _
                (rd_tracks_init gpcnt dev user size pos polls Hs) Hr)
    as (_ & Tp & Tpos & _ & _ & Tr & _).
  pose proof (chunk_len_bounds (rd_pos st) (rd_size st) (chunk_ready_size st R))
    as [_ Hl].
  unfold chunk_in_bounds. rewrite Tp.
  split; [apply page_of_pos_range; lia|].
  split; [|lia].
  apply Z.mod_pos_bound. now rewrite PAGE_SIZE_eq.
Qed.

Lemma read_copies_stay_in_ring_witness :
  chunk_in_bounds
    (after_chunk (read_init (fun _ => 7) 0 read_dev
                            (mk_user 100000 (fun _ => 0)) 8192 100)).
Proof.
  apply (read_copies_stay_in_ring 2048 (fun _ => 7) 0 read_dev (mk_file 0 0)
           (mk_user 100000 (fun _ => 0)) 8192 100).
  - cbn. lia.
  - lia.
  - lia.
  - eapply rd_reaches_step; [|apply rd_reaches_refl].
    apply rd_step_copy; [vm_compute; reflexivity|].
    unfold after_chunk.
    destruct (copy_chunk (read_init (fun _ => 7) 0 read_dev
                (mk_user 100000 (fun _ => 0)) 8192 100)) eqn:E; [|reflexivity].
    apply copy_chunk_fault in E. destruct E as [E _].
    vm_compute in E. discriminate E.
  - vm_compute. reflexivity.
Defined.

(** ** What a call does to the ring and to the user buffer *)

Lemma store_bytes_in m off data a :
  off <= a < off + Z.of_nat (length data) ->
  store_bytes m off data a = nth (Z.to_nat (a - off)) data 0.
Proof.
  intros H. unfold store_bytes.
  destruct (Z.leb_spec off a); [|lia].
  destruct (Z.ltb_spec a (off + Z.of_nat (length data))); [reflexivity|lia].
Qed.

Lemma store_bytes_out m off data a :
  ~ (off <= a < off + Z.of_nat (length data)) ->
  store_bytes m off data a = m a.
Proof.
  intros H. unfold store_bytes.
  destruct (Z.leb_spec off a); [|reflexivity].
  destruct (Z.ltb_spec a (off + Z.of_nat (length data))); [lia|reflexivity].
Qed.

(** The state a successful copy leaves, field by field. *)
Lemma copy_chunk_done_mem st st' :
  copy_chunk st = ChunkDone st' ->
  let off := rd_pos st mod PAGE_SIZE in
  let len := chunk_len (rd_pos st) (rd_size st) in
  initial_page (rd_dev st') = initial_page (rd_dev st) /\
  (forall p o,
     pgvec_virt (rd_dev st') p o =
     if (p =? rd_pnum st) && (off <=? o) && (o <? off + len) then 0
     else pgvec_virt (rd_dev st) p o) /\
  (forall a,
     u_mem (rd_user st') a =
     if (rd_buf st <=? a) && (a <? rd_buf st + len)
     then pgvec_virt (rd_dev st) (rd_pnum st) (off + (a - rd_buf st))
     else u_mem (rd_user st) a).
Proof.
  intros C off len.
  pose proof (copy_chunk_done _ _ C) as [F _].
  rewrite copy_chunk_cases, F in C. injection C as <-.
  cbn [rd_dev rd_user set_pgvec_virt initial_page pgvec_virt u_mem].
  fold off len.
  split; [reflexivity|]. split.
  - intros p o. destruct (Z.eqb_spec p (rd_pnum st)) as [->|N]; [|reflexivity].
    unfold memset. cbn [andb].
    destruct (off <=? o), (o <? off + len); reflexivity.
  - intros a.
    assert (Hlen : 0 <= len -> Z.of_nat (length (load_bytes
              (pgvec_virt (rd_dev st) (rd_pnum st)) off len)) = len)
      by (intros; rewrite load_bytes_length; lia).
    destruct (Z.leb_spec (rd_buf st) a) as [H1|H1];
      destruct (Z.ltb_spec a (rd_buf st + len)) as [H2|H2]; cbn [andb].
    + rewrite store_bytes_in by (rewrite Hlen; lia).
      rewrite load_bytes_nth by lia. f_equal. lia.
    + apply store_bytes_out. rewrite load_bytes_length. lia.
    + apply store_bytes_out. lia.
    + apply store_bytes_out. lia.
Qed.

Section ReadMemory.

Variable O_NONBLOCK : Z.
Variable gpcnt : nat -> Z.
Variable f : file.
Variable dev0 : cx88sdr_dev.
Variable user0 : user_buf.
Variables size0 pos0 : Z.

Hypothesis initial_page_nonneg : 0 <= initial_page dev0.
Hypothesis pos0_nonneg : 0 <= pos0.

(** Where the region of a copy sits in terms of session offsets. *)
Lemma chunk_region st :
  rd_tracks dev0 user0 size0 pos0 st ->
  chunk_ready st = true ->
  let off := rd_pos st mod PAGE_SIZE in
  let len := chunk_len (rd_pos st) (rd_size st) in
  0 < len <= rd_size st /\
  forall q,
    rd_pos st <= q < rd_pos st + len <->
    (0 <= q /\ rd_pos st <= q < rd_pos st + PAGE_SIZE /\
     page_of_pos dev0 q = rd_pnum st /\
     off <= q mod PAGE_SIZE < off + len).
Proof.
  intros (Ti & Tp & Tpos & Tb & Ts & Tr & Tu) R off len.
  pose proof (chunk_len_bounds (rd_pos st) (rd_size st) (chunk_ready_size st R))
    as [Hl Hle]. fold len off in Hl, Hle.
  assert (Hoff : 0 <= off < PAGE_SIZE)
    by (apply Z.mod_pos_bound; now rewrite PAGE_SIZE_eq).
  split; [exact Hl|]. intros q. split.
  - intros Hq.
    destruct (page_of_pos_same_page dev0 (rd_pos st) (q - rd_pos st)
                initial_page_nonneg ltac:(lia) ltac:(fold off; lia)) as [E1 E2].
    replace (rd_pos st + (q - rd_pos st)) with q in * by lia.
    fold off in E2. rewrite PAGE_SIZE_eq in *.
    split; [lia|]. split; [lia|]. split; [congruence|lia].
  - intros (Hq0 & Hq & Hp & Ho).
    set (q2 := rd_pos st + (q mod PAGE_SIZE - off)).
    destruct (page_of_pos_same_page dev0 (rd_pos st) (q mod PAGE_SIZE - off)
                initial_page_nonneg ltac:(lia) ltac:(fold off; lia)) as [E1 E2].
    fold q2 off in E1, E2.
    assert (q = q2); [|subst q2; lia].
    apply (ring_offsets_apart dev0); try lia.
    pose proof VBI_DMA_SIZE_eq. pose proof PAGE_SIZE_eq. subst q2. lia.
Qed.

Lemma rd_cleared_step st st' :
  rd_tracks dev0 user0 size0 pos0 st ->
  rd_cleared dev0 pos0 st ->
  rd_step O_NONBLOCK gpcnt f st st' ->
  rd_cleared dev0 pos0 st'.
Proof.
  intros T [Cz Cf] Hstep. destruct Hstep as [s s' R C|s Hsz R B];
    [|split; assumption].
  pose proof (chunk_region s T R) as [Hl Hreg].
  pose proof (copy_chunk_done_mem _ _ C) as (Ei & Ep & _).
  pose proof (copy_chunk_done _ _ C) as (_ & _ & _ & Epos & _).
  destruct T as (Ti & Tp & Tpos & _ & _ & Tr & _).
  set (off := rd_pos s mod PAGE_SIZE) in *.
  set (len := chunk_len (rd_pos s) (rd_size s)) in *.
  assert (Hpage : forall q, page_of_pos (rd_dev s') q = page_of_pos dev0 q)
    by (intros; apply page_of_pos_dev; congruence).
  assert (Hpage0 : forall q, page_of_pos (rd_dev s) q = page_of_pos dev0 q)
    by (intros; now apply page_of_pos_dev).
  split.
  - intros q Hq. unfold ring_byte. rewrite Ep, Hpage.
    destruct (Z_lt_dec q (rd_pos s)) as [Hlt|Hge].
    + destruct (_ && _); [reflexivity|].
      specialize (Cz q ltac:(lia)). unfold ring_byte in Cz.
      now rewrite Hpage0 in Cz.
    + destruct (proj1 (Hreg q) ltac:(lia)) as (_ & _ & Hp & Ho).
      rewrite Hp, Z.eqb_refl.
      destruct (Z.leb_spec off (q mod PAGE_SIZE)); [|lia].
      destruct (Z.ltb_spec (q mod PAGE_SIZE) (off + len)); [reflexivity|lia].
  - intros p o Hout. rewrite Ep.
    destruct (Z.eqb_spec p (rd_pnum s)) as [->|N]; cbn [andb].
    + destruct (Z.leb_spec off o) as [H1|H1];
        destruct (Z.ltb_spec o (off + len)) as [H2|H2]; cbn [andb];
        try (apply Cf; intros q Hq; apply Hout; lia).
      exfalso. apply (Hout (rd_pos s + (o - off))); [lia|].
      assert (Hin : rd_pos s <= rd_pos s + (o - off) < rd_pos s + len) by lia.
      destruct (proj1 (Hreg _) Hin) as (_ & _ & Hp & _).
      split; [congruence|].
      assert (Hoff : 0 <= off < PAGE_SIZE)
        by (apply Z.mod_pos_bound; now rewrite PAGE_SIZE_eq).
      pose proof (chunk_len_bounds (rd_pos s) (rd_size s)
                    (chunk_ready_size s R)) as [_ Hle].
      destruct (page_of_pos_same_page dev0 (rd_pos s) (o - off)
                  initial_page_nonneg ltac:(lia) ltac:(fold off len in Hle |- *; lia))
        as [_ E2].
      fold off in E2. lia.
    + apply Cf. intros q Hq. apply Hout. lia.
Qed.

Lemma rd_cleared_reaches st st' :
  rd_tracks dev0 user0 size0 pos0 st ->
  rd_cleared dev0 pos0 st ->
  rd_reaches O_NONBLOCK gpcnt f st st' ->
  rd_cleared dev0 pos0 st'.
Proof.
  intros T C H. induction H as [|a b c Hs _ IH]; [exact C|].
  apply IH.
  - eapply rd_tracks_step; eassumption.
  - eapply rd_cleared_step; eassumption.
Qed.

Lemma rd_cleared_init polls :
  rd_cleared dev0 pos0 (read_init gpcnt polls dev0 user0 size0 pos0).
Proof.
  split; cbn [read_init rd_pos rd_dev].
  - intros q Hq. lia.
  - reflexivity.
Qed.

End ReadMemory.

Section ReadData.

Variable O_NONBLOCK : Z.
Variable gpcnt : nat -> Z.
Variable f : file.
Variable dev0 : cx88sdr_dev.
Variable user0 : user_buf.
Variables size0 pos0 : Z.

Hypothesis initial_page_nonneg : 0 <= initial_page dev0.
Hypothesis pos0_nonneg : 0 <= pos0.
Hypothesis one_lap : size0 <= VBI_DMA_SIZE.




End ReadData.

Section ReadBehind.

Variable O_NONBLOCK : Z.
Variable gpcnt : nat -> Z.
Variable f : file.
Variable dev0 : cx88sdr_dev.
Variable user0 : user_buf.
Variables size0 pos0 : Z.
Variable polls0 : nat.
Variable gp0 : Z.

Hypothesis initial_page_nonneg : 0 <= initial_page dev0.
Hypothesis pos0_nonneg : 0 <= pos0.



End ReadBehind.





(** X5: when a call returns, with a count or with -EFAULT, every ring
    byte between the position it started from and the position it leaves
    has been cleared. *)
Theorem read_clears_what_it_read (O_NONBLOCK : Z) (gpcnt : nat -> Z)
    (fuel polls : nat) (dev : cx88sdr_dev) (f : file) (user : user_buf)
    (size pos ret : Z) (st' : rd_state) :
  0 <= initial_page dev -> 0 <= pos -> 0 <= size ->
  cx88sdr_read O_NONBLOCK gpcnt fuel polls dev f user size pos = Some (ret, st') ->
  forall q, pos <= q < rd_pos st' -> ring_byte (rd_dev st') q = 0.
Proof.
  intros Hi Hp Hs H.
  destruct (cx88sdr_read_sound _ _ _ _ _ _ _ _ _ _ _ H) as (st_r & Hr & He).
  assert (C : rd_cleared dev pos st_r).
  { apply (rd_cleared_reaches O_NONBLOCK gpcnt f dev user size pos Hi Hp _ _
             (rd_tracks_init gpcnt dev user size pos polls Hs)
             (rd_cleared_init gpcnt dev user size pos polls) Hr). }
  destruct C as [Cz _].
  destruct He as [Hend|R F]; [exact Cz|].
  destruct (read_wait_fault O_NONBLOCK gpcnt f 0 st_r R F) as (_ & Ep & Ed & _).
  rewrite Ep, Ed. exact Cz.
Qed.

Lemma read_clears_what_it_read_witness :
  exists ret st',
    cx88sdr_read 2048 (fun _ => 7) 1 0 read_dev (mk_file 0 0)
                 (mk_user 100000 (fun _ => 0)) 6 4094 = Some (ret, st') /\
    forall q, 4094 <= q < rd_pos st' -> ring_byte (rd_dev st') q = 0.
Proof.
  destruct (cx88sdr_read 2048 (fun _ => 7) 1 0 read_dev (mk_file 0 0)
              (mk_user 100000 (fun _ => 0)) 6 4094) as [[ret st']|] eqn:E.
  - exists ret, st'. split; [reflexivity|].
    apply (read_clears_what_it_read 2048 (fun _ => 7) 1 0 read_dev
             (mk_file 0 0) (mk_user 100000 (fun _ => 0)) 6 4094 ret st');
      [cbn; lia|lia|lia|exact E].
  - exfalso. vm_compute in E. discriminate E.
Defined.

(** X6: a call changes no byte of the ring other than those named by the
    offsets between the position it started from and the position it
    leaves; in particular pages it did not get to are as the device left
    them. *)
Theorem read_touches_only_what_it_read (O_NONBLOCK : Z) (gpcnt : nat -> Z)
    (fuel polls : nat) (dev : cx88sdr_dev) (f : file) (user : user_buf)
    (size pos ret : Z) (st' : rd_state) :
  0 <= initial_page dev -> 0 <= pos -> 0 <= size ->
  cx88sdr_read O_NONBLOCK gpcnt fuel polls dev f user size pos = Some (ret, st') ->
  forall p o,
    (forall q, pos <= q < rd_pos st' ->
       ~ (p = page_of_pos dev q /\ o = q mod PAGE_SIZE)) ->
    pgvec_virt (rd_dev st') p o = pgvec_virt dev p o.
Proof.
  intros Hi Hp Hs H.
  destruct (cx88sdr_read_sound _ _ _ _ _ _ _ _ _ _ _ H) as (st_r & Hr & He).
  assert (C : rd_cleared dev pos st_r).
  { apply (rd_cleared_reaches O_NONBLOCK gpcnt f dev user size pos Hi Hp _ _
             (rd_tracks_init gpcnt dev user size pos polls Hs)
             (rd_cleared_init gpcnt dev user size pos polls) Hr). }
  destruct C as [_ Cf].
  destruct He as [Hend|R F]; [exact Cf|].
  destruct (read_wait_fault O_NONBLOCK gpcnt f 0 st_r R F) as (_ & Ep & Ed & _).
  rewrite Ep, Ed. exact Cf.
Qed.

Lemma read_touches_only_what_it_read_witness :
  exists ret st',
    cx88sdr_read 2048 (fun _ => 7) 1 0 read_dev (mk_file 0 0)
                 (mk_user 100000 (fun _ => 0)) 6 4094 = Some (ret, st') /\
    forall p o,
      (forall q, 4094 <= q < rd_pos st' ->
         ~ (p = page_of_pos read_dev q /\ o = q mod PAGE_SIZE)) ->
      pgvec_virt (rd_dev st') p o = pgvec_virt read_dev p o.
Proof.
  destruct (cx88sdr_read 2048 (fun _ => 7) 1 0 read_dev (mk_file 0 0)
              (mk_user 100000 (fun _ => 0)) 6 4094) as [[ret st']|] eqn:E.
  - exists ret, st'. split; [reflexivity|].
    apply (read_touches_only_what_it_read 2048 (fun _ => 7) 1 0 read_dev
             (mk_file 0 0) (mk_user 100000 (fun _ => 0)) 6 4094 ret st');
      [cbn; lia|lia|lia|exact E].
  - exfalso. vm_compute in E. discriminate E.
Defined.

(** ** Waiting for the producer *)

Section ReadWaiting.

Variable O_NONBLOCK : Z.
Variable gpcnt : nat -> Z.
Variable f : file.

Hypothesis blocking : nonblocking O_NONBLOCK f = false.

(** While every read of the counter names the reader's page, a blocking
    reader with something left to read does not return. *)
Lemma read_wait_stalled fuel : forall st,
  rd_size st <> 0 ->
  rd_pnum st = rd_gp_cnt st ->
  (forall n, (rd_polls st <= n)%nat ->
     gp_cnt_last (mmio_ioread32 gpcnt n) = rd_pnum st) ->
  read_wait O_NONBLOCK gpcnt f fuel st = None.
Proof.
  induction fuel as [|fuel IH]; intros st Hs Hp Hg.
  - cbn [read_wait]. destruct (Z.eqb_spec (rd_size st) 0); [contradiction|reflexivity].
  - assert (Hidle : chunk_ready st = false).
    { unfold chunk_ready. rewrite Hp, Z.eqb_refl. apply andb_false_r. }
    rewrite read_wait_poll_step by assumption.
    apply IH; cbn [poll_gp_cnt rd_size rd_pnum rd_gp_cnt rd_polls].
    + exact Hs.
    + symmetry. apply Hg. lia.
    + intros n Hn. apply Hg. lia.
Qed.

(** A request that one copy serves is answered in the iteration that
    finds the page ready. *)
Lemma read_wait_single_chunk fuel st :
  chunk_ready st = true ->
  chunk_faults st = false ->
  chunk_len (rd_pos st) (rd_size st) = rd_size st ->
  read_wait O_NONBLOCK gpcnt f (S fuel) st =
    Some (rd_result st + rd_size st, after_chunk st) /\
  rd_pos (after_chunk st) = rd_pos st + rd_size st /\
  rd_polls (after_chunk st) = rd_polls st.
Proof.
  intros R F L.
  pose proof (copy_chunk_cases st) as C. rewrite F in C. cbv zeta in C.
  rewrite L in C.
  assert (Ea : after_chunk st = after_chunk st) by reflexivity.
  unfold after_chunk at 2 in Ea. rewrite C in Ea.
  rewrite <- Ea in C.
  rewrite (read_wait_copy_step O_NONBLOCK gpcnt f fuel st _ R C).
  rewrite Ea. cbn [rd_pos rd_polls].
  rewrite read_wait_done by (cbn [rd_size]; lia).
  cbn [rd_result]. repeat split.
Qed.

(** After [d] more reads that name the reader's page the next read frees
    it: the call returns in the iteration after that, and not before. *)
Lemma read_wait_wakes d : forall st,
  0 < rd_size st ->
  chunk_len (rd_pos st) (rd_size st) = rd_size st ->
  rd_buf st + rd_size st <= u_limit (rd_user st) ->
  rd_pnum st = rd_gp_cnt st ->
  (forall i, (i < d)%nat ->
     gp_cnt_last (mmio_ioread32 gpcnt (rd_polls st + i)) = rd_pnum st) ->
  gp_cnt_last (mmio_ioread32 gpcnt (rd_polls st + d)) <> rd_pnum st ->
  (forall fuel, (fuel <= S d)%nat ->
     read_wait O_NONBLOCK gpcnt f fuel st = None) /\
  (forall fuel, (S d < fuel)%nat ->
     exists st',
       read_wait O_NONBLOCK gpcnt f fuel st =
         Some (rd_result st + rd_size st, st') /\
       rd_pos st' = rd_pos st + rd_size st /\
       rd_polls st' = (rd_polls st + S d)%nat).
Proof.
  induction d as [|d IH]; intros st Hs L U Hp Hw Hf.
  - assert (Hidle : chunk_ready st = false).
    { unfold chunk_ready. rewrite Hp, Z.eqb_refl. apply andb_false_r. }
    assert (R : chunk_ready (poll_gp_cnt gpcnt st) = true).
    { unfold chunk_ready. cbn [poll_gp_cnt rd_size rd_pnum rd_gp_cnt].
      apply andb_true_iff. split; [now apply Z.ltb_lt|].
      apply negb_true_iff, Z.eqb_neq. rewrite Nat.add_0_r in Hf. congruence. }
    assert (F : chunk_faults (poll_gp_cnt gpcnt st) = false).
    { unfold chunk_faults. cbn [poll_gp_cnt rd_pos rd_size rd_user rd_buf rd_dev rd_pnum].
      apply negb_false_iff, Z.eqb_eq, copy_to_user_ok. right.
      rewrite load_bytes_length, L, Z2Nat.id by lia. exact U. }
    split.
    + intros fuel Hfuel. destruct fuel as [|[|fuel]]; [| |lia].
      * cbn [read_wait]. destruct (Z.eqb_spec (rd_size st) 0); [lia|reflexivity].
      * rewrite read_wait_poll_step by (assumption || lia).
        cbn [read_wait poll_gp_cnt rd_size].
        destruct (Z.eqb_spec (rd_size st) 0); [lia|reflexivity].
    + intros fuel Hfuel. destruct fuel as [|[|fuel]]; [lia|lia|].
      rewrite read_wait_poll_step by (assumption || lia).
      destruct (read_wait_single_chunk fuel (poll_gp_cnt gpcnt st) R F L)
        as (E & Epos & Epolls).
      eexists. split; [exact E|]. rewrite Epos, Epolls.
      cbn [poll_gp_cnt rd_pos rd_size rd_polls]. split; [reflexivity|lia].
  - assert (Hidle : chunk_ready st = false).
    { unfold chunk_ready. rewrite Hp, Z.eqb_refl. apply andb_false_r. }
    destruct (IH (poll_gp_cnt gpcnt st)) as [IHn IHs];
      cbn [poll_gp_cnt rd_size rd_pos rd_buf rd_user rd_pnum rd_gp_cnt rd_polls];
      try assumption.
    + symmetry. specialize (Hw 0%nat ltac:(lia)). now rewrite Nat.add_0_r in Hw.
    + intros i Hi. replace (S (rd_polls st) + i)%nat with (rd_polls st + S i)%nat by lia.
      apply Hw. lia.
    + replace (S (rd_polls st) + d)%nat with (rd_polls st + S d)%nat by lia.
      exact Hf.
    + split.
      * intros fuel Hfuel. destruct fuel as [|fuel].
        -- cbn [read_wait]. destruct (Z.eqb_spec (rd_size st) 0); [lia|reflexivity].
        -- rewrite read_wait_poll_step by (assumption || lia).
           apply IHn. lia.
      * intros fuel Hfuel. destruct fuel as [|fuel]; [lia|].
        rewrite read_wait_poll_step by (assumption || lia).
        destruct (IHs fuel ltac:(lia)) as (st' & E & Epos & Epolls).
        exists st'. split; [exact E|]. split; [exact Epos|].
        cbn [poll_gp_cnt rd_polls] in Epolls. lia.
Qed.

End ReadWaiting.

Lemma chunk_len_whole pos size :
  0 < size <= PAGE_SIZE - pos mod PAGE_SIZE -> chunk_len pos size = size.
Proof.
  intros H. unfold chunk_len. rewrite PAGE_SIZE_eq in *.
  destruct (Z.eqb_spec (pos mod 4096) 0) as [E|E]; cbn [negb];
    [destruct (Z.ltb_spec size 4096)|destruct (Z.ltb_spec size (4096 - pos mod 4096))];
    lia.
Qed.

Lemma open_page_of_pos_0 gpcnt polls dev f :
  0 <= gpcnt polls < VBI_DMA_PAGES ->
  page_of_pos (open_dev (cx88sdr_open gpcnt polls dev f)) 0 =
    gp_cnt_last (gpcnt polls).
Proof.
  intros Hk. pose proof VBI_DMA_PAGES_eq as HN.
  rewrite page_of_pos_0.
  cbn [cx88sdr_open open_dev mmio_iowrite32 set_initial_page initial_page].
  rewrite mmio_ioread32_small, gp_cnt_last_spec by assumption.
  destruct (Z.eqb_spec (gpcnt polls) 0) as [E|E].
  - rewrite E, HN. reflexivity.
  - rewrite (u32_small (gpcnt polls - 1)) by lia.
    rewrite Z.rem_small by lia. apply u32_small. lia.
Qed.

(** X7: a session opened while the counter stands still finds nothing to
    read: its first page is the one the counter names as last written.  A
    non-blocking read at offset 0 returns 0 and changes nothing; a
    blocking read of a positive length does not return, whatever the
    number of iterations it is given. *)
Theorem open_then_read_stalled (O_NONBLOCK : Z) (gpcnt : nat -> Z)
    (fuel polls : nat) (dev : cx88sdr_dev) (f : file) (user : user_buf)
    (size : Z) :
  0 <= gpcnt polls < VBI_DMA_PAGES ->
  (forall n, gpcnt n = gpcnt polls) ->
  let o := cx88sdr_open gpcnt polls dev f in
  (nonblocking O_NONBLOCK f = true ->
   exists st,
     cx88sdr_read O_NONBLOCK gpcnt fuel (open_polls o) (open_dev o) f user size 0
       = Some (0, st) /\
     rd_pos st = 0 /\ rd_dev st = open_dev o /\ rd_user st = user) /\
  (nonblocking O_NONBLOCK f = false -> 0 < size ->
   cx88sdr_read O_NONBLOCK gpcnt fuel (open_polls o) (open_dev o) f user size 0
     = None).
Proof.
  intros Hk Hstill o.
  set (st0 := read_init gpcnt (open_polls o) (open_dev o) user size 0).
  assert (Hg : forall n, gp_cnt_last (mmio_ioread32 gpcnt n) = rd_pnum st0).
  { intros n. cbn [st0 read_init rd_pnum]. subst o.
    rewrite open_page_of_pos_0 by assumption.
    rewrite mmio_ioread32_small; rewrite Hstill; trivial. }
  assert (Hp : rd_pnum st0 = rd_gp_cnt st0).
  { rewrite <- (Hg (open_polls o)). reflexivity. }
  unfold cx88sdr_read. fold st0. rewrite Hp, Z.eqb_refl. cbn [andb].
  split.
  - intros B. rewrite B. exists st0. repeat split.
  - intros B Hs. rewrite B.
    apply read_wait_stalled; [exact B|cbn; lia|exact Hp|].
    intros n _. apply Hg.
Qed.

Lemma open_then_read_stalled_witness :
  let o := cx88sdr_open (fun _ => 5) 0 read_dev (mk_file 0 0) in
  (nonblocking 2048 (mk_file 0 0) = true ->
   exists st,
     cx88sdr_read 2048 (fun _ => 5) 9 (open_polls o) (open_dev o) (mk_file 0 0)
                  (mk_user 100 (fun _ => 0)) 10 0 = Some (0, st) /\
     rd_pos st = 0 /\ rd_dev st = open_dev o /\
     rd_user st = mk_user 100 (fun _ => 0)) /\
  (nonblocking 2048 (mk_file 0 0) = false -> 0 < 10 ->
   cx88sdr_read 2048 (fun _ => 5) 9 (open_polls o) (open_dev o) (mk_file 0 0)
                (mk_user 100 (fun _ => 0)) 10 0 = None).
Proof.
  apply (open_then_read_stalled 2048 (fun _ => 5) 9 0 read_dev (mk_file 0 0)
           (mk_user 100 (fun _ => 0)) 10).
  - pose proof VBI_DMA_PAGES_eq. lia.
  - reflexivity.
Defined.

(** X8: a blocking read of a request that lies inside one page, into a
    buffer that can take it, returns exactly when the counter lets go of
    that page: if the first [d] reads of the counter name the reader's
    page as last written and the next one does not, the call is still
    waiting after [d] iterations and returns the full length in the
    iteration after, having read the counter [d + 1] times. *)
Theorem read_blocking_wakes (O_NONBLOCK : Z) (gpcnt : nat -> Z)
    (polls : nat) (dev : cx88sdr_dev) (f : file) (user : user_buf)
    (size pos : Z) (d : nat) :
  nonblocking O_NONBLOCK f = false ->
  0 < size <= PAGE_SIZE - pos mod PAGE_SIZE ->
  size <= u_limit user ->
  (forall i, (i < d)%nat ->
     gp_cnt_last (mmio_ioread32 gpcnt (polls + i)) = page_of_pos dev pos) ->
  gp_cnt_last (mmio_ioread32 gpcnt (polls + d)) <> page_of_pos dev pos ->
  (forall fuel, (fuel <= d)%nat ->
     cx88sdr_read O_NONBLOCK gpcnt fuel polls dev f user size pos = None) /\
  (forall fuel, (d < fuel)%nat ->
     exists st',
       cx88sdr_read O_NONBLOCK gpcnt fuel polls dev f user size pos
         = Some (size, st') /\
       rd_pos st' = pos + size /\
       rd_polls st' = (polls + d + 1)%nat).
Proof.
  intros B Hs Hu Hw Hf.
  set (st0 := read_init gpcnt polls dev user size pos).
  assert (L : chunk_len (rd_pos st0) (rd_size st0) = rd_size st0)
    by (apply chunk_len_whole; exact Hs).
  unfold cx88sdr_read. fold st0. rewrite B, andb_false_r.
  destruct d as [|d].
  - rewrite Nat.add_0_r in Hf.
    assert (R : chunk_ready st0 = true).
    { unfold chunk_ready. cbn [st0 read_init rd_size rd_pnum rd_gp_cnt].
      apply andb_true_iff. split; [apply Z.ltb_lt; lia|].
      apply negb_true_iff, Z.eqb_neq. congruence. }
    assert (F : chunk_faults st0 = false).
    { unfold chunk_faults. apply negb_false_iff, Z.eqb_eq, copy_to_user_ok. right.
      rewrite load_bytes_length, L.
      cbn [st0 read_init rd_size rd_buf rd_user]. rewrite Z2Nat.id by lia. lia. }
    split.
    + intros fuel Hfuel. assert (fuel = 0%nat) as -> by lia.
      cbn [read_wait st0 read_init rd_size].
      destruct (Z.eqb_spec size 0); [lia|reflexivity].
    + intros fuel Hfuel. destruct fuel as [|fuel]; [lia|].
      destruct (read_wait_single_chunk O_NONBLOCK gpcnt f fuel st0 R F L)
        as (E & Epos & Epolls).
      eexists. split; [exact E|]. rewrite Epos, Epolls.
      cbn [st0 read_init rd_pos rd_size rd_polls]. split; [reflexivity|lia].
  - destruct (read_wait_wakes O_NONBLOCK gpcnt f B d st0) as [Hn Hsome];
      cbn [st0 read_init rd_size rd_pos rd_buf rd_user rd_pnum rd_gp_cnt rd_polls];
      try lia.
    + exact L.
    + symmetry. specialize (Hw 0%nat ltac:(lia)). now rewrite Nat.add_0_r in Hw.
    + intros i Hi. replace (S polls + i)%nat with (polls + S i)%nat by lia.
      apply Hw. lia.
    + replace (S polls + d)%nat with (polls + S d)%nat by lia. exact Hf.
    + split.
      * intros fuel Hfuel. apply Hn. lia.
      * intros fuel Hfuel. destruct (Hsome fuel ltac:(lia)) as (st' & E & Epos & Epolls).
        exists st'. split; [exact E|].
        cbn [st0 read_init rd_pos rd_polls] in Epos, Epolls.
        split; [exact Epos|lia].
Qed.

Lemma read_blocking_wakes_witness :
  let gp := fun n => if (n <? 3)%nat then 5 else 6 in
  (forall fuel, (fuel <= 3)%nat ->
     cx88sdr_read 2048 gp fuel 0 read_dev (mk_file 0 0)
                  (mk_user 100 (fun _ => 0)) 10 0 = None) /\
  (forall fuel, (3 < fuel)%nat ->
     exists st',
       cx88sdr_read 2048 gp fuel 0 read_dev (mk_file 0 0)
                    (mk_user 100 (fun _ => 0)) 10 0 = Some (10, st') /\
       rd_pos st' = 0 + 10 /\
       rd_polls st' = (0 + 3 + 1)%nat).
Proof.
  intros gp.
  apply (read_blocking_wakes 2048 gp 0 read_dev (mk_file 0 0)
           (mk_user 100 (fun _ => 0)) 10 0 3).
  - reflexivity.
  - vm_compute. split; [reflexivity|discriminate].
  - cbn. lia.
  - intros i Hi. destruct i as [|[|[|i]]]; [reflexivity..|lia].
  - vm_compute. discriminate.
Defined.

(** * The rest of the RISC program *)

Lemma risc_write_hi_cnt irqt i :
  write_cnt (risc_write_hi irqt i) = if i <? VBI_DMA_PAGES - 1 then 1 else 3.
Proof.
  unfold risc_write_hi.
  destruct (irqt =? 0), (i <? VBI_DMA_PAGES - 1); reflexivity.
Qed.

(** X9: the counter-control field (bits 16 and 17) of the program is 0 on
    the first WRITE of every page, 1 on the second WRITE of every page but
    the last, and 3 on the second WRITE of the last page only: the one
    place where the ring wraps. *)
Theorem make_risc_counter_control (dev : cx88sdr_dev) :
  exists prog,
    risc_decode (cx88sdr_make_risc_instructions dev) = Some prog /\
    forall i, 0 <= i < VBI_DMA_PAGES ->
      exists c1 a1 c2 a2,
        nth (Z.to_nat (1 + 2 * i)) prog (Sync 0) = Write c1 a1 /\
        nth (Z.to_nat (2 + 2 * i)) prog (Sync 0) = Write c2 a2 /\
        write_cnt c1 = 0 /\
        write_cnt c2 = 1 + 2 * (if i =? VBI_DMA_PAGES - 1 then 1 else 0).
Proof.
  exists (risc_program dev). split; [apply make_risc_instructions_decode|].
  intros i Hi. do 4 eexists.
  rewrite risc_program_nth_lo, risc_program_nth_hi by assumption.
  split; [reflexivity|]. split; [reflexivity|]. split; [reflexivity|].
  rewrite risc_write_hi_cnt.
  destruct (Z.ltb_spec i (VBI_DMA_PAGES - 1)), (Z.eqb_spec i (VBI_DMA_PAGES - 1));
    lia.
Qed.

(** * The format interface *)

Section FormatFacts.

Variable CU8 CU16LE : Z.
Hypothesis formats_differ : CU8 <> CU16LE.

Lemma clear_reserved_idem r : clear_reserved (clear_reserved r) = clear_reserved r.
Proof. unfold clear_reserved. now rewrite repeat_length. Qed.

Lemma clear_reserved_zero r : Forall (fun b => b = 0) (clear_reserved r).
Proof.
  unfold clear_reserved. apply Forall_forall. intros b Hb.
  now apply repeat_spec in Hb.
Qed.

Lemma try_fmt_supported fmt :
  supported_format CU8 CU16LE
    (sdr_pixelformat (snd (cx88sdr_try_fmt_sdr CU8 CU16LE fmt)))
    (sdr_buffersize (snd (cx88sdr_try_fmt_sdr CU8 CU16LE fmt))).
Proof.
  unfold cx88sdr_try_fmt_sdr, supported_format.
  destruct (Z.eqb_spec (sdr_pixelformat fmt) CU8);
    [|destruct (Z.eqb_spec (sdr_pixelformat fmt) CU16LE)]; cbn; auto.
Qed.

End FormatFacts.

(** X10: setting a format always succeeds and leaves the device with one
    of the two supported pairs, CU8 with 1 byte per sample or CU16LE with
    2 (an unknown pixel format falls back to CU8); the format reported to
    the caller is the one stored, with the reserved bytes cleared.
    Getting the format afterwards, into any structure, succeeds, reports
    the same pair and clears the reserved bytes of that structure, all
    of them and no more.  Gain, input and rate are untouched. *)
Theorem s_fmt_then_g_fmt (CU8 CU16LE : Z) (ctl : sdr_ctl)
    (fmt fmt2 : v4l2_sdr_format) :
  let r := cx88sdr_s_fmt_sdr CU8 CU16LE ctl fmt in
  let ctl' := snd (fst r) in
  let out := snd r in
  let g := cx88sdr_g_fmt_sdr ctl' fmt2 in
  let got := snd g in
  fst (fst r) = 0 /\
  supported_format CU8 CU16LE (pixelformat ctl') (buffersize ctl') /\
  sdr_pixelformat out = pixelformat ctl' /\
  sdr_buffersize out = buffersize ctl' /\
  sdr_reserved out = repeat 0 (length (sdr_reserved fmt)) /\
  fst g = 0 /\
  sdr_pixelformat got = sdr_pixelformat out /\
  sdr_buffersize got = sdr_buffersize out /\
  sdr_reserved got = repeat 0 (length (sdr_reserved fmt2)) /\
  (gain ctl', input ctl', rate ctl') = (gain ctl, input ctl, rate ctl).
Proof.
  unfold cx88sdr_s_fmt_sdr, cx88sdr_g_fmt_sdr, supported_format, clear_reserved.
  destruct (Z.eqb_spec (sdr_pixelformat fmt) CU8) as [E|E];
    [|destruct (Z.eqb_spec (sdr_pixelformat fmt) CU16LE) as [E'|E']];
    cbn; repeat split; auto.
Qed.

(** X11: trying a format answers what setting it would answer, without a
    device to change, and both are idempotent: trying the answer again
    returns it unchanged, and setting the answer again leaves the device
    as the first call left it. *)
Theorem try_fmt_agrees_with_s_fmt (CU8 CU16LE : Z) (ctl : sdr_ctl)
    (fmt : v4l2_sdr_format) :
  let tried := snd (cx88sdr_try_fmt_sdr CU8 CU16LE fmt) in
  let r := cx88sdr_s_fmt_sdr CU8 CU16LE ctl fmt in
  tried = snd r /\
  cx88sdr_try_fmt_sdr CU8 CU16LE tried = (0, tried) /\
  cx88sdr_s_fmt_sdr CU8 CU16LE (snd (fst r)) (snd r) = (0, snd (fst r), snd r).
Proof.
  unfold cx88sdr_try_fmt_sdr, cx88sdr_s_fmt_sdr.
  destruct (Z.eqb_spec (sdr_pixelformat fmt) CU8) as [E|E];
    [|destruct (Z.eqb_spec (sdr_pixelformat fmt) CU16LE) as [E'|E']];
    cbn [fst snd sdr_pixelformat sdr_reserved]; rewrite ?clear_reserved_idem.
  - rewrite E, Z.eqb_refl. repeat split; congruence.
  - destruct (Z.eqb_spec (sdr_pixelformat fmt) CU8); [contradiction|].
    rewrite E', Z.eqb_refl. repeat split; congruence.
  - rewrite Z.eqb_refl. repeat split; congruence.
Qed.

(** X12: the enumeration lists exactly the formats the driver accepts:
    index 0 is CU8 and index 1 is CU16LE, each returned unchanged by try
    with 1 and 2 bytes per sample; any higher index is refused with
    -EINVAL and the descriptor left alone; and whatever try answers is
    one of the two enumerated formats. *)
Theorem enum_fmt_lists_accepted_formats (CU8 CU16LE : Z) (fd : v4l2_fmtdesc)
    (fmt : v4l2_sdr_format) :
  CU8 <> CU16LE ->
  0 <= fd_index fd ->
  let e := cx88sdr_enum_fmt_sdr CU8 CU16LE fd in
  (1 < fd_index fd -> e = (- EINVAL, fd)) /\
  (fd_index fd <= 1 ->
   fst e = 0 /\
   fd_index (snd e) = fd_index fd /\
   fd_pixelformat (snd e) = (if fd_index fd =? 0 then CU8 else CU16LE) /\
   cx88sdr_try_fmt_sdr CU8 CU16LE
     (mk_sdr_format (fd_pixelformat (snd e)) (sdr_buffersize fmt) (sdr_reserved fmt))
   = (0, mk_sdr_format (fd_pixelformat (snd e)) (1 + fd_index fd)
                       (clear_reserved (sdr_reserved fmt)))) /\
  (exists i, 0 <= i <= 1 /\
     fd_pixelformat (snd (cx88sdr_enum_fmt_sdr CU8 CU16LE (mk_fmtdesc i 0))) =
     sdr_pixelformat (snd (cx88sdr_try_fmt_sdr CU8 CU16LE fmt))).
Proof.
  intros Hd Hi e. subst e. unfold cx88sdr_enum_fmt_sdr, cx88sdr_try_fmt_sdr.
  split; [|split].
  - intros H. destruct (Z.ltb_spec 1 (fd_index fd)); [reflexivity|lia].
  - intros H. destruct (Z.ltb_spec 1 (fd_index fd)); [lia|].
    destruct (Z.eqb_spec (fd_index fd) 0) as [E0|E0].
    + cbn. rewrite Z.eqb_refl, E0. repeat split.
    + destruct (Z.eqb_spec (fd_index fd) 1) as [E1|E1]; [|lia].
      cbn. destruct (Z.eqb_spec CU16LE CU8); [congruence|].
      rewrite Z.eqb_refl, E1. repeat split.
  - destruct (Z.eqb_spec (sdr_pixelformat fmt) CU8) as [E|E];
      [|destruct (Z.eqb_spec (sdr_pixelformat fmt) CU16LE) as [E'|E']].
    + exists 0. cbn. split; [lia|congruence].
    + exists 1. cbn. split; [lia|congruence].
    + exists 0. cbn. split; [lia|reflexivity].
Qed.

Lemma enum_fmt_lists_accepted_formats_witness :
  let CU8 := 0x38305543 in
  let CU16LE := 0x36315543 in
  let fd := mk_fmtdesc 1 0 in
  let fmt := mk_sdr_format 7 9 [1; 2; 3] in
  let e := cx88sdr_enum_fmt_sdr CU8 CU16LE fd in
  (1 < fd_index fd -> e = (- EINVAL, fd)) /\
  (fd_index fd <= 1 ->
   fst e = 0 /\
   fd_index (snd e) = fd_index fd /\
   fd_pixelformat (snd e) = (if fd_index fd =? 0 then CU8 else CU16LE) /\
   cx88sdr_try_fmt_sdr CU8 CU16LE
     (mk_sdr_format (fd_pixelformat (snd e)) (sdr_buffersize fmt) (sdr_reserved fmt))
   = (0, mk_sdr_format (fd_pixelformat (snd e)) (1 + fd_index fd)
                       (clear_reserved (sdr_reserved fmt)))) /\
  (exists i, 0 <= i <= 1 /\
     fd_pixelformat (snd (cx88sdr_enum_fmt_sdr CU8 CU16LE (mk_fmtdesc i 0))) =
     sdr_pixelformat (snd (cx88sdr_try_fmt_sdr CU8 CU16LE fmt))).
Proof.
  intros CU8 CU16LE fd fmt.
  apply (enum_fmt_lists_accepted_formats CU8 CU16LE fd fmt).
  - vm_compute. discriminate.
  - cbn. lia.
Defined.

(** * Controls *)

Lemma small_cases (P : Z -> Prop) (n : nat) :
  (forall k, (k < n)%nat -> P (Z.of_nat k)) ->
  forall v, 0 <= v < Z.of_nat n -> P v.
Proof.
  intros H v Hv. rewrite <- (Z2Nat.id v) by lia. apply H. lia.
Qed.

(** X13: for a gain in the range of the control, 0 to 31, setting the
    control stores the value and makes exactly one register write, to
    MO_AGC_GAIN_ADJ4; the word written carries the gain in bits 16 to 20
    and is otherwise fixed (bit 23 and bits 8 to 15 set); input, rate and
    format are untouched. *)
Theorem s_ctrl_gain_encoding (GAIN BASE : Z) (dev : cx88sdr_dev)
    (ctl : sdr_ctl) (val : Z) :
  0 <= val <= 31 ->
  let r := cx88sdr_s_ctrl GAIN BASE dev ctl GAIN val in
  let w := 0x80ff00 + 0x10000 * val in
  fst (fst r) = 0 /\
  snd (fst r) = set_gain ctl val /\
  mmio_log (snd r) = mmio_log dev ++ [(MO_AGC_GAIN_ADJ4, w)] /\
  Z.land (Z.shiftr w 16) 0x1f = val /\
  Z.land w (Z.lnot (Z.shiftl 0x1f 16)) = 0x80ff00.
Proof.
  intros Hv. unfold cx88sdr_s_ctrl. rewrite Z.eqb_refl.
  cbn [fst snd]. rewrite (u32_small val) by lia.
  unfold cx88sdr_gain_set, mmio_iowrite32. cbn [mmio_log set_gain gain].
  split; [reflexivity|]. split; [reflexivity|].
  pattern val. apply (small_cases _ 32); [|lia].
  intros k Hk.
  do 32 (destruct k as [|k]; [repeat split; reflexivity|]). lia.
Qed.

Lemma s_ctrl_gain_encoding_witness :
  let r := cx88sdr_s_ctrl 0x980913 0x980900 read_dev example_ctl 0x980913 17 in
  let w := 0x80ff00 + 0x10000 * 17 in
  fst (fst r) = 0 /\
  snd (fst r) = set_gain example_ctl 17 /\
  mmio_log (snd r) = mmio_log read_dev ++ [(MO_AGC_GAIN_ADJ4, w)] /\
  Z.land (Z.shiftr w 16) 0x1f = 17 /\
  Z.land w (Z.lnot (Z.shiftl 0x1f 16)) = 0x80ff00.
Proof.
  apply (s_ctrl_gain_encoding 0x980913 0x980900 read_dev example_ctl 17). lia.
Defined.

(** X14: for an input in the range of the control, 0 to 3, setting the
    control stores the value and makes exactly one register write, to
    MO_INPUT_FORMAT; the word carries the input in bits 14 and 15 and is
    otherwise fixed; gain, rate and format are untouched. *)
Theorem s_ctrl_input_encoding (GAIN BASE : Z) (dev : cx88sdr_dev)
    (ctl : sdr_ctl) (val : Z) :
  V4L2_CID_CX88SDR_INPUT BASE <> GAIN ->
  0 <= val <= 3 ->
  let r := cx88sdr_s_ctrl GAIN BASE dev ctl (V4L2_CID_CX88SDR_INPUT BASE) val in
  let w := 0x12011 + 0x4000 * val in
  fst (fst r) = 0 /\
  snd (fst r) = set_input ctl val /\
  mmio_log (snd r) = mmio_log dev ++ [(MO_INPUT_FORMAT, w)] /\
  Z.land (Z.shiftr w 14) 3 = val /\
  Z.land w (Z.lnot (Z.shiftl 3 14)) = 0x12011.
Proof.
  intros Hid Hv. unfold cx88sdr_s_ctrl.
  destruct (Z.eqb_spec (V4L2_CID_CX88SDR_INPUT BASE) GAIN); [contradiction|].
  rewrite Z.eqb_refl.
  cbn [fst snd]. rewrite (u32_small val) by lia.
  unfold cx88sdr_input_set, mmio_iowrite32. cbn [mmio_log set_input input].
  split; [reflexivity|]. split; [reflexivity|].
  pattern val. apply (small_cases _ 4); [|lia].
  intros k Hk.
  do 4 (destruct k as [|k]; [repeat split; reflexivity|]). lia.
Qed.

Lemma s_ctrl_input_encoding_witness :
  let r := cx88sdr_s_ctrl 0x980913 0x980900 read_dev example_ctl
             (V4L2_CID_CX88SDR_INPUT 0x980900) 2 in
  let w := 0x12011 + 0x4000 * 2 in
  fst (fst r) = 0 /\
  snd (fst r) = set_input example_ctl 2 /\
  mmio_log (snd r) = mmio_log read_dev ++ [(MO_INPUT_FORMAT, w)] /\
  Z.land (Z.shiftr w 14) 3 = 2 /\
  Z.land w (Z.lnot (Z.shiftl 3 14)) = 0x12011.
Proof.
  apply (s_ctrl_input_encoding 0x980913 0x980900 read_dev example_ctl 2);
    [vm_compute; discriminate|lia].
Defined.

(** X15: for each of the six rates cx88sdr_rate_set writes the capture
    control, the sample rate converter and the PLL, in that order, and
    nothing else.  The capture word is 0x46 with bit 5 added for the
    16-bit rates (3 to 5) only; a 16-bit rate programs the converter and
    the PLL exactly like the 8-bit rate three below it.  For any other
    rate value nothing is written. *)
Theorem rate_set_programs_clock (dev : cx88sdr_dev) (ctl : sdr_ctl) :
  let log' := mmio_log (cx88sdr_rate_set dev ctl) in
  (0 <= rate ctl <= 5 ->
   log' =
     mmio_log dev ++
     [ (MO_CAPTURE_CTRL, 0x46 + (if 3 <=? rate ctl then 0x20 else 0));
       (MO_SCONV_REG,
        if rate ctl mod 3 =? 0 then 262144
        else if rate ctl mod 3 =? 1 then 131072 else 104857);
       (MO_PLL_REG,
        if rate ctl mod 3 =? 0 then 0x5400000
        else if rate ctl mod 3 =? 1 then 0x1000000 else 0x1400000) ]) /\
  (~ 0 <= rate ctl <= 5 -> cx88sdr_rate_set dev ctl = dev).
Proof.
  intros log'. subst log'. split.
  - intros Hr. unfold cx88sdr_rate_set.
    pattern (rate ctl) at 1 2 3 4 5 6 7 8 9 10 11.
    apply (small_cases _ 6); [|lia].
    intros k Hk.
    do 6 (destruct k as [|k];
          [cbn [Z.of_nat Z.eqb Pos.eqb Pos.of_succ_nat Pos.succ
                RATE_4FSC_8BIT RATE_8FSC_8BIT RATE_10FSC_8BIT RATE_2FSC_16BIT
                RATE_4FSC_16BIT RATE_5FSC_16BIT];
           unfold rate_regs, mmio_iowrite32; cbn [mmio_log];
           rewrite <- !app_assoc; reflexivity|]).
    lia.
  - intros Hr. unfold cx88sdr_rate_set.
    unfold RATE_4FSC_8BIT, RATE_8FSC_8BIT, RATE_10FSC_8BIT, RATE_2FSC_16BIT,
      RATE_4FSC_16BIT, RATE_5FSC_16BIT.
    repeat (match goal with
            | |- context [?a =? ?b] => destruct (Z.eqb_spec a b); [lia|]
            end).
    reflexivity.
Qed.

Lemma rate_set_programs_clock_witness :
  let ctl := set_rate example_ctl RATE_5FSC_16BIT in
  mmio_log (cx88sdr_rate_set read_dev ctl) =
    mmio_log read_dev ++
    [ (MO_CAPTURE_CTRL, 0x46 + (if 3 <=? rate ctl then 0x20 else 0));
      (MO_SCONV_REG,
       if rate ctl mod 3 =? 0 then 262144
       else if rate ctl mod 3 =? 1 then 131072 else 104857);
      (MO_PLL_REG,
       if rate ctl mod 3 =? 0 then 0x5400000
       else if rate ctl mod 3 =? 1 then 0x1000000 else 0x1400000) ].
Proof.
  intros ctl.
  apply (rate_set_programs_clock read_dev ctl). vm_compute.
  split; discriminate.
Defined.

(** X16: cx88sdr_s_ctrl succeeds exactly for the three control ids it
    knows; for any other id it returns -EINVAL having changed nothing and
    written no register.  Whatever the id, the format, the start page and
    the pages of the ring are as before, and earlier register writes stay
    in the trace. *)
Theorem s_ctrl_unknown_id (GAIN BASE : Z) (dev : cx88sdr_dev)
    (ctl : sdr_ctl) (id val : Z) :
  let r := cx88sdr_s_ctrl GAIN BASE dev ctl id val in
  let known := id = GAIN \/ id = V4L2_CID_CX88SDR_INPUT BASE \/
               id = V4L2_CID_CX88SDR_RATE BASE in
  (known -> fst (fst r) = 0) /\
  (~ known -> r = (- EINVAL, ctl, dev)) /\
  pixelformat (snd (fst r)) = pixelformat ctl /\
  buffersize (snd (fst r)) = buffersize ctl /\
  initial_page (snd r) = initial_page dev /\
  pgvec_virt (snd r) = pgvec_virt dev /\
  exists writes, mmio_log (snd r) = mmio_log dev ++ writes.
Proof.
  intros r known. subst r known. unfold cx88sdr_s_ctrl.
  destruct (Z.eqb_spec id GAIN) as [E1|E1];
    [|destruct (Z.eqb_spec id (V4L2_CID_CX88SDR_INPUT BASE)) as [E2|E2];
      [|destruct (Z.eqb_spec id (V4L2_CID_CX88SDR_RATE BASE)) as [E3|E3]]];
    cbn [fst snd].
  - repeat split; try tauto. eexists. reflexivity.
  - repeat split; try tauto. eexists. reflexivity.
  - split; [reflexivity|]. split; [tauto|].
    split; [reflexivity|]. split; [reflexivity|].
    unfold cx88sdr_rate_set, rate_regs.
    repeat (match goal with
            | |- context [if ?b then _ else _] => destruct b
            end);
      (split; [reflexivity|]; split; [reflexivity|]);
      cbn [mmio_iowrite32 mmio_log]; rewrite <- ?app_assoc;
      eexists; try reflexivity.
    symmetry. apply app_nil_r.
  - split; [tauto|]. split; [reflexivity|].
    repeat split. exists []. now rewrite app_nil_r.
Qed.

(** * The interrupt handler *)

Lemma irq_loop_spec status mask n : forall i dev handled,
  exists k,
    (k <= n)%nat /\
    (forall j, (j < k)%nat ->
       Z.land (u32 (status (i + j)%nat)) (u32 (mask (i + j)%nat)) <> 0) /\
    ((k < n)%nat ->
       Z.land (u32 (status (i + k)%nat)) (u32 (mask (i + k)%nat)) = 0) /\
    fst (irq_loop status mask n i dev handled) =
      (if (k =? 0)%nat then handled else 1) /\
    mmio_log (snd (irq_loop status mask n i dev handled)) =
      mmio_log dev ++
      map (fun j => (MO_VID_INTSTAT, u32 (status (i + j)%nat))) (seq 0 k) /\
    pgvec_virt (snd (irq_loop status mask n i dev handled)) = pgvec_virt dev.
Proof.
  induction n as [|n IH]; intros i dev handled.
  - exists 0%nat. cbn. rewrite app_nil_r. repeat split; lia.
  - cbn [irq_loop].
    destruct (Z.eqb_spec (Z.land (u32 (status i)) (u32 (mask i))) 0) as [E|E].
    + exists 0%nat. cbn [fst snd map seq Nat.eqb]. rewrite app_nil_r, Nat.add_0_r.
      repeat split; lia.
    + destruct (IH (S i) (mmio_iowrite32 dev MO_VID_INTSTAT (u32 (status i))) 1)
        as (k & Hk & Hp & Hz & Hr & Hl & Hv).
      exists (S k). split; [lia|]. split; [|split; [|split; [|split]]].
      * intros j Hj. destruct j as [|j].
        -- now rewrite Nat.add_0_r.
        -- replace (i + S j)%nat with (S i + j)%nat by lia. apply Hp. lia.
      * intros Hlt. replace (i + S k)%nat with (S i + k)%nat by lia.
        apply Hz. lia.
      * rewrite Hr. cbn [Nat.eqb]. destruct (k =? 0)%nat; reflexivity.
      * rewrite Hl. cbn [mmio_iowrite32 mmio_log seq map].
        rewrite <- app_assoc. f_equal. cbn [app]. f_equal.
        -- rewrite Nat.add_0_r. f_equal; try reflexivity.
           apply u32_small, u32_range.
        -- rewrite <- seq_shift, map_map. apply map_ext. intros j.
           now replace (S i + j)%nat with (i + S j)%nat by lia.
      * exact Hv.
Qed.

(** X17: the handler acknowledges what it finds pending and gives up
    after ten rounds.  With [k] the number of leading rounds in which
    status and mask share a bit, it writes the status it just read back to
    MO_VID_INTSTAT in each of these rounds and writes nothing else; [k] is
    at most 10, so a source that never clears does not hold the handler;
    and it reports the interrupt as handled exactly when [k] is not 0. *)
Theorem irq_acks_pending (status mask : nat -> Z) (dev : cx88sdr_dev) :
  exists k,
    (k <= 10)%nat /\
    (forall j, (j < k)%nat -> Z.land (u32 (status j)) (u32 (mask j)) <> 0) /\
    ((k < 10)%nat -> Z.land (u32 (status k)) (u32 (mask k)) = 0) /\
    fst (cx88sdr_irq status mask dev) = (if (k =? 0)%nat then 0 else 1) /\
    mmio_log (snd (cx88sdr_irq status mask dev)) =
      mmio_log dev ++ map (fun j => (MO_VID_INTSTAT, u32 (status j))) (seq 0 k) /\
    pgvec_virt (snd (cx88sdr_irq status mask dev)) = pgvec_virt dev.
Proof.
  unfold cx88sdr_irq.
  destruct (irq_loop_spec status mask 10 0 dev 0) as (k & H). exists k.
  exact H.
Qed.

(** * The page ring *)

Lemma list_set_length l : forall i v, length (list_set l i v) = length l.
Proof.
  induction l as [|h t IH]; intros [|i] v; cbn [list_set length]; auto.
Qed.

Lemma list_set_nth l : forall i v j d,
  nth j (list_set l i v) d =
  if (j =? i)%nat && (i <? length l)%nat then v else nth j l d.
Proof.
  induction l as [|h t IH]; intros i v j d.
  - cbn [list_set length]. rewrite andb_false_r. reflexivity.
  - destruct i as [|i], j as [|j]; cbn [list_set nth length]; try reflexivity.
    rewrite IH. reflexivity.
Qed.

Lemma list_set_nth_zero l i j :
  nth j (list_set l i 0) 0 = if (j =? i)%nat then 0 else nth j l 0.
Proof.
  rewrite list_set_nth.
  destruct (Nat.eqb_spec j i), (Nat.ltb_spec i (length l)); cbn [andb];
    try reflexivity.
  subst. now rewrite nth_overflow by lia.
Qed.

Lemma list_set_nth_in l i v j d :
  (i < length l)%nat ->
  nth j (list_set l i v) d = if (j =? i)%nat then v else nth j l d.
Proof.
  intros H. rewrite list_set_nth.
  destruct (Nat.eqb_spec j i), (Nat.ltb_spec i (length l)); cbn [andb];
    try reflexivity; lia.
Qed.

Ltac nat_cases :=
  repeat match goal with
         | |- context [(?a <=? ?b)%nat] => destruct (Nat.leb_spec a b)
         | |- context [(?a <? ?b)%nat] => destruct (Nat.ltb_spec a b)
         | |- context [(?a =? ?b)%nat] => destruct (Nat.eqb_spec a b)
         end;
  cbn [andb]; try lia; try reflexivity; try (subst; reflexivity).

Lemma clear_pages_spec n : forall i pg,
  length (pg_virt (clear_pages n i pg)) = length (pg_virt pg) /\
  length (pg_phy (clear_pages n i pg)) = length (pg_phy pg) /\
  forall j,
    nth j (pg_virt (clear_pages n i pg)) 0 =
      (if (i <=? j)%nat && (j <? i + n)%nat then 0 else nth j (pg_virt pg) 0) /\
    nth j (pg_phy (clear_pages n i pg)) 0 =
      (if (i <=? j)%nat && (j <? i + n)%nat then 0 else nth j (pg_phy pg) 0).
Proof.
  induction n as [|n IH]; intros i pg; cbn [clear_pages].
  - split; [reflexivity|]. split; [reflexivity|]. intros j. split; nat_cases.
  - destruct (IH (S i) (mk_pages (list_set (pg_virt pg) i 0)
                                 (list_set (pg_phy pg) i 0)))
      as (L1 & L2 & Hn).
    cbn [pg_virt pg_phy] in L1, L2, Hn. rewrite list_set_length in L1, L2.
    split; [exact L1|]. split; [exact L2|]. intros j.
    destruct (Hn j) as [H1 H2]. rewrite H1, H2, !list_set_nth_zero.
    split; nat_cases.
Qed.

Section AllocPages.

Variable alloc : nat -> Z * Z.

(** [k] pages are allocated before the allocator fails (or the loop
    ends). *)
Lemma alloc_pages_spec n : forall i pg size k,
  (k <= n)%nat ->
  (forall j, (j < k)%nat -> fst (alloc (i + j)) <> 0) ->
  ((k < n)%nat -> fst (alloc (i + k)) = 0) ->
  (i + n <= length (pg_virt pg))%nat ->
  (i + n <= length (pg_phy pg))%nat ->
  0 <= size -> size + Z.of_nat n * PAGE_SIZE < 2 ^ 32 ->
  let r := alloc_pages alloc n i pg size in
  fst (fst r) = (if (k =? n)%nat then 0 else - ENOMEM) /\
  snd r = size + Z.of_nat k * PAGE_SIZE /\
  length (pg_virt (snd (fst r))) = length (pg_virt pg) /\
  length (pg_phy (snd (fst r))) = length (pg_phy pg) /\
  forall j,
    nth j (pg_virt (snd (fst r))) 0 =
      (if (i <=? j)%nat && (j <? i + k)%nat then fst (alloc j)
       else if (j =? i + k)%nat && (k <? n)%nat then 0
       else nth j (pg_virt pg) 0) /\
    nth j (pg_phy (snd (fst r))) 0 =
      (if (i <=? j)%nat && (j <? i + k)%nat then snd (alloc j)
       else nth j (pg_phy pg) 0).
Proof.
  pose proof PAGE_SIZE_eq as HP.
  induction n as [|n IH]; intros i pg size k Hk Hok Hfail Lv Lp Hs Hsz r;
    subst r; cbn [alloc_pages].
  - assert (k = 0)%nat as -> by lia. cbn [fst snd Nat.eqb].
    split; [reflexivity|]. split; [lia|]. split; [reflexivity|].
    split; [reflexivity|]. intros j. split; nat_cases.
  - destruct k as [|k].
    + rewrite Nat.add_0_r in Hfail. rewrite (Hfail ltac:(lia)).
      cbn [Z.eqb fst snd pg_virt pg_phy Nat.eqb].
      split; [reflexivity|]. split; [lia|].
      rewrite list_set_length. split; [reflexivity|]. split; [reflexivity|].
      intros j. rewrite list_set_nth_zero. split; nat_cases.
    + specialize (Hok 0%nat ltac:(lia)) as H0. rewrite Nat.add_0_r in H0.
      destruct (Z.eqb_spec (fst (alloc i)) 0) as [E|_]; [contradiction|].
      cbn [pg_virt pg_phy].
      destruct (IH (S i)
                  (mk_pages (list_set (pg_virt pg) i (fst (alloc i)))
                            (list_set (pg_phy pg) i (snd (alloc i))))
                  (u32 (size + PAGE_SIZE)) k) as (R1 & R2 & R3 & R4 & R5);
        cbn [pg_virt pg_phy]; rewrite ?list_set_length; try lia.
      * intros j Hj. replace (S i + j)%nat with (i + S j)%nat by lia.
        apply Hok. lia.
      * intros Hlt. replace (S i + k)%nat with (i + S k)%nat by lia.
        apply Hfail. lia.
      * apply u32_range.
      * rewrite u32_small by lia. lia.
      * cbn [pg_virt pg_phy] in R3, R4, R5. rewrite list_set_length in R3, R4.
        split; [exact R1|]. split; [rewrite R2, u32_small by lia; lia|].
        split; [exact R3|]. split; [exact R4|].
        intros j. destruct (R5 j) as [V P]. rewrite V, P.
        rewrite !list_set_nth_in by lia.
        split; nat_cases.
Qed.

(** Freeing walks the slots and releases the ones that are not NULL. *)
Lemma free_pages_spec n : forall i pg k,
  (k <= n)%nat ->
  (forall j, (j < k)%nat -> nth (i + j) (pg_virt pg) 0 <> 0) ->
  (forall j, (k <= j < n)%nat -> nth (i + j) (pg_virt pg) 0 = 0) ->
  free_pages n i pg =
  map (fun j => (nth (i + j) (pg_virt pg) 0, nth (i + j) (pg_phy pg) 0)) (seq 0 k).
Proof.
  induction n as [|n IH]; intros i pg k Hk Hset Hnull; cbn [free_pages].
  - assert (k = 0)%nat as -> by lia. reflexivity.
  - destruct k as [|k].
    + rewrite (IH (S i) pg 0%nat) by
        (try lia; intros j Hj; replace (S i + j)%nat with (i + S j)%nat by lia;
         apply Hnull; lia).
      specialize (Hnull 0%nat ltac:(lia)). rewrite Nat.add_0_r in Hnull.
      rewrite Hnull. reflexivity.
    + specialize (Hset 0%nat ltac:(lia)) as H0. rewrite Nat.add_0_r in H0.
      destruct (Z.eqb_spec (nth i (pg_virt pg) 0) 0); [contradiction|].
      cbn [negb app seq map]. rewrite Nat.add_0_r. f_equal.
      rewrite (IH (S i) pg k); try lia.
      * rewrite <- seq_shift, map_map. apply map_ext. intros j.
        now replace (S i + j)%nat with (i + S j)%nat by lia.
      * intros j Hj. replace (S i + j)%nat with (i + S j)%nat by lia.
        apply Hset. lia.
      * intros j Hj. replace (S i + j)%nat with (i + S j)%nat by lia.
        apply Hnull. lia.
Qed.

End AllocPages.

Lemma alloc_dma_buffer_spec alloc pg k :
  length (pg_virt pg) = Z.to_nat (VBI_DMA_PAGES + 1) ->
  length (pg_phy pg) = Z.to_nat (VBI_DMA_PAGES + 1) ->
  (k <= Z.to_nat VBI_DMA_PAGES)%nat ->
  (forall j, (j < k)%nat -> fst (alloc j) <> 0) ->
  ((k < Z.to_nat VBI_DMA_PAGES)%nat -> fst (alloc k) = 0) ->
  let r := cx88sdr_alloc_dma_buffer alloc pg in
  let pg' := snd (fst r) in
  fst (fst r) = (if (k =? Z.to_nat VBI_DMA_PAGES)%nat then 0 else - ENOMEM) /\
  snd r = Z.of_nat k * PAGE_SIZE /\
  (forall j, (j < k)%nat ->
     nth j (pg_virt pg') 0 = fst (alloc j) /\ nth j (pg_phy pg') 0 = snd (alloc j)) /\
  (forall j, (k <= j)%nat ->
     nth j (pg_virt pg') 0 = 0 /\ nth j (pg_phy pg') 0 = 0) /\
  length (pg_virt pg') = length (pg_virt pg) /\
  length (pg_phy pg') = length (pg_phy pg).
Proof.
  intros Lv Lp Hk Hok Hfail r pg'. subst pg' r.
  unfold cx88sdr_alloc_dma_buffer.
  pose proof VBI_DMA_PAGES_eq as HN. pose proof PAGE_SIZE_eq as HP.
  pose proof VBI_DMA_PAGES_to_nat as HNn.
  set (np := Z.to_nat VBI_DMA_PAGES) in *.
  assert (Hnp1 : Z.to_nat (VBI_DMA_PAGES + 1) = S np) by lia.
  rewrite Hnp1 in *.
  destruct (clear_pages_spec (S np) 0 pg) as (C1 & C2 & C3).
  destruct (alloc_pages_spec alloc np 0 (clear_pages (S np) 0 pg) 0 k)
    as (R1 & R2 & R3 & R4 & R5); try lia.
  - exact Hok.
  - exact Hfail.
  - split; [exact R1|]. split; [lia|].
    split; [|split; [|split; [congruence|congruence]]].
    + intros j Hj. destruct (R5 j) as [V P]. rewrite V, P.
      split; nat_cases.
    + intros j Hj. destruct (R5 j) as [V P]. rewrite V, P.
      destruct (C3 j) as [V0 P0]. rewrite V0, P0.
      split; nat_cases; rewrite nth_overflow by lia; reflexivity.
Qed.

(** X18: cx88sdr_alloc_dma_buffer allocates pages until the allocator
    fails or the ring is complete.  With [k] pages obtained it returns 0
    if [k] is the whole ring and -ENOMEM otherwise; slots below [k] hold
    the addresses the allocator returned, every slot from [k] on
    (the spare slot included) is NULL with bus address 0 whatever the
    arrays held before, and the size it accounts is [k] pages. *)
Theorem alloc_dma_buffer_outcome (alloc : nat -> Z * Z) (pg : dma_pages)
    (k : nat) :
  length (pg_virt pg) = Z.to_nat (VBI_DMA_PAGES + 1) ->
  length (pg_phy pg) = Z.to_nat (VBI_DMA_PAGES + 1) ->
  (k <= Z.to_nat VBI_DMA_PAGES)%nat ->
  (forall j, (j < k)%nat -> fst (alloc j) <> 0) ->
  ((k < Z.to_nat VBI_DMA_PAGES)%nat -> fst (alloc k) = 0) ->
  let r := cx88sdr_alloc_dma_buffer alloc pg in
  let pg' := snd (fst r) in
  fst (fst r) = (if (k =? Z.to_nat VBI_DMA_PAGES)%nat then 0 else - ENOMEM) /\
  snd r = Z.of_nat k * PAGE_SIZE /\
  (forall j, (j < k)%nat ->
     nth j (pg_virt pg') 0 = fst (alloc j) /\ nth j (pg_phy pg') 0 = snd (alloc j)) /\
  (forall j, (k <= j)%nat ->
     nth j (pg_virt pg') 0 = 0 /\ nth j (pg_phy pg') 0 = 0) /\
  length (pg_virt pg') = length (pg_virt pg) /\
  length (pg_phy pg') = length (pg_phy pg).
Proof. apply alloc_dma_buffer_spec. Qed.

Lemma example_alloc_ok j : (j < 3)%nat -> fst (example_alloc j) <> 0.
Proof.
  intros Hj. do 3 (destruct j as [|j]; [vm_compute; discriminate|]). lia.
Qed.

Lemma alloc_dma_buffer_outcome_witness :
  let r := cx88sdr_alloc_dma_buffer example_alloc example_pages in
  let pg' := snd (fst r) in
  fst (fst r) = (if (3 =? Z.to_nat VBI_DMA_PAGES)%nat then 0 else - ENOMEM) /\
  snd r = Z.of_nat 3 * PAGE_SIZE /\
  (forall j, (j < 3)%nat ->
     nth j (pg_virt pg') 0 = fst (example_alloc j) /\
     nth j (pg_phy pg') 0 = snd (example_alloc j)) /\
  (forall j, (3 <= j)%nat ->
     nth j (pg_virt pg') 0 = 0 /\ nth j (pg_phy pg') 0 = 0) /\
  length (pg_virt pg') = length (pg_virt example_pages) /\
  length (pg_phy pg') = length (pg_phy example_pages).
Proof.
  pose proof VBI_DMA_PAGES_eq as HN.
  apply (alloc_dma_buffer_outcome example_alloc example_pages 3).
  - apply repeat_length.
  - apply repeat_length.
  - lia.
  - apply example_alloc_ok.
  - reflexivity.
Defined.

(** X19: freeing after an allocation attempt, complete or not, releases
    exactly the pages that were obtained, each one once, with the
    addresses the allocator gave, and never calls the allocator's free on
    a NULL slot. *)
Theorem free_dma_buffer_releases_allocated (alloc : nat -> Z * Z)
    (pg : dma_pages) (k : nat) :
  length (pg_virt pg) = Z.to_nat (VBI_DMA_PAGES + 1) ->
  length (pg_phy pg) = Z.to_nat (VBI_DMA_PAGES + 1) ->
  (k <= Z.to_nat VBI_DMA_PAGES)%nat ->
  (forall j, (j < k)%nat -> fst (alloc j) <> 0) ->
  ((k < Z.to_nat VBI_DMA_PAGES)%nat -> fst (alloc k) = 0) ->
  cx88sdr_free_dma_buffer (snd (fst (cx88sdr_alloc_dma_buffer alloc pg))) =
    map alloc (seq 0 k) /\
  Forall (fun p => fst p <> 0)
    (cx88sdr_free_dma_buffer (snd (fst (cx88sdr_alloc_dma_buffer alloc pg)))).
Proof.
  intros Lv Lp Hk Hok Hfail.
  destruct (alloc_dma_buffer_spec alloc pg k Lv Lp Hk Hok Hfail)
    as (_ & _ & Hset & Hnull & _).
  assert (E : cx88sdr_free_dma_buffer
                (snd (fst (cx88sdr_alloc_dma_buffer alloc pg))) =
              map alloc (seq 0 k)).
  { unfold cx88sdr_free_dma_buffer.
    rewrite (free_pages_spec _ 0 _ k Hk).
    - apply map_ext_in. intros j Hj. apply in_seq in Hj.
      destruct (Hset j ltac:(lia)) as [V P].
      cbn [Nat.add]. rewrite V, P. symmetry. apply surjective_pairing.
    - intros j Hj. cbn [Nat.add]. destruct (Hset j Hj) as [V _].
      rewrite V. now apply Hok.
    - intros j Hj. cbn [Nat.add]. now destruct (Hnull j ltac:(lia)). }
  split; [exact E|]. rewrite E. apply Forall_forall.
  intros p Hp. apply in_map_iff in Hp as (j & <- & Hj).
  apply in_seq in Hj. apply Hok. lia.
Qed.

Lemma free_dma_buffer_releases_allocated_witness :
  cx88sdr_free_dma_buffer
    (snd (fst (cx88sdr_alloc_dma_buffer example_alloc example_pages))) =
    map example_alloc (seq 0 3) /\
  Forall (fun p => fst p <> 0)
    (cx88sdr_free_dma_buffer
       (snd (fst (cx88sdr_alloc_dma_buffer example_alloc example_pages)))).
Proof.
  pose proof VBI_DMA_PAGES_eq as HN.
  apply (free_dma_buffer_releases_allocated example_alloc example_pages 3).
  - apply repeat_length.
  - apply repeat_length.
  - lia.
  - apply example_alloc_ok.
  - reflexivity.
Defined.

(** X20: when the whole ring was allocated and every bus address is a
    32-bit address with room for a page, the program built from the
    arrays writes page [i] at the address the allocator returned for it:
    the first half there, the second half 2048 bytes further. *)
Theorem make_risc_uses_allocated_pages (alloc : nat -> Z * Z)
    (pg : dma_pages) (dev : cx88sdr_dev) :
  length (pg_virt pg) = Z.to_nat (VBI_DMA_PAGES + 1) ->
  length (pg_phy pg) = Z.to_nat (VBI_DMA_PAGES + 1) ->
  (forall j, (j < Z.to_nat VBI_DMA_PAGES)%nat ->
     fst (alloc j) <> 0 /\ 0 <= snd (alloc j) <= 2 ^ 32 - PAGE_SIZE) ->
  let r := cx88sdr_alloc_dma_buffer alloc pg in
  let dev' := set_pgvec_phy dev (pg_phy (snd (fst r))) in
  fst (fst r) = 0 /\
  exists prog,
    risc_decode (cx88sdr_make_risc_instructions dev') = Some prog /\
    forall i, 0 <= i < VBI_DMA_PAGES ->
      exists c1 c2,
        nth (Z.to_nat (1 + 2 * i)) prog (Sync 0) =
          Write c1 (snd (alloc (Z.to_nat i))) /\
        nth (Z.to_nat (2 + 2 * i)) prog (Sync 0) =
          Write c2 (snd (alloc (Z.to_nat i)) + CLUSTER_BUF_SIZE).
Proof.
  intros Lv Lp Hall r dev'.
  destruct (alloc_dma_buffer_spec alloc pg (Z.to_nat VBI_DMA_PAGES) Lv Lp
              (Nat.le_refl _) (fun j Hj => proj1 (Hall j Hj))
              (fun H => False_ind _ (Nat.lt_irrefl _ H)))
    as (R & _ & Hset & _).
  fold r in R, Hset. rewrite Nat.eqb_refl in R.
  split; [exact R|].
  exists (risc_program dev'). split; [apply make_risc_instructions_decode|].
  intros i Hi.
  exists risc_write_lo, (risc_write_hi ((i + 1) mod 512) i).
  rewrite risc_program_nth_lo, risc_program_nth_hi by assumption.
  unfold page_addr. subst dev'. cbn [set_pgvec_phy pgvec_phy].
  destruct (Hset (Z.to_nat i) ltac:(lia)) as [_ P]. rewrite P.
  destruct (Hall (Z.to_nat i) ltac:(lia)) as [_ Hr].
  rewrite PAGE_SIZE_eq in Hr.
  rewrite (u32_small (snd _)) by lia.
  rewrite u32_small by (unfold CLUSTER_BUF_SIZE; lia).
  split; reflexivity.
Qed.

Lemma make_risc_uses_allocated_pages_witness :
  let alloc := fun j => (0x7000 + Z.of_nat j, example_page j) in
  let r := cx88sdr_alloc_dma_buffer alloc example_pages in
  let dev' := set_pgvec_phy example_dev (pg_phy (snd (fst r))) in
  fst (fst r) = 0 /\
  exists prog,
    risc_decode (cx88sdr_make_risc_instructions dev') = Some prog /\
    forall i, 0 <= i < VBI_DMA_PAGES ->
      exists c1 c2,
        nth (Z.to_nat (1 + 2 * i)) prog (Sync 0) =
          Write c1 (snd (alloc (Z.to_nat i))) /\
        nth (Z.to_nat (2 + 2 * i)) prog (Sync 0) =
          Write c2 (snd (alloc (Z.to_nat i)) + CLUSTER_BUF_SIZE).
Proof.
  intros alloc.
  apply (make_risc_uses_allocated_pages alloc example_pages example_dev).
  - apply repeat_length.
  - apply repeat_length.
  - intros j Hj. pose proof VBI_DMA_PAGES_eq as HN.
    subst alloc. cbn [fst snd]. unfold example_page. rewrite PAGE_SIZE_eq.
    split; lia.
Defined.

(** * Bring-up *)

Lemma mmio_iowrite32_app dev reg val :
  mmio_log (mmio_iowrite32 dev reg val) =
  mmio_log dev ++ [(4 * Z.shiftr (u32 reg) 2, u32 val)].
Proof. reflexivity. Qed.

Lemma mmio_last_app log1 log2 reg :
  mmio_last (log1 ++ log2) reg =
  match mmio_last log2 reg with
  | Some v => Some v
  | None => mmio_last log1 reg
  end.
Proof.
  induction log1 as [|[r v] t IH]; cbn [app mmio_last].
  - destruct (mmio_last log2 reg); reflexivity.
  - rewrite IH. destruct (mmio_last log2 reg); reflexivity.
Qed.

Lemma pages_instrs_writes dev n : forall i ctl addr,
  In (Write ctl addr) (pages_instrs dev n i) -> write_len ctl = CLUSTER_BUF_SIZE.
Proof.
  induction n as [|n IH]; intros i ctl addr Hin; cbn [pages_instrs] in Hin;
    [contradiction|].
  apply in_app_or in Hin as [Hin|Hin]; [|now apply (IH (i + 1) ctl addr)].
  destruct Hin as [Hin|[Hin|[]]]; injection Hin as <- _.
  - reflexivity.
  - apply risc_write_hi_len.
Qed.

Lemma risc_program_writes dev ctl addr :
  In (Write ctl addr) (risc_program dev) -> write_len ctl = CLUSTER_BUF_SIZE.
Proof.
  unfold risc_program. generalize (Z.to_nat VBI_DMA_PAGES) as n. intros n Hin.
  apply in_inv in Hin as [Hin|Hin]; [discriminate|].
  apply in_app_or in Hin as [Hin|Hin].
  - eapply pages_instrs_writes; eassumption.
  - apply in_inv in Hin as [Hin|[]]. discriminate.
Qed.

Lemma sram_setup_log dev numbuf buffsize buffptr cdtptr :
  0 <= numbuf ->
  0 <= cdtptr < 2 ^ 32 -> cdtptr mod 4 = 0 -> cdtptr + 16 * numbuf <= 2 ^ 32 ->
  0 <= buffptr < 2 ^ 32 -> 8 <= buffsize < 2 ^ 32 ->
  buffptr + numbuf * buffsize <= 2 ^ 32 ->
  0 <= risc_inst_phy dev < 2 ^ 32 ->
  mmio_log (cx88sdr_sram_setup dev numbuf buffsize buffptr cdtptr) =
    mmio_log dev ++
    cdt_entries (Z.to_nat numbuf) 0 buffptr buffsize cdtptr ++
    sram_regs dev numbuf buffsize cdtptr.
Proof.
  intros Hn Hc Ha Hce Hb Hs Hbe Hphy.
  unfold cx88sdr_sram_setup, sram_regs.
  assert (Hq : 0 <= Z.shiftr buffsize 3 - 1 < 2 ^ 32).
  { rewrite Z.shiftr_div_pow2 by lia. change (2 ^ 3) with 8. divlia. }
  repeat (rewrite mmio_iowrite32_log;
          [|first [reflexivity | mmio_range] ..]).
  rewrite ?mmio_iowrite32_phy, ?sram_cdt_phy.
  rewrite sram_cdt_log by (rewrite ?Z2Nat.id; lia).
  repeat rewrite <- app_assoc. reflexivity.
Qed.

(** X21: the transfer unit is the same wherever it is programmed: the VBI
    packet size that cx88sdr_adc_setup leaves in MO_VBI_PACKET (the field
    above bit 17), the slot size cx88sdr_probe's call of
    cx88sdr_sram_setup leaves in MO_DMA24_CNT1 (in 8-byte units, minus
    one) and the length of every WRITE of the RISC program are all
    [CLUSTER_BUF_SIZE], half a page; and the table size left in
    MO_DMA24_CNT2 is twice [CLUSTER_BUF_NUM].  This holds whatever was
    written to the registers before. *)
Theorem transfer_unit_is_consistent (dev : cx88sdr_dev) (intstat : Z) :
  0 <= risc_inst_phy dev < 2 ^ 32 ->
  (exists v,
     mmio_last (mmio_log (cx88sdr_adc_setup dev intstat)) MO_VBI_PACKET = Some v /\
     Z.shiftr v 17 = CLUSTER_BUF_SIZE) /\
  (exists q n,
     mmio_last (mmio_log (probe_sram_setup dev)) MO_DMA24_CNT1 = Some q /\
     8 * (q + 1) = CLUSTER_BUF_SIZE /\
     mmio_last (mmio_log (probe_sram_setup dev)) MO_DMA24_CNT2 = Some n /\
     n = 2 * CLUSTER_BUF_NUM) /\
  (exists prog,
     risc_decode (cx88sdr_make_risc_instructions dev) = Some prog /\
     forall ctl addr, In (Write ctl addr) prog -> write_len ctl = CLUSTER_BUF_SIZE) /\
  2 * CLUSTER_BUF_SIZE = PAGE_SIZE.
Proof.
  intros Hphy. split; [|split; [|split; [|reflexivity]]].
  - exists (Z.lor (Z.shiftl CLUSTER_BUF_SIZE 17) (Z.shiftl 2 11)).
    split; [|reflexivity].
    unfold cx88sdr_adc_setup.
    rewrite !mmio_iowrite32_app, <- !app_assoc, mmio_last_app. reflexivity.
  - exists (Z.shiftr CLUSTER_BUF_SIZE 3 - 1), (CLUSTER_BUF_NUM * 2).
    unfold probe_sram_setup.
    rewrite sram_setup_log;
      [|first [assumption | reflexivity
              | unfold CLUSTER_BUF_NUM, CLUSTER_BUF_SIZE, CLUSTER_BUFFER_BASE,
                  CDT_BASE, CX_SRAM_BASE; lia] ..].
    rewrite !mmio_last_app. split; [reflexivity|].
    split; [reflexivity|]. split; reflexivity.
  - exists (risc_program dev). split; [apply make_risc_instructions_decode|].
    intros ctl addr Hin. eapply risc_program_writes; eassumption.
Qed.

Lemma transfer_unit_is_consistent_witness :
  0 <= risc_inst_phy example_dev < 2 ^ 32 /\
  ((exists v,
     mmio_last (mmio_log (cx88sdr_adc_setup example_dev 0)) MO_VBI_PACKET = Some v /\
     Z.shiftr v 17 = CLUSTER_BUF_SIZE) /\
  (exists q n,
     mmio_last (mmio_log (probe_sram_setup example_dev)) MO_DMA24_CNT1 = Some q /\
     8 * (q + 1) = CLUSTER_BUF_SIZE /\
     mmio_last (mmio_log (probe_sram_setup example_dev)) MO_DMA24_CNT2 = Some n /\
     n = 2 * CLUSTER_BUF_NUM) /\
  (exists prog,
     risc_decode (cx88sdr_make_risc_instructions example_dev) = Some prog /\
     forall ctl addr, In (Write ctl addr) prog -> write_len ctl = CLUSTER_BUF_SIZE) /\
  2 * CLUSTER_BUF_SIZE = PAGE_SIZE).
Proof.
  assert (H : 0 <= risc_inst_phy example_dev < 2 ^ 32)
    by (cbn [example_dev risc_inst_phy]; lia).
  split; [exact H|].
  apply (transfer_unit_is_consistent example_dev 0 H).
Defined.

(** ** cx88sdr_probe and cx88sdr_remove *)

Lemma kcall_eq_dec (a b : kcall) : {a = b} + {a <> b}.
Proof. decide equality; apply Z.eq_dec. Defined.

Lemma mmio_calls_acquired dev dev' : filter is_acquire (mmio_calls dev dev') = [].
Proof.
  unfold mmio_calls. induction (skipn (length (mmio_log dev)) (mmio_log dev'))
    as [|w l IH]; [reflexivity|exact IH].
Qed.

Lemma mmio_calls_released dev dev' :
  flat_map release_entry (mmio_calls dev dev') = [].
Proof.
  unfold mmio_calls. induction (skipn (length (mmio_log dev)) (mmio_log dev'))
    as [|w l IH]; [reflexivity|exact IH].
Qed.

Lemma alloc_calls_acquired alloc n : forall i,
  filter is_acquire (alloc_calls alloc n i) = alloc_calls alloc n i.
Proof.
  induction n as [|n IH]; intros i; cbn [alloc_calls]; [reflexivity|].
  destruct (fst (alloc i) =? 0); [reflexivity|].
  cbn [filter is_acquire]. f_equal. apply IH.
Qed.

Lemma alloc_calls_released alloc n : forall i,
  flat_map release_entry (alloc_calls alloc n i) = [].
Proof.
  induction n as [|n IH]; intros i; cbn [alloc_calls]; [reflexivity|].
  destruct (fst (alloc i) =? 0); [reflexivity|].
  cbn [flat_map release_entry release_of app]. apply IH.
Qed.

Lemma alloc_dma_calls_acquired alloc :
  filter is_acquire (alloc_dma_calls alloc) = alloc_dma_calls alloc.
Proof. apply alloc_calls_acquired. Qed.

Lemma alloc_dma_calls_released alloc :
  flat_map release_entry (alloc_dma_calls alloc) = [].
Proof. apply alloc_calls_released. Qed.

(** The allocations recorded are those of the leading calls that
    succeeded. *)
Lemma alloc_calls_spec alloc n : forall i k,
  (k <= n)%nat ->
  (forall j, (j < k)%nat -> fst (alloc (i + j)%nat) <> 0) ->
  ((k < n)%nat -> fst (alloc (i + k)%nat) = 0) ->
  alloc_calls alloc n i =
  map (fun j => K_dma_alloc_page (fst (alloc (i + j)%nat)) (snd (alloc (i + j)%nat)))
      (seq 0 k).
Proof.
  induction n as [|n IH]; intros i k Hk Hok Hz; cbn [alloc_calls].
  - assert (k = 0)%nat as -> by lia. reflexivity.
  - destruct k as [|k].
    + specialize (Hz ltac:(lia)). rewrite Nat.add_0_r in Hz.
      rewrite Hz. reflexivity.
    + pose proof (Hok 0%nat ltac:(lia)) as H0. rewrite Nat.add_0_r in H0.
      destruct (Z.eqb_spec (fst (alloc i)) 0) as [E|_]; [contradiction|].
      cbn [seq map]. rewrite Nat.add_0_r. f_equal.
      rewrite (IH (S i) k); try lia.
      * rewrite <- seq_shift, map_map. apply map_ext. intros j.
        now replace (S i + j)%nat with (i + S j)%nat by lia.
      * intros j Hj. replace (S i + j)%nat with (i + S j)%nat by lia.
        apply Hok. lia.
      * intros Hlt. replace (S i + k)%nat with (i + S k)%nat by lia.
        apply Hz. lia.
Qed.

Lemma alloc_dma_calls_spec alloc k :
  (k <= Z.to_nat VBI_DMA_PAGES)%nat ->
  (forall j, (j < k)%nat -> fst (alloc j) <> 0) ->
  ((k < Z.to_nat VBI_DMA_PAGES)%nat -> fst (alloc k) = 0) ->
  alloc_dma_calls alloc =
  map (fun j => K_dma_alloc_page (fst (alloc j)) (snd (alloc j))) (seq 0 k).
Proof.
  intros Hk Hok Hz. unfold alloc_dma_calls.
  now rewrite (alloc_calls_spec alloc _ 0 k Hk Hok Hz).
Qed.

Lemma free_dma_calls_acquired pg : filter is_acquire (free_dma_calls pg) = [].
Proof.
  unfold free_dma_calls. induction (cx88sdr_free_dma_buffer pg) as [|p l IH];
    [reflexivity|exact IH].
Qed.

Lemma first_failure (alloc : nat -> Z * Z) n :
  (forall j, (j < n)%nat -> fst (alloc j) <> 0) \/
  exists k, (k < n)%nat /\ (forall j, (j < k)%nat -> fst (alloc j) <> 0) /\
            fst (alloc k) = 0.
Proof.
  induction n as [|n [IH|(k & Hk & Hok & Hz)]].
  - left. intros j Hj. lia.
  - destruct (Z.eq_dec (fst (alloc n)) 0) as [E|E].
    + right. exists n. split; [lia|]. split; [exact IH|exact E].
    + left. intros j Hj. destruct (Nat.eq_dec j n) as [->|Hne]; [exact E|].
      apply IH. lia.
  - right. exists k. split; [lia|]. split; assumption.
Qed.

Lemma alloc_dma_buffer_ret alloc pg :
  length (pg_virt pg) = Z.to_nat (VBI_DMA_PAGES + 1) ->
  length (pg_phy pg) = Z.to_nat (VBI_DMA_PAGES + 1) ->
  (fst (fst (cx88sdr_alloc_dma_buffer alloc pg)) = 0 <->
   forall j, (j < Z.to_nat VBI_DMA_PAGES)%nat -> fst (alloc j) <> 0).
Proof.
  intros Lv Lp. split.
  - intros R.
    destruct (first_failure alloc (Z.to_nat VBI_DMA_PAGES))
      as [Hall|(k & Hk & Hok & Hz)]; [exact Hall|].
    destruct (alloc_dma_buffer_spec alloc pg k Lv Lp (Nat.lt_le_incl _ _ Hk) Hok
                (fun _ => Hz)) as (R' & _).
    rewrite R in R'. apply Nat.lt_neq in Hk. apply Nat.eqb_neq in Hk.
    rewrite Hk in R'. discriminate R'.
  - intros Hall.
    destruct (alloc_dma_buffer_spec alloc pg (Z.to_nat VBI_DMA_PAGES) Lv Lp
                (Nat.le_refl _) Hall
                (fun H => False_ind _ (Nat.lt_irrefl _ H))) as (R & _).
    rewrite Nat.eqb_refl in R. exact R.
Qed.

Lemma free_after_alloc alloc pg k :
  length (pg_virt pg) = Z.to_nat (VBI_DMA_PAGES + 1) ->
  length (pg_phy pg) = Z.to_nat (VBI_DMA_PAGES + 1) ->
  (k <= Z.to_nat VBI_DMA_PAGES)%nat ->
  (forall j, (j < k)%nat -> fst (alloc j) <> 0) ->
  ((k < Z.to_nat VBI_DMA_PAGES)%nat -> fst (alloc k) = 0) ->
  cx88sdr_free_dma_buffer (snd (fst (cx88sdr_alloc_dma_buffer alloc pg))) =
    map alloc (seq 0 k).
Proof.
  intros Lv Lp Hk Hok Hfail.
  destruct (alloc_dma_buffer_spec alloc pg k Lv Lp Hk Hok Hfail)
    as (_ & _ & Hset & Hnull & _).
  unfold cx88sdr_free_dma_buffer.
  rewrite (free_pages_spec _ 0 _ k Hk).
  - apply map_ext_in. intros j Hj. apply in_seq in Hj.
    destruct (Hset j ltac:(lia)) as [V P].
    cbn [Nat.add]. rewrite V, P. symmetry. apply surjective_pairing.
  - intros j Hj. cbn [Nat.add]. destruct (Hset j Hj) as [V _].
    rewrite V. now apply Hok.
  - intros j Hj. cbn [Nat.add]. now destruct (Hnull j ltac:(lia)).
Qed.

(** What cx88sdr_free_dma_buffer gives back after an allocation attempt,
    complete or not, is what the allocator had handed out. *)
Lemma free_releases_allocated alloc pg :
  length (pg_virt pg) = Z.to_nat (VBI_DMA_PAGES + 1) ->
  length (pg_phy pg) = Z.to_nat (VBI_DMA_PAGES + 1) ->
  flat_map release_entry
    (free_dma_calls (snd (fst (cx88sdr_alloc_dma_buffer alloc pg)))) =
  alloc_dma_calls alloc.
Proof.
  intros Lv Lp.
  assert (H : exists k, (k <= Z.to_nat VBI_DMA_PAGES)%nat /\
                        (forall j, (j < k)%nat -> fst (alloc j) <> 0) /\
                        ((k < Z.to_nat VBI_DMA_PAGES)%nat -> fst (alloc k) = 0)).
  { destruct (first_failure alloc (Z.to_nat VBI_DMA_PAGES))
      as [Hall|(k & Hk & Hok & Hz)].
    - exists (Z.to_nat VBI_DMA_PAGES). split; [lia|]. split; [exact Hall|lia].
    - exists k. split; [lia|]. split; [exact Hok|]. intros _. exact Hz. }
  destruct H as (k & Hk & Hok & Hz).
  unfold free_dma_calls.
  rewrite (free_after_alloc alloc pg k Lv Lp Hk Hok Hz).
  rewrite (alloc_dma_calls_spec alloc k Hk Hok Hz).
  induction (seq 0 k) as [|j l IH]; [reflexivity|].
  cbn [map flat_map release_entry release_of app fst snd]. f_equal. exact IH.
Qed.

Lemma alloc_risc_ret dev alloc :
  fst (cx88sdr_alloc_risc_inst_buffer dev alloc) = 0 <->
  alloc (VBI_DMA_BUF_NUM * CLUSTER_BUF_NUM + PAGE_SIZE) <> None.
Proof.
  unfold cx88sdr_alloc_risc_inst_buffer.
  change (u32 (VBI_DMA_BUF_NUM * CLUSTER_BUF_NUM + PAGE_SIZE))
    with (VBI_DMA_BUF_NUM * CLUSTER_BUF_NUM + PAGE_SIZE).
  destruct (alloc (VBI_DMA_BUF_NUM * CLUSTER_BUF_NUM + PAGE_SIZE)); cbn [fst].
  - split; [discriminate|reflexivity].
  - split; [discriminate|congruence].
Qed.

(** The instruction buffer is there after a successful allocation, and
    register writes leave the pointer alone. *)
Lemma free_risc_alloc dev alloc phy :
  fst (cx88sdr_alloc_risc_inst_buffer dev alloc) = 0 ->
  cx88sdr_free_risc_inst_buffer
    (set_pgvec_phy (snd (cx88sdr_alloc_risc_inst_buffer dev alloc)) phy) =
  [K_dma_free_risc].
Proof.
  unfold cx88sdr_alloc_risc_inst_buffer, cx88sdr_free_risc_inst_buffer.
  change (u32 (VBI_DMA_BUF_NUM * CLUSTER_BUF_NUM + PAGE_SIZE) / 4) with 66560.
  destruct (alloc _); cbn [fst snd set_pgvec_phy risc_inst_virt];
    [intros _|discriminate].
  replace (Z.to_nat 66560) with (S (Z.to_nat 66559)) by lia.
  reflexivity.
Qed.

Lemma free_risc_made dev dev' tail :
  cx88sdr_free_risc_inst_buffer
    (set_risc_inst_virt dev (cx88sdr_make_risc_instructions dev' ++ tail)) =
  [K_dma_free_risc].
Proof. reflexivity. Qed.

Lemma free_risc_iowrite dev reg val :
  cx88sdr_free_risc_inst_buffer (mmio_iowrite32 dev reg val) =
  cx88sdr_free_risc_inst_buffer dev.
Proof. reflexivity. Qed.

Lemma free_risc_shutdown dev :
  cx88sdr_free_risc_inst_buffer (cx88sdr_shutdown dev) =
  cx88sdr_free_risc_inst_buffer dev.
Proof. reflexivity. Qed.

Lemma sram_cdt_virt n : forall dev i buff buffsize cdt,
  risc_inst_virt (sram_cdt dev n i buff buffsize cdt) = risc_inst_virt dev.
Proof.
  induction n as [|n IH]; intros; cbn [sram_cdt]; [reflexivity|].
  now rewrite IH.
Qed.

Lemma mmio_iowrite32_virt dev reg val :
  risc_inst_virt (mmio_iowrite32 dev reg val) = risc_inst_virt dev.
Proof. reflexivity. Qed.

Lemma free_risc_sram_setup dev :
  cx88sdr_free_risc_inst_buffer (probe_sram_setup dev) =
  cx88sdr_free_risc_inst_buffer dev.
Proof.
  unfold cx88sdr_free_risc_inst_buffer, probe_sram_setup, cx88sdr_sram_setup.
  cbv zeta. rewrite !mmio_iowrite32_virt, sram_cdt_virt. reflexivity.
Qed.

Lemma free_risc_adc_setup dev intstat :
  cx88sdr_free_risc_inst_buffer (cx88sdr_adc_setup dev intstat) =
  cx88sdr_free_risc_inst_buffer dev.
Proof. reflexivity. Qed.

Lemma free_risc_rate_set dev ctl :
  cx88sdr_free_risc_inst_buffer (cx88sdr_rate_set dev ctl) =
  cx88sdr_free_risc_inst_buffer dev.
Proof.
  unfold cx88sdr_rate_set.
  repeat match goal with
         | |- context [if ?c then _ else _] => destruct c
         end; reflexivity.
Qed.

Lemma free_risc_agc_setup dev ctl :
  cx88sdr_free_risc_inst_buffer (cx88sdr_agc_setup dev ctl) =
  cx88sdr_free_risc_inst_buffer dev.
Proof. reflexivity. Qed.

Lemma free_risc_input_set dev ctl :
  cx88sdr_free_risc_inst_buffer (cx88sdr_input_set dev ctl) =
  cx88sdr_free_risc_inst_buffer dev.
Proof. reflexivity. Qed.

(** The steps of cx88sdr_probe one after the other; a failed step leaves
    its condition as [false] in the context. *)
Ltac probe_steps env dev0 pg0 tac :=
  unfold cx88sdr_probe; cbv zeta;
  match goal with
  | |- context [?d =? CX88SDR_MAX_CARDS] =>
      destruct (Z.eqb_spec d CX88SDR_MAX_CARDS) as [E0|E0]; [tac|]
  end;
  destruct (Z.eqb_spec (env_enable env) 0) as [E1|E1]; cbn [negb]; [|tac];
  destruct (Z.eqb_spec (env_dma_mask env) 0) as [E2|E2]; cbn [negb]; [|tac];
  destruct (env_kzalloc env) eqn:E3; cbn [negb]; [|tac];
  destruct (Z.eqb_spec (env_regions env) 0) as [E4|E4]; cbn [negb]; [|tac];
  destruct (Z.eqb_spec
              (fst (cx88sdr_alloc_risc_inst_buffer dev0 (env_risc env))) 0)
    as [E5|E5]; cbn [negb]; [|tac];
  destruct (Z.eqb_spec
              (fst (fst (cx88sdr_alloc_dma_buffer (env_page env) pg0))) 0)
    as [E6|E6]; cbn [negb]; [|tac];
  destruct (env_ioremap env) eqn:E7; cbn [negb]; [|tac];
  destruct (Z.eqb_spec (env_irq env) 0) as [E8|E8]; cbn [negb]; [|tac];
  destruct (Z.eqb_spec (env_v4l2 env) 0) as [E9|E9]; cbn [negb]; [|tac];
  destruct (Z.eqb_spec (env_hdl_error env) 0) as [E10|E10]; cbn [negb]; [|tac];
  destruct (Z.eqb_spec (env_video env) 0) as [E11|E11]; cbn [negb]; [|tac].

Ltac errno_absurd :=
  exfalso;
  first [ congruence | tauto | unfold EFAULT, ENOMEM, ENODEV in *; lia ].

Ltac probe_failed :=
  cbn [po_ret po_devcount];
  split;
  [ split;
    [ intros H0
    | intros (Hd & (H1 & H2 & H3 & H4 & H5 & H6 & H7 & H8) & H9 & H10 & H11) ];
    errno_absurd
  | match goal with
    | |- _ = if ?r =? 0 then _ else _ =>
        destruct (Z.eqb_spec r 0) as [H0|H0]; [errno_absurd|reflexivity]
    end ].

Lemma probe_ret_spec (CU8 : Z) (env : probe_env) (devcount : Z)
    (dev0 : cx88sdr_dev) (pg0 : dma_pages) (ctl0 : sdr_ctl) :
  length (pg_virt pg0) = Z.to_nat (VBI_DMA_PAGES + 1) ->
  length (pg_phy pg0) = Z.to_nat (VBI_DMA_PAGES + 1) ->
  let out := cx88sdr_probe CU8 env devcount dev0 pg0 ctl0 in
  (po_ret out = 0 <-> devcount <> CX88SDR_MAX_CARDS /\ env_ok env) /\
  po_devcount out = (if po_ret out =? 0 then devcount + 1 else devcount).
Proof.
  intros Lv Lp out. subst out. unfold env_ok, env_started.
  pose proof (alloc_risc_ret dev0 (env_risc env)) as HR.
  pose proof (alloc_dma_buffer_ret (env_page env) pg0 Lv Lp) as HA.
  probe_steps env dev0 pg0 probe_failed.
  cbn [po_ret po_devcount]. split; [|reflexivity].
  split; [intros _|reflexivity].
  pose proof (proj1 HR E5) as E5'. pose proof (proj1 HA E6) as E6'.
  split; [exact E0|].
  repeat split; first [assumption | reflexivity].
Qed.

(** X22: cx88sdr_probe returns 0 exactly when the card limit is not
    reached and every kernel call it depends on succeeds (all of the
    VBI_DMA_PAGES page allocations included); the device count goes up by
    one exactly then and is unchanged by a failed probe. *)
Theorem probe_succeeds_iff (CU8 : Z) (env : probe_env) (devcount : Z)
    (dev0 : cx88sdr_dev) (pg0 : dma_pages) (ctl0 : sdr_ctl) :
  length (pg_virt pg0) = Z.to_nat (VBI_DMA_PAGES + 1) ->
  length (pg_phy pg0) = Z.to_nat (VBI_DMA_PAGES + 1) ->
  let out := cx88sdr_probe CU8 env devcount dev0 pg0 ctl0 in
  (po_ret out = 0 <-> devcount <> CX88SDR_MAX_CARDS /\ env_ok env) /\
  po_devcount out = (if po_ret out =? 0 then devcount + 1 else devcount).
Proof. apply probe_ret_spec. Qed.

Lemma example_env_started : env_started example_env.
Proof.
  unfold env_started, example_env.
  cbn [env_enable env_dma_mask env_kzalloc env_regions env_risc env_page
       env_ioremap env_irq fst].
  repeat (split; [first [reflexivity | discriminate]|]).
  split; [intros j Hj; lia|]. split; reflexivity.
Qed.

Lemma example_env_ok : env_ok example_env.
Proof.
  split; [exact example_env_started|]. split; [reflexivity|].
  split; reflexivity.
Qed.

Lemma example_env_late_started : env_started example_env_late.
Proof. exact example_env_started. Qed.

Lemma probe_succeeds_iff_witness :
  let out := cx88sdr_probe 0 example_env 0 zero_dev zero_pages zero_ctl in
  (po_ret out = 0 <-> 0 <> CX88SDR_MAX_CARDS /\ env_ok example_env) /\
  po_devcount out = (if po_ret out =? 0 then 0 + 1 else 0).
Proof.
  apply (probe_succeeds_iff 0 example_env 0 zero_dev zero_pages zero_ctl).
  - apply repeat_length.
  - apply repeat_length.
Defined.

Ltac trace_norm Lv Lp :=
  cbn [po_ret po_trace po_pages po_dev po_devcount];
  unfold acquired, released, unwind_free_v4l2, unwind_free_irq,
    unwind_free_mmio, unwind_free_dma_buffer, unwind_free_risc_inst_buffer,
    unwind_free_pci_regions, unwind_disable_device;
  rewrite ?free_risc_iowrite, ?free_risc_input_set, ?free_risc_agc_setup,
    ?free_risc_rate_set, ?free_risc_adc_setup, ?free_risc_sram_setup,
    ?free_risc_shutdown, ?free_risc_made;
  rewrite ?filter_app, ?flat_map_app;
  rewrite ?mmio_calls_acquired, ?mmio_calls_released,
    ?alloc_dma_calls_acquired, ?alloc_dma_calls_released,
    ?free_dma_calls_acquired, ?(free_releases_allocated _ _ Lv Lp).

(** Two traces with the same entries, counted. *)
Ltac perm_count :=
  try match goal with
      | |- context [alloc_dma_calls ?p] =>
          generalize (alloc_dma_calls p); intros P
      end;
  apply (Permutation_count_occ kcall_eq_dec); intros x;
  rewrite ?count_occ_app; destruct x; simpl; lia.

Ltac probe_leaks Lv Lp n :=
  intros _; trace_norm Lv Lp;
  match n with
  | 0%nat => exists []; split; [perm_count | left; reflexivity]
  | _ => exists [K_list_add_tail];
         split; [perm_count | right; right; reflexivity]
  end.

(** X23: when cx88sdr_probe fails, what its error path gives back is,
    entry for entry, what it had acquired, with two exceptions only: the
    DMA pages the allocator had handed out when a page allocation is what
    failed, and the entry in the device list. *)
Theorem probe_failure_unwinds (CU8 : Z) (env : probe_env) (devcount : Z)
    (dev0 : cx88sdr_dev) (pg0 : dma_pages) (ctl0 : sdr_ctl) :
  length (pg_virt pg0) = Z.to_nat (VBI_DMA_PAGES + 1) ->
  length (pg_phy pg0) = Z.to_nat (VBI_DMA_PAGES + 1) ->
  let out := cx88sdr_probe CU8 env devcount dev0 pg0 ctl0 in
  po_ret out <> 0 ->
  exists leaked,
    Permutation (acquired (po_trace out)) (released (po_trace out) ++ leaked) /\
    (leaked = [] \/ leaked = alloc_dma_calls (env_page env) \/
     leaked = [K_list_add_tail]).
Proof.
  intros Lv Lp out. subst out.
  unfold cx88sdr_probe; cbv zeta.
  destruct (Z.eqb_spec devcount CX88SDR_MAX_CARDS) as [E0|E0];
    [probe_leaks Lv Lp 0%nat|].
  destruct (Z.eqb_spec (env_enable env) 0) as [E1|E1]; cbn [negb];
    [|probe_leaks Lv Lp 0%nat].
  destruct (Z.eqb_spec (env_dma_mask env) 0) as [E2|E2]; cbn [negb];
    [|probe_leaks Lv Lp 0%nat].
  destruct (env_kzalloc env) eqn:E3; cbn [negb]; [|probe_leaks Lv Lp 0%nat].
  destruct (Z.eqb_spec (env_regions env) 0) as [E4|E4]; cbn [negb];
    [|probe_leaks Lv Lp 0%nat].
  destruct (Z.eqb_spec
              (fst (cx88sdr_alloc_risc_inst_buffer dev0 (env_risc env))) 0)
    as [E5|E5]; cbn [negb]; [|probe_leaks Lv Lp 0%nat].
  destruct (Z.eqb_spec
              (fst (fst (cx88sdr_alloc_dma_buffer (env_page env) pg0))) 0)
    as [E6|E6]; cbn [negb].
  2:{ intros _; trace_norm Lv Lp. rewrite (free_risc_alloc _ _ _ E5).
      exists (alloc_dma_calls (env_page env)).
      split; [perm_count | right; left; reflexivity]. }
  destruct (env_ioremap env) eqn:E7; cbn [negb]; [|probe_leaks Lv Lp 0%nat].
  destruct (Z.eqb_spec (env_irq env) 0) as [E8|E8]; cbn [negb];
    [|probe_leaks Lv Lp 0%nat].
  destruct (Z.eqb_spec (env_v4l2 env) 0) as [E9|E9]; cbn [negb];
    [|probe_leaks Lv Lp 2%nat].
  destruct (Z.eqb_spec (env_hdl_error env) 0) as [E10|E10]; cbn [negb];
    [|probe_leaks Lv Lp 2%nat].
  destruct (Z.eqb_spec (env_video env) 0) as [E11|E11]; cbn [negb];
    [|probe_leaks Lv Lp 2%nat].
  cbn [po_ret]. intros Hret. now contradiction Hret.
Qed.

Lemma probe_failure_unwinds_witness :
  let out := cx88sdr_probe 0 example_env_late 0 zero_dev zero_pages zero_ctl in
  po_ret out <> 0 /\
  exists leaked,
    Permutation (acquired (po_trace out)) (released (po_trace out) ++ leaked) /\
    (leaked = [] \/ leaked = alloc_dma_calls (env_page example_env_late) \/
     leaked = [K_list_add_tail]).
Proof.
  assert (H : po_ret (cx88sdr_probe 0 example_env_late 0 zero_dev zero_pages
                        zero_ctl) <> 0).
  { intros E.
    apply (probe_ret_spec 0 example_env_late 0 zero_dev zero_pages zero_ctl
             (repeat_length _ _) (repeat_length _ _)) in E.
    destruct E as (_ & _ & _ & _ & V). discriminate V. }
  split; [exact H|].
  apply (probe_failure_unwinds 0 example_env_late 0 zero_dev zero_pages
           zero_ctl (repeat_length _ _) (repeat_length _ _) H).
Defined.

Lemma skipn_app_exact {A : Type} (l ws : list A) : skipn (length l) (l ++ ws) = ws.
Proof. induction l as [|a l IH]; [reflexivity|exact IH]. Qed.

Lemma mmio_calls_app dev dev' ws :
  mmio_log dev' = mmio_log dev ++ ws ->
  mmio_calls dev dev' = map (fun w => K_mmio_write (fst w) (snd w)) ws.
Proof. intros E. unfold mmio_calls. now rewrite E, skipn_app_exact. Qed.

Lemma shutdown_log dev :
  mmio_log (cx88sdr_shutdown dev) =
  mmio_log dev ++
  [ (MO_DEV_CNTRL2, 0); (MO_VID_DMACNTRL, 0); (MO_PCI_INTMSK, 0);
    (MO_VID_INTMSK, 0); (MO_CAPTURE_CTRL, 0); (MO_VID_INTSTAT, 2 ^ 32 - 1) ].
Proof.
  unfold cx88sdr_shutdown. rewrite !mmio_iowrite32_app, <- !app_assoc.
  reflexivity.
Qed.

Lemma rate_set_initial dev CU8 :
  cx88sdr_rate_set dev (mk_ctl 0 VMUX_01 RATE_8FSC_8BIT CU8 1) =
  rate_regs dev (Z.lor (Z.shiftl 1 6) (Z.shiftl 3 1)) (Z.shiftl 1 17)
            (Z.shiftl 0x10 20).
Proof. reflexivity. Qed.

(** What the register trace looks like once cx88sdr_probe has set the
    initial values. *)
Lemma probe_start_log dev intstat CU8 :
  exists ws,
    mmio_log (cx88sdr_input_set
                (cx88sdr_agc_setup
                   (cx88sdr_rate_set (cx88sdr_adc_setup dev intstat)
                      (mk_ctl 0 VMUX_01 RATE_8FSC_8BIT CU8 1))
                   (mk_ctl 0 VMUX_01 RATE_8FSC_8BIT CU8 1))
                (mk_ctl 0 VMUX_01 RATE_8FSC_8BIT CU8 1)) = mmio_log dev ++ ws /\
    mmio_last ws MO_VID_DMACNTRL = Some 0x88 /\
    mmio_last ws MO_DEV_CNTRL2 = Some 0x20.
Proof.
  unfold cx88sdr_input_set, cx88sdr_agc_setup, cx88sdr_gain_set.
  rewrite !mmio_iowrite32_app, rate_set_initial.
  unfold rate_regs, cx88sdr_adc_setup.
  rewrite !mmio_iowrite32_app, <- !app_assoc.
  eexists. split; [reflexivity|]. split; reflexivity.
Qed.

Lemma alloc_calls_only alloc n c : forall i,
  In c (alloc_calls alloc n i) -> exists v p, c = K_dma_alloc_page v p.
Proof.
  induction n as [|n IH]; intros i; cbn [alloc_calls]; [contradiction|].
  destruct (fst (alloc i) =? 0); [contradiction|].
  intros [<-|Hin]; [eauto|]. now apply (IH (S i)).
Qed.

Lemma alloc_dma_calls_only alloc c :
  In c (alloc_dma_calls alloc) -> exists v p, c = K_dma_alloc_page v p.
Proof. apply alloc_calls_only. Qed.

Lemma free_dma_calls_only pg c :
  In c (free_dma_calls pg) -> exists v p, c = K_dma_free_page v p.
Proof.
  unfold free_dma_calls. intros Hin. apply in_map_iff in Hin as (p & <- & _).
  now exists (fst p), (snd p).
Qed.

Lemma free_risc_only dev c :
  In c (cx88sdr_free_risc_inst_buffer dev) -> c = K_dma_free_risc.
Proof.
  unfold cx88sdr_free_risc_inst_buffer.
  destruct (risc_inst_virt dev); cbn [In]; intros Hin; [contradiction|].
  destruct Hin as [<-|[]]. reflexivity.
Qed.

(** An entry that is none of the releases is in no block of a trace of
    releases. *)
Ltac not_in_trace Hin :=
  repeat match type of Hin with
         | In _ (_ ++ _) => apply in_app_or in Hin as [Hin|Hin]
         end;
  first
    [ apply free_dma_calls_only in Hin as (? & ? & Hin); discriminate Hin
    | apply alloc_dma_calls_only in Hin as (? & ? & Hin); discriminate Hin
    | apply free_risc_only in Hin; discriminate Hin
    | cbn [In] in Hin;
      repeat match type of Hin with
             | _ \/ _ => destruct Hin as [Hin|Hin]
             end;
      first [discriminate Hin | contradiction] ].

(** X24: when the allocation of page [k] fails, cx88sdr_probe returns
    -ENOMEM and its trace ends with the release of the instruction buffer,
    the regions and the device: the [k] pages it had obtained are not
    given back. *)
Theorem probe_page_alloc_failure_leaks (CU8 : Z) (env : probe_env)
    (devcount : Z) (dev0 : cx88sdr_dev) (pg0 : dma_pages) (ctl0 : sdr_ctl)
    (k : nat) :
  length (pg_virt pg0) = Z.to_nat (VBI_DMA_PAGES + 1) ->
  length (pg_phy pg0) = Z.to_nat (VBI_DMA_PAGES + 1) ->
  devcount <> CX88SDR_MAX_CARDS ->
  env_enable env = 0 -> env_dma_mask env = 0 -> env_kzalloc env = true ->
  env_regions env = 0 ->
  env_risc env (VBI_DMA_BUF_NUM * CLUSTER_BUF_NUM + PAGE_SIZE) <> None ->
  (k < Z.to_nat VBI_DMA_PAGES)%nat ->
  (forall j, (j < k)%nat -> fst (env_page env j) <> 0) ->
  fst (env_page env k) = 0 ->
  let out := cx88sdr_probe CU8 env devcount dev0 pg0 ctl0 in
  po_ret out = - ENOMEM /\
  po_devcount out = devcount /\
  po_trace out =
    [K_pci_enable_device; K_pci_set_master; K_devm_kzalloc; K_pci_lat_set;
     K_pci_request_regions; K_dma_alloc_risc]
    ++ map (fun j => K_dma_alloc_page (fst (env_page env j)) (snd (env_page env j)))
           (seq 0 k)
    ++ [K_dma_free_risc; K_pci_release_regions; K_pci_disable_device].
Proof.
  intros Lv Lp Hd H1 H2 H3 H4 H5 Hk Hok Hz out. subst out.
  pose proof (proj2 (alloc_risc_ret dev0 (env_risc env)) H5) as HR.
  destruct (alloc_dma_buffer_spec (env_page env) pg0 k Lv Lp
              (Nat.lt_le_incl _ _ Hk) Hok (fun _ => Hz)) as (HA & _).
  rewrite (proj2 (Nat.eqb_neq _ _) (Nat.lt_neq _ _ Hk)) in HA.
  unfold cx88sdr_probe. cbv zeta.
  destruct (Z.eqb_spec devcount CX88SDR_MAX_CARDS) as [E0|_]; [contradiction|].
  rewrite H1, H2, H3, H4, HR, HA.
  change (0 =? 0) with true. change (- ENOMEM =? 0) with false.
  cbn [negb po_ret po_devcount po_trace].
  split; [reflexivity|]. split; [reflexivity|].
  unfold unwind_free_risc_inst_buffer, unwind_free_pci_regions,
    unwind_disable_device.
  rewrite (free_risc_alloc _ _ _ HR).
  rewrite (alloc_dma_calls_spec (env_page env) k (Nat.lt_le_incl _ _ Hk) Hok
             (fun _ => Hz)), <- !app_assoc.
  reflexivity.
Qed.

Lemma probe_page_alloc_failure_leaks_witness :
  let out := cx88sdr_probe 0 example_env_pages 0 zero_dev zero_pages zero_ctl in
  po_ret out = - ENOMEM /\
  po_devcount out = 0 /\
  po_trace out =
    [K_pci_enable_device; K_pci_set_master; K_devm_kzalloc; K_pci_lat_set;
     K_pci_request_regions; K_dma_alloc_risc]
    ++ map (fun j => K_dma_alloc_page (fst (env_page example_env_pages j))
                                      (snd (env_page example_env_pages j)))
           (seq 0 3)
    ++ [K_dma_free_risc; K_pci_release_regions; K_pci_disable_device].
Proof.
  pose proof VBI_DMA_PAGES_eq as HN.
  apply (probe_page_alloc_failure_leaks 0 example_env_pages 0 zero_dev
           zero_pages zero_ctl 3).
  - apply repeat_length.
  - apply repeat_length.
  - discriminate.
  - reflexivity.
  - reflexivity.
  - reflexivity.
  - reflexivity.
  - discriminate.
  - lia.
  - apply example_alloc_ok.
  - reflexivity.
Defined.

Ltac in_blocks tac :=
  first [ tac
        | apply in_or_app; first [ left; in_blocks tac | right; in_blocks tac ] ].

Ltac late_branch CU8 HF :=
  cbn [po_ret po_devcount po_dev po_trace];
  split; [assumption|]; split; [reflexivity|];
  match goal with
  | |- context [cx88sdr_adc_setup ?D ?i] =>
      let ws := fresh "ws" in
      let Hlog := fresh "Hlog" in
      let HD := fresh "HD" in
      let HC := fresh "HC" in
      destruct (probe_start_log D i CU8) as (ws & Hlog & HD & HC);
      split; [rewrite Hlog, mmio_last_app, HD; reflexivity|];
      split; [rewrite Hlog, mmio_last_app, HC; reflexivity|];
      clear Hlog HD HC
  end;
  unfold unwind_free_v4l2, unwind_free_irq, unwind_free_mmio,
    unwind_free_dma_buffer, unwind_free_risc_inst_buffer,
    unwind_free_pci_regions, unwind_disable_device;
  rewrite ?free_risc_iowrite, ?free_risc_input_set, ?free_risc_agc_setup,
    ?free_risc_rate_set, ?free_risc_adc_setup, ?free_risc_sram_setup,
    ?free_risc_shutdown, ?free_risc_made;
  match goal with
  | |- exists t1 t2,
         ((?T ++ ?M ++ [K_list_add_tail]) ++ ?V) ++ ?U = _ /\ _ =>
      exists (T ++ M), (V ++ U)
  | |- exists t1 t2, (?T ++ ?M ++ [K_list_add_tail]) ++ ?U = _ /\ _ =>
      exists (T ++ M), U
  end;
  let Hin := fresh "Hin" in
  split; [rewrite <- !app_assoc; reflexivity|];
  split; [intros reg val Hin; not_in_trace Hin|];
  split; [intros Hin; not_in_trace Hin|];
  intros j Hj; unfold free_dma_calls; rewrite HF;
  in_blocks ltac:(apply in_map_iff; eexists; split;
                  [reflexivity | apply in_map, in_seq; lia]).

(** X25: when cx88sdr_probe fails after it has started the card (the V4L2
    device, the controls or the video device are refused), it returns the
    error with the device count unchanged, but nothing it does after
    putting the device on the list writes a register or takes the device
    off the list again: every DMA page is freed while the DMA control
    register still holds the start value. *)
Theorem probe_late_failure_frees_live_pages (CU8 : Z) (env : probe_env)
    (devcount : Z) (dev0 : cx88sdr_dev) (pg0 : dma_pages) (ctl0 : sdr_ctl) :
  length (pg_virt pg0) = Z.to_nat (VBI_DMA_PAGES + 1) ->
  length (pg_phy pg0) = Z.to_nat (VBI_DMA_PAGES + 1) ->
  devcount <> CX88SDR_MAX_CARDS ->
  env_started env ->
  (env_v4l2 env <> 0 \/ env_hdl_error env <> 0 \/ env_video env <> 0) ->
  let out := cx88sdr_probe CU8 env devcount dev0 pg0 ctl0 in
  po_ret out <> 0 /\
  po_devcount out = devcount /\
  mmio_last (mmio_log (po_dev out)) MO_VID_DMACNTRL = Some 0x88 /\
  mmio_last (mmio_log (po_dev out)) MO_DEV_CNTRL2 = Some 0x20 /\
  exists t1 t2,
    po_trace out = t1 ++ K_list_add_tail :: t2 /\
    (forall reg val, ~ In (K_mmio_write reg val) t2) /\
    ~ In K_list_del t2 /\
    (forall j, (j < Z.to_nat VBI_DMA_PAGES)%nat ->
       In (K_dma_free_page (fst (env_page env j)) (snd (env_page env j))) t2).
Proof.
  intros Lv Lp Hd (H1 & H2 & H3 & H4 & H5 & H6 & H7 & H8) Hlate out. subst out.
  pose proof (proj2 (alloc_risc_ret dev0 (env_risc env)) H5) as HR.
  pose proof (proj2 (alloc_dma_buffer_ret (env_page env) pg0 Lv Lp) H6) as HA.
  pose proof (free_after_alloc (env_page env) pg0 (Z.to_nat VBI_DMA_PAGES) Lv Lp
                (Nat.le_refl _) H6
                (fun H => False_ind _ (Nat.lt_irrefl _ H))) as HF.
  unfold cx88sdr_probe. cbv zeta.
  destruct (Z.eqb_spec devcount CX88SDR_MAX_CARDS) as [E0|_]; [contradiction|].
  rewrite H1, H2, H3, H4, HR, HA, H7, H8.
  change (0 =? 0) with true. cbn [negb].
  destruct (Z.eqb_spec (env_v4l2 env) 0) as [E9|E9]; cbn [negb];
    [|late_branch CU8 HF].
  destruct (Z.eqb_spec (env_hdl_error env) 0) as [E10|E10]; cbn [negb];
    [|late_branch CU8 HF].
  destruct (Z.eqb_spec (env_video env) 0) as [E11|E11]; cbn [negb];
    [|late_branch CU8 HF].
  exfalso. tauto.
Qed.

Lemma probe_late_failure_frees_live_pages_witness :
  let out := cx88sdr_probe 0 example_env_late 0 zero_dev zero_pages zero_ctl in
  po_ret out <> 0 /\
  po_devcount out = 0 /\
  mmio_last (mmio_log (po_dev out)) MO_VID_DMACNTRL = Some 0x88 /\
  mmio_last (mmio_log (po_dev out)) MO_DEV_CNTRL2 = Some 0x20 /\
  exists t1 t2,
    po_trace out = t1 ++ K_list_add_tail :: t2 /\
    (forall reg val, ~ In (K_mmio_write reg val) t2) /\
    ~ In K_list_del t2 /\
    (forall j, (j < Z.to_nat VBI_DMA_PAGES)%nat ->
       In (K_dma_free_page (fst (env_page example_env_late j))
                           (snd (env_page example_env_late j))) t2).
Proof.
  apply (probe_late_failure_frees_live_pages 0 example_env_late 0 zero_dev
           zero_pages zero_ctl).
  - apply repeat_length.
  - apply repeat_length.
  - discriminate.
  - exact example_env_late_started.
  - right. right. discriminate.
Defined.

Ltac probe_returned_error :=
  let Hret := fresh "Hret" in
  cbn [po_ret]; intros Hret; errno_absurd.

(** X26: cx88sdr_remove after a successful cx88sdr_probe brings the device
    count back, and gives back exactly what the probe had acquired, the
    pages the allocator handed out included (the probe itself releases
    nothing, the removal acquires nothing); it starts with the six
    register writes of cx88sdr_shutdown, DMA stop among them, and writes
    no register after that. *)
Theorem probe_then_remove_releases_all (CU8 : Z) (env : probe_env)
    (devcount : Z) (dev0 : cx88sdr_dev) (pg0 : dma_pages) (ctl0 : sdr_ctl) :
  length (pg_virt pg0) = Z.to_nat (VBI_DMA_PAGES + 1) ->
  length (pg_phy pg0) = Z.to_nat (VBI_DMA_PAGES + 1) ->
  let out := cx88sdr_probe CU8 env devcount dev0 pg0 ctl0 in
  po_ret out = 0 ->
  let r := cx88sdr_remove (po_devcount out) (po_dev out) (po_pages out) in
  fst (fst r) = devcount /\
  released (po_trace out) = [] /\
  acquired (snd r) = [] /\
  Permutation (released (snd r)) (acquired (po_trace out)) /\
  (forall j, (j < Z.to_nat VBI_DMA_PAGES)%nat ->
     In (K_dma_alloc_page (fst (env_page env j)) (snd (env_page env j)))
        (acquired (po_trace out))) /\
  exists t,
    snd r =
      [ K_mmio_write MO_DEV_CNTRL2 0; K_mmio_write MO_VID_DMACNTRL 0;
        K_mmio_write MO_PCI_INTMSK 0; K_mmio_write MO_VID_INTMSK 0;
        K_mmio_write MO_CAPTURE_CTRL 0;
        K_mmio_write MO_VID_INTSTAT (2 ^ 32 - 1) ] ++ t /\
    forall reg val, ~ In (K_mmio_write reg val) t.
Proof.
  intros Lv Lp out. subst out.
  pose proof (alloc_dma_buffer_ret (env_page env) pg0 Lv Lp) as HA.
  probe_steps env dev0 pg0 probe_returned_error.
  intros _.
  unfold cx88sdr_remove. cbn [fst snd po_devcount po_dev po_pages po_trace].
  split; [lia|].
  rewrite (mmio_calls_app _ _ _ (shutdown_log _)).
  trace_norm Lv Lp.
  split; [reflexivity|]. split; [reflexivity|]. split; [perm_count|].
  split.
  - intros j Hj.
    rewrite (alloc_dma_calls_spec (env_page env) (Z.to_nat VBI_DMA_PAGES)
               (Nat.le_refl _) (proj1 HA E6)
               (fun H => False_ind _ (Nat.lt_irrefl _ H))).
    in_blocks ltac:(apply in_map_iff; exists j; split;
                    [reflexivity | apply in_seq; lia]).
  - eexists. split; [reflexivity|].
    intros reg val Hin. not_in_trace Hin.
Qed.

Lemma probe_then_remove_releases_all_witness :
  let out := cx88sdr_probe 0 example_env 0 zero_dev zero_pages zero_ctl in
  po_ret out = 0 /\
  let r := cx88sdr_remove (po_devcount out) (po_dev out) (po_pages out) in
  fst (fst r) = 0 /\
  released (po_trace out) = [] /\
  acquired (snd r) = [] /\
  Permutation (released (snd r)) (acquired (po_trace out)) /\
  (forall j, (j < Z.to_nat VBI_DMA_PAGES)%nat ->
     In (K_dma_alloc_page (fst (env_page example_env j))
                          (snd (env_page example_env j)))
        (acquired (po_trace out))) /\
  exists t,
    snd r =
      [ K_mmio_write MO_DEV_CNTRL2 0; K_mmio_write MO_VID_DMACNTRL 0;
        K_mmio_write MO_PCI_INTMSK 0; K_mmio_write MO_VID_INTMSK 0;
        K_mmio_write MO_CAPTURE_CTRL 0;
        K_mmio_write MO_VID_INTSTAT (2 ^ 32 - 1) ] ++ t /\
    forall reg val, ~ In (K_mmio_write reg val) t.
Proof.
  assert (H : po_ret (cx88sdr_probe 0 example_env 0 zero_dev zero_pages
                        zero_ctl) = 0).
  { apply (probe_ret_spec 0 example_env 0 zero_dev zero_pages zero_ctl
             (repeat_length _ _) (repeat_length _ _)).
    split; [discriminate|exact example_env_ok]. }
  split; [exact H|].
  apply (probe_then_remove_releases_all 0 example_env 0 zero_dev zero_pages
           zero_ctl (repeat_length _ _) (repeat_length _ _) H).
Defined.
